(** * Assessment recommendation engine: a shallow embedding of the backend

    The Python sources under [backend/] are embedded module by module:
    [evaluation.py] as [Evaluation], [embeddings.py] as [Embeddings],
    [vector_store.py] as [VectorStore], [rag_pipeline.py] as
    [RagPipeline], [scraper.py] as [Scraper] and [server.py] as
    [Server].  The library calls they rest on are embedded with them:
    [hashlib.sha256] as [Sha256], and [repr], [str] and [eval] on lists of
    strings.  Python values are modelled as follows.

    - [str] is a Rocq [string]; each character is a Unicode code point below
      U+0100, so [lower], [strip], [repr] and the UTF-8 encoder are total and
      written out for that range.
    - [int] is [Z]; [float] is the kernel's binary64 [float].
    - a cell of the test sheet is a text or blank; a blank cell is the NaN
      that [pandas] reads it as, which [unique] lists once and which [==]
      finds equal to nothing.
    - a [dict] with a fixed set of keys is a record, with option fields
      where a key may be absent; a [dict] used as a map is a [gmap], a
      [set] a [gset].
    - a call that may raise returns a [result], whose [exn] stands for the
      instances of [Exception]; [try ... except Exception] is
      [try_except].
    - the services outside the repository (the generative model, the
      vector database, the web, the database, the spreadsheet reader) are
      parameters: functions that may raise.  So are the builtins [sum] and
      [round] on floats, [str.title] and the regular-expression search of
      [_extract_duration].
    - the endpoints of [server.py] run on the state of the stores: a step
      is an [action], which returns or raises and leaves a state; an
      [HTTPException] is an exception like the others. *)

From Stdlib Require Import ZArith List String Ascii Floats Uint63.
From stdpp Require Import gmap strings list pretty.
Import ListNotations.

(** ** Python basics *)

(** Instances of [Exception] that the modelled code can see. *)
Inductive exn : Type :=
| KeyError (key : string)
| IndexError
| ValueError
| TypeError
| ZeroDivisionError
| ServiceError (msg : string).

Inductive result (A : Type) : Type :=
| Ok (a : A)
| Raise (e : exn).

Arguments Ok {A} a.
Arguments Raise {A} e.

#[global] Instance result_ret : MRet result := fun A a => Ok a.

#[global] Instance result_bind : MBind result := fun A B k r =>
  match r with
  | Ok a => k a
  | Raise e => Raise e
  end.

(** [try: body except Exception as e: handler(e)]. *)
Definition try_except {A : Type} (body : result A) (handler : exn -> result A)
  : result A :=
  match body with
  | Ok a => Ok a
  | Raise e => handler e
  end.

(** [l[:k]] for a list [l] and an [int] [k]; a negative [k] counts from the
    end. *)
Definition py_slice_to {A : Type} (k : Z) (l : list A) : list A :=
  if (k <? 0)%Z then firstn (Z.to_nat (Z.of_nat (length l) + k)) l
  else firstn (Z.to_nat k) l.

(** [float(n)] for an [int] [n] with [0 <= n < 2^53], where the conversion
    is exact. *)
Definition float_of_int (n : Z) : float :=
  PrimFloat.of_uint63 (Uint63.of_Z n).

(** [a / b] on two [int]s in that range. *)
Definition py_truediv (a b : Z) : result float :=
  if (b =? 0)%Z then Raise ZeroDivisionError
  else Ok (PrimFloat.div (float_of_int a) (float_of_int b)).

(** [x in l] for a list of strings. *)
Definition py_in (x : string) (l : list string) : bool :=
  existsb (String.eqb x) l.

(** [text.encode()]: the UTF-8 code units of a string of code points below
    U+0100 (one byte below U+0080, two bytes from there on). *)
Definition utf8_of_code_point (c : Z) : list Z :=
  if (c <? 128)%Z then [c]
  else [(192 + c / 64)%Z; (128 + c mod 64)%Z].

Fixpoint encode (text : string) : list Z :=
  match text with
  | EmptyString => []
  | String c rest => utf8_of_code_point (Z.of_nat (nat_of_ascii c)) ++ encode rest
  end.

(** *** [str] methods, on code points below U+0100 *)

Definition code (c : ascii) : nat := nat_of_ascii c.

Definition between (lo hi n : nat) : bool := (lo <=? n)%nat && (n <=? hi)%nat.

(** [c.lower()]: the ASCII capitals and the capitals U+00C0..U+00DE, the
    multiplication sign U+00D7 apart, move up by 32. *)
Definition lower_char (c : ascii) : ascii :=
  let n := code c in
  if between 65 90 n || between 192 214 n || between 216 222 n
  then ascii_of_nat (n + 32)
  else c.

Fixpoint str_lower (s : string) : string :=
  match s with
  | EmptyString => EmptyString
  | String c rest => String (lower_char c) (str_lower rest)
  end.

(** [c.isspace()]: U+0009..U+000D, U+001C..U+0020, U+0085 and U+00A0. *)
Definition py_isspace (c : ascii) : bool :=
  let n := code c in
  between 9 13 n || between 28 32 n || (n =? 133)%nat || (n =? 160)%nat.

Fixpoint str_lstrip (s : string) : string :=
  match s with
  | EmptyString => EmptyString
  | String c rest => if py_isspace c then str_lstrip rest else s
  end.

Fixpoint str_rstrip (s : string) : string :=
  match s with
  | EmptyString => EmptyString
  | String c rest =>
      match str_rstrip rest with
      | EmptyString => if py_isspace c then EmptyString else String c EmptyString
      | String _ _ as rest' => String c rest'
      end
  end.

(** [s.strip()]. *)
Definition str_strip (s : string) : string := str_rstrip (str_lstrip s).

(** [s.split(sep)] for a one-character separator: every occurrence of the
    separator ends a piece, empty pieces are kept, and one piece more
    follows the last separator. *)
Fixpoint str_split (sep : ascii) (s : string) : list string :=
  match s with
  | EmptyString => [EmptyString]
  | String c rest =>
      if Ascii.eqb c sep then EmptyString :: str_split sep rest
      else match str_split sep rest with
           | [] => [String c EmptyString]
           | piece :: pieces => String c piece :: pieces
           end
  end.

(** [sub in s]. *)
Fixpoint str_contains (sub s : string) : bool :=
  String.prefix sub s
  || match s with
     | EmptyString => false
     | String _ rest => str_contains sub rest
     end.

(** [c] matches [\d]: below U+0100 the decimal digits are [0] to [9]. *)
Definition is_digit (c : ascii) : bool := between 48 57 (code c).

Definition LF : ascii := ascii_of_nat 10.

(** ** hashlib.sha256 (FIPS 180-4), on 32-bit words held in [Z] *)

Module Sha256.

Local Open Scope Z_scope.

Definition add32 (x y : Z) : Z := (x + y) mod 2 ^ 32.

Definition rotr (n x : Z) : Z :=
  Z.lor (Z.shiftr x n) (Z.shiftl x (32 - n) mod 2 ^ 32).

Definition Ch (x y z : Z) : Z :=
  Z.lxor (Z.land x y) (Z.land (Z.lxor x 0xffffffff) z).

Definition Maj (x y z : Z) : Z :=
  Z.lxor (Z.lxor (Z.land x y) (Z.land x z)) (Z.land y z).

Definition Sigma0 (x : Z) : Z :=
  Z.lxor (Z.lxor (rotr 2 x) (rotr 13 x)) (rotr 22 x).

Definition Sigma1 (x : Z) : Z :=
  Z.lxor (Z.lxor (rotr 6 x) (rotr 11 x)) (rotr 25 x).

Definition sigma0 (x : Z) : Z :=
  Z.lxor (Z.lxor (rotr 7 x) (rotr 18 x)) (Z.shiftr x 3).

Definition sigma1 (x : Z) : Z :=
  Z.lxor (Z.lxor (rotr 17 x) (rotr 19 x)) (Z.shiftr x 10).

(** The primes up to 311: the first 64 primes. *)
Definition is_prime (n : Z) : bool :=
  forallb (fun d => negb (n mod Z.of_nat d =? 0)) (seq 2 (Z.to_nat n - 2)).

Definition primes : list Z :=
  Eval vm_compute in filter is_prime (map Z.of_nat (seq 2 310)).

(** The integer cube root below [2^bits], one bit at a time. *)
Fixpoint cube_root_bits (bits : nat) (x root : Z) : Z :=
  match bits with
  | O => root
  | S bits' =>
      let candidate := root + 2 ^ Z.of_nat bits' in
      if candidate * candidate * candidate <=? x
      then cube_root_bits bits' x candidate
      else cube_root_bits bits' x root
  end.

(** The round constants: the first 32 bits of the fractional parts of the
    cube roots of the first 64 primes. *)
Definition K : list Z :=
  Eval vm_compute in
    map (fun p => cube_root_bits 40 (p * 2 ^ 96) 0 mod 2 ^ 32) primes.

(** The eight working variables [a .. h], also the hash value between
    blocks. *)
Record state : Type := State {
  sa : Z; sb : Z; sc : Z; sd : Z; se : Z; sf : Z; sg : Z; sh : Z
}.

(** The initial hash value: the first 32 bits of the fractional parts of
    the square roots of the first 8 primes. *)
Definition initial_word (i : nat) : Z :=
  Z.sqrt (nth i primes 0 * 2 ^ 64) mod 2 ^ 32.

Definition H0 : state :=
  Eval vm_compute in
    State (initial_word 0) (initial_word 1) (initial_word 2) (initial_word 3)
          (initial_word 4) (initial_word 5) (initial_word 6) (initial_word 7).

(** Padding: a [1] bit, zero bits up to 56 bytes modulo 64, then the bit
    length as a 64-bit big-endian integer. *)
Definition be_bytes (n : nat) (x : Z) : list Z :=
  map (fun i => Z.shiftr x (8 * Z.of_nat i) mod 256) (rev (seq 0 n)).

Definition pad (msg : list Z) : list Z :=
  let len := Z.of_nat (length msg) in
  msg ++ [0x80] ++ repeat 0 (Z.to_nat ((55 - len) mod 64))
      ++ be_bytes 8 (8 * len).

(** Big-endian 32-bit words of a byte sequence, four bytes at a time. *)
Fixpoint words (fuel : nat) (bytes : list Z) : list Z :=
  match fuel, bytes with
  | S fuel', b0 :: b1 :: b2 :: b3 :: rest =>
      (((b0 * 256 + b1) * 256 + b2) * 256 + b3) :: words fuel' rest
  | _, _ => []
  end.

(** One round: [w] holds the sixteen most recent schedule words, the head
    being the word of this round; the window is then advanced by the next
    schedule word. *)
Definition round (st : state * list Z) (k : Z) : state * list Z :=
  let '(State a b c d e f g h, w) := st in
  let wt := nth 0 w 0 in
  let t1 := add32 (add32 (add32 (add32 h (Sigma1 e)) (Ch e f g)) k) wt in
  let t2 := add32 (Sigma0 a) (Maj a b c) in
  let next :=
    add32 (add32 (add32 (sigma1 (nth 14 w 0)) (nth 9 w 0))
                 (sigma0 (nth 1 w 0))) (nth 0 w 0) in
  (State (add32 t1 t2) a b c (add32 d t1) e f g, tl w ++ [next]).

Definition compress (h : state) (block : list Z) : state :=
  let '(State a b c d e f g h', _) := fold_left round K (h, words 16 block) in
  State (add32 (sa h) a) (add32 (sb h) b) (add32 (sc h) c) (add32 (sd h) d)
        (add32 (se h) e) (add32 (sf h) f) (add32 (sg h) g) (add32 (sh h) h').

Fixpoint blocks (n : nat) (h : state) (bytes : list Z) : state :=
  match n with
  | O => h
  | S n' => blocks n' (compress h (firstn 64 bytes)) (skipn 64 bytes)
  end.

(** [hashlib.sha256(msg).digest()] as the list of its 32 byte values. *)
Definition digest (msg : list Z) : list Z :=
  let padded := pad msg in
  let h := blocks (length padded / 64)%nat H0 padded in
  be_bytes 4 (sa h) ++ be_bytes 4 (sb h) ++ be_bytes 4 (sc h)
    ++ be_bytes 4 (sd h) ++ be_bytes 4 (se h) ++ be_bytes 4 (sf h)
    ++ be_bytes 4 (sg h) ++ be_bytes 4 (sh h).

End Sha256.

(** ** embeddings.py *)

Module Embeddings.

(** [float((b % 100) / 100.0)]. *)
Definition byte_component (b : Z) : float :=
  PrimFloat.div (float_of_int (b mod 100)) 100.

(** [while len(vector) < 384:
       vector.extend(vector[:min(384 - len(vector), len(vector))])],
    with [fuel] bounding the number of iterations ([None]: fuel ran out). *)
Fixpoint extend_loop (fuel : nat) (vector : list float)
  : option (list float) :=
  if (length vector <? 384)%nat then
    match fuel with
    | O => None
    | S fuel' =>
        extend_loop fuel'
          (vector ++ firstn (Nat.min (384 - length vector) (length vector))
                            vector)
    end
  else Some vector.

Definition _simple_embedding (fuel : nat) (text : string)
  : option (list float) :=
  let text_hash := Sha256.digest (encode text) in
  let vector := map byte_component text_hash in
  match extend_loop fuel vector with
  | Some vector' => Some (py_slice_to 384 vector')
  | None => None
  end.

Section Service.

(** [genai.models.embed_content(model=..., contents=text).embeddings]: it
    may raise. *)
Variable embed_content : string -> result (list float).

(** The fuel of the extension loop of the fallback. *)
Variable fuel : nat.

(** [get_embedding]: the vector of the service, or the fallback vector
    when the service raises ([None]: the fallback ran out of fuel). *)
Definition get_embedding (text : string) : result (option (list float)) :=
  try_except
    (embeddings ← embed_content text; Ok (Some embeddings))
    (fun _ => Ok (_simple_embedding fuel text)).

(** [for text in texts: emb = await self.get_embedding(text);
     embeddings.append(emb)]. *)
Fixpoint batch_loop (texts : list string) (embeddings : list (list float))
  : result (option (list (list float))) :=
  match texts with
  | [] => Ok (Some embeddings)
  | text :: texts' =>
      emb ← get_embedding text;
      match emb with
      | Some emb => batch_loop texts' (embeddings ++ [emb])
      | None => Ok None
      end
  end.

Definition get_embeddings_batch (texts : list string)
  : result (option (list (list float))) :=
  batch_loop texts [].

End Service.

End Embeddings.

(** ** [repr], [str] and [eval] on lists of strings *)

Definition SQUOTE : ascii := "'".
Definition DQUOTE : ascii := ascii_of_nat 34.
Definition BACKSLASH : ascii := "\".

(** The values the payload decoding is followed on: [None], an [int], a
    [str] and a list of [str]. *)
Inductive pyvalue : Type :=
| VNone
| VInt (n : Z)
| VStr (s : string)
| VList (items : list string).

(** [c.isprintable()]: U+0020..U+007E and U+00A1..U+00FF, the soft hyphen
    U+00AD apart. *)
Definition py_printable (c : ascii) : bool :=
  let n := code c in
  between 32 126 n || (between 161 255 n && negb (n =? 173)%nat).

Definition hex_digit (n : nat) : ascii :=
  if (n <? 10)%nat then ascii_of_nat (48 + n) else ascii_of_nat (87 + n).

(** One character of [repr(s)] between the quotes. *)
Definition repr_char (quote c : ascii) : string :=
  if Ascii.eqb c quote || Ascii.eqb c BACKSLASH
  then String BACKSLASH (String c EmptyString)
  else if (code c =? 9)%nat then "\t"
  else if (code c =? 10)%nat then "\n"
  else if (code c =? 13)%nat then "\r"
  else if py_printable c then String c EmptyString
  else String BACKSLASH
         (String "x"
            (String (hex_digit (code c / 16))
               (String (hex_digit (code c mod 16)) EmptyString))).

Fixpoint repr_body (quote : ascii) (s : string) : string :=
  match s with
  | EmptyString => EmptyString
  | String c rest => repr_char quote c +:+ repr_body quote rest
  end.

Fixpoint has_char (c : ascii) (s : string) : bool :=
  match s with
  | EmptyString => false
  | String c' rest => Ascii.eqb c' c || has_char c rest
  end.

(** [repr(s)]: double quotes when [s] holds a single quote and no double
    quote, single quotes otherwise. *)
Definition repr_quote (s : string) : ascii :=
  if has_char SQUOTE s && negb (has_char DQUOTE s) then DQUOTE else SQUOTE.

Definition py_repr (s : string) : string :=
  let quote := repr_quote s in
  String quote (repr_body quote s +:+ String quote EmptyString).

(** [str(l)] for a list of strings [l]. *)
Definition py_str_of_list (l : list string) : string :=
  "[" +:+ String.concat ", " (map py_repr l) +:+ "]".

(** The expressions [eval] is followed on: a string literal, a list
    display of string literals, and a call of a named function on string
    literals. *)
Inductive pyexpr : Type :=
| EStr (s : string)
| EStrList (items : list string)
| ECall (f : string) (args : list string).

Definition is_quote (c : ascii) : bool :=
  Ascii.eqb c SQUOTE || Ascii.eqb c DQUOTE.

Definition hex_value (c : ascii) : option nat :=
  let n := code c in
  if between 48 57 n then Some (n - 48)
  else if between 97 102 n then Some (n - 87)
  else None.

Definition prepend (c : ascii) (r : option (string * string))
  : option (string * string) :=
  match r with
  | Some (decoded, rest) => Some (String c decoded, rest)
  | None => None
  end.

(** The body of a string literal up to its closing quote: the decoded
    string and what follows the quote. *)
Fixpoint parse_body (quote : ascii) (s : string) : option (string * string) :=
  match s with
  | EmptyString => None
  | String c rest =>
      if Ascii.eqb c quote then Some (EmptyString, rest)
      else if Ascii.eqb c BACKSLASH then
        match rest with
        | EmptyString => None
        | String e rest' =>
            if Ascii.eqb e BACKSLASH || is_quote e
            then prepend e (parse_body quote rest')
            else if Ascii.eqb e "t"
            then prepend (ascii_of_nat 9) (parse_body quote rest')
            else if Ascii.eqb e "n"
            then prepend (ascii_of_nat 10) (parse_body quote rest')
            else if Ascii.eqb e "r"
            then prepend (ascii_of_nat 13) (parse_body quote rest')
            else if Ascii.eqb e "x" then
              match rest' with
              | String h (String l rest'') =>
                  match hex_value h, hex_value l with
                  | Some a, Some b =>
                      prepend (ascii_of_nat (16 * a + b))
                              (parse_body quote rest'')
                  | _, _ => None
                  end
              | _ => None
              end
            else None
        end
      else if py_printable c then prepend c (parse_body quote rest)
      else None
  end.

Fixpoint skip_spaces (s : string) : string :=
  match s with
  | String " " rest => skip_spaces rest
  | _ => s
  end.

(** String literals separated by commas, up to the closing bracket. *)
Fixpoint parse_items (fuel : nat) (close : ascii) (s : string)
  : option (list string * string) :=
  match fuel, s with
  | S fuel', String q body =>
      if is_quote q then
        match parse_body q body with
        | Some (item, String c rest) =>
            if Ascii.eqb c close then Some ([item], rest)
            else if Ascii.eqb c "," then
              match parse_items fuel' close (skip_spaces rest) with
              | Some (items, rest') => Some (item :: items, rest')
              | None => None
              end
            else None
        | _ => None
        end
      else None
  | _, _ => None
  end.

Definition parse_sequence (close : ascii) (s : string)
  : option (list string * string) :=
  match s with
  | String c rest =>
      if Ascii.eqb c close then Some ([], rest)
      else parse_items (String.length s) close s
  | EmptyString => None
  end.

Definition is_name_start (c : ascii) : bool :=
  let n := code c in between 65 90 n || between 97 122 n || (n =? 95)%nat.

Definition is_name_char (c : ascii) : bool :=
  is_name_start c || is_digit c.

Fixpoint take_name (s : string) : string * string :=
  match s with
  | String c rest =>
      if is_name_char c
      then let '(f, rest') := take_name rest in (String c f, rest')
      else (EmptyString, s)
  | EmptyString => (EmptyString, EmptyString)
  end.

Definition keywords : list string :=
  ["False"; "None"; "True"; "and"; "as"; "assert"; "async"; "await";
   "break"; "class"; "continue"; "def"; "del"; "elif"; "else"; "except";
   "finally"; "for"; "from"; "global"; "if"; "import"; "in"; "is";
   "lambda"; "nonlocal"; "not"; "or"; "pass"; "raise"; "return"; "try";
   "while"; "with"; "yield"].

(** The expression a source string denotes, [None] outside the three
    forms followed here. *)
Definition parse_expr (source : string) : option pyexpr :=
  match source with
  | EmptyString => None
  | String c rest =>
      if is_quote c then
        match parse_body c rest with
        | Some (s, EmptyString) => Some (EStr s)
        | _ => None
        end
      else if Ascii.eqb c "[" then
        match parse_sequence "]" rest with
        | Some (items, EmptyString) => Some (EStrList items)
        | _ => None
        end
      else if is_name_start c then
        match take_name source with
        | (f, String "(" args) =>
            if py_in f keywords then None
            else match parse_sequence ")" args with
                 | Some (items, EmptyString) => Some (ECall f items)
                 | _ => None
                 end
        | _ => None
        end
      else None
  end.

Section Eval.

(** What calling the function bound to a name does: any code at all. *)
Variable call_function : string -> list string -> result pyvalue.

(** [eval] on the sources outside the three forms. *)
Variable eval_other : string -> result pyvalue.

Definition eval_expr (e : pyexpr) : result pyvalue :=
  match e with
  | EStr s => Ok (VStr s)
  | EStrList items => Ok (VList items)
  | ECall f args => call_function f args
  end.

(** [eval(source)]. *)
Definition py_eval (source : string) : result pyvalue :=
  match parse_expr source with
  | Some e => eval_expr e
  | None => eval_other source
  end.

End Eval.

(** ** vector_store.py *)

(** An assessment as the catalog supplies it to [add_assessments]. *)
Record catalog_assessment : Type := CatalogAssessment {
  c_name : string;
  c_url : string;
  c_description : string;
  c_duration : Z;
  c_test_type : list string;
  c_adaptive_support : string;
  c_remote_support : string
}.

(** One [dict] of the list [search] returns. *)
Record search_hit : Type := SearchHit {
  h_name : string;
  h_url : string;
  h_description : string;
  h_duration : string;
  h_test_type : pyvalue;
  h_adaptive_support : string;
  h_remote_support : string;
  h_distance : float
}.

(** What [collection.query] returns: per query embedding, the metadata
    and the distances of its neighbours. *)
Record query_result : Type := QueryResult {
  metadatas : option (list (list (gmap string string)));
  distances : option (list (list float))
}.

(** The collection of the vector database: [count()] and
    [query(query_embeddings, n_results)]. *)
Record collection : Type := Collection {
  count : result Z;
  query : list (list float) -> Z -> result query_result
}.

Module VectorStore.

Definition _create_metadata (a : catalog_assessment) : gmap string string :=
  <["name" := c_name a]>
  (<["url" := c_url a]>
  (<["description" := c_description a]>
  (<["duration" := pretty (c_duration a)]>
  (<["test_type" := py_str_of_list (c_test_type a)]>
  (<["adaptive_support" := c_adaptive_support a]>
  (<["remote_support" := c_remote_support a]> ∅)))))).

Section Search.

Variable call_function : string -> list string -> result pyvalue.
Variable eval_other : string -> result pyvalue.

(** [metadata[key]]. *)
Definition getitem (metadata : gmap string string) (key : string)
  : result string :=
  match metadata !! key with
  | Some v => Ok v
  | None => Raise (KeyError key)
  end.

(** [results['distances'][0][i] if results['distances'] else 0.0]. *)
Definition distance_at (results : query_result) (i : nat) : result float :=
  match distances results with
  | None | Some [] => Ok 0%float
  | Some (first :: _) =>
      match first !! i with
      | Some d => Ok d
      | None => Raise IndexError
      end
  end.

(** The [dict] built for the [i]-th metadata of the first query. *)
Definition format_hit (results : query_result)
  (i : nat) (metadata : gmap string string) : result search_hit :=
  n ← getitem metadata "name";
  u ← getitem metadata "url";
  d ← getitem metadata "description";
  dur ← getitem metadata "duration";
  source ← getitem metadata "test_type";
  tt ← py_eval call_function eval_other source;
  ad ← getitem metadata "adaptive_support";
  re ← getitem metadata "remote_support";
  dist ← distance_at results i;
  Ok {| h_name := n; h_url := u; h_description := d; h_duration := dur;
        h_test_type := tt; h_adaptive_support := ad;
        h_remote_support := re; h_distance := dist |}.

Fixpoint format_hits (results : query_result)
  (i : nat) (ms : list (gmap string string)) : result (list search_hit) :=
  match ms with
  | [] => Ok []
  | m :: ms' =>
      hit ← format_hit results i m;
      hits ← format_hits results (S i) ms';
      Ok (hit :: hits)
  end.

(** [if results['metadatas'] and results['metadatas'][0]: ...]. *)
Definition format_results (results : query_result)
  : result (list search_hit) :=
  match metadatas results with
  | Some (first :: _) => format_hits results 0 first
  | Some [] | None => Ok []
  end.

Definition search_body (coll : collection)
  (query_embedding : list float) (n_results : Z) : result (list search_hit) :=
  stored ← count coll;
  results ← query coll [query_embedding] (Z.min n_results stored);
  format_results results.

Definition search (coll : collection)
  (query_embedding : list float) (n_results : Z) : result (list search_hit) :=
  try_except (search_body coll query_embedding n_results) (fun _ => Ok []).

End Search.

(** [f"{name} {description} {' '.join(test_type)}"]. *)
Definition _create_document (a : catalog_assessment) : string :=
  c_name a +:+ " " +:+ c_description a +:+ " "
    +:+ String.concat " " (c_test_type a).

(** The keyword arguments of one [collection.add] call. *)
Record add_request : Type := AddRequest {
  add_ids : list string;
  add_embeddings : list (list float);
  add_documents : list string;
  add_metadatas : list (gmap string string)
}.

Section Add.

(** The state of the vector database, and [collection.add] on it. *)
Variable store : Type.
Variable collection_add : add_request -> store -> result store.

Definition add_body (assessments : list catalog_assessment)
  (embeddings : list (list float)) (s : store) : result store :=
  match assessments, embeddings with
  | [], _ | _, [] => Ok s
  | _ :: _, _ :: _ =>
      let ids := map (fun i : nat => "assessment_" +:+ pretty i)
                     (seq 0 (length assessments)) in
      let documents := map _create_document assessments in
      let metadatas := map _create_metadata assessments in
      collection_add {| add_ids := ids;
                        add_embeddings := embeddings;
                        add_documents := documents;
                        add_metadatas := metadatas |} s
  end.

(** The handler logs and re-raises. *)
Definition add_assessments (assessments : list catalog_assessment)
  (embeddings : list (list float)) (s : store) : result store :=
  try_except (add_body assessments embeddings s) (fun e => Raise e).

End Add.

End VectorStore.

(** ** rag_pipeline.py *)

(** An assessment as the pipeline passes it around: a [dict], any key of
    which may be absent. *)
Record assessment : Type := Assessment {
  name : option string;
  url : option string;
  description : option string;
  duration : option string;
  test_type : option (list string);
  adaptive_support : option string;
  remote_support : option string;
  distance : option float
}.

(** The [dict] that [_analyze_query] builds; its four keys are always
    present. *)
Record query_analysis : Type := QueryAnalysis {
  skills : list string;
  test_types : list string;
  experience_level : string;
  focus_areas : list string
}.

(** The two prompts sent to the generative service.  Each is a fixed
    template around the values kept here. *)
Inductive prompt : Type :=
| AnalysisPrompt (query : string)
| RankingPrompt (n_results : Z) (query : string) (summary : string).

Module RagPipeline.

(** *** Query analysis *)

(** One iteration of the extraction loop over the lines:
    [if kw in line: parts = line.split(':');
     if len(parts) > 1: acc.extend([s.strip() for s in parts[1].split(',')])]. *)
Definition extract_line (kw : string) (acc : list string) (line : string)
  : list string :=
  if str_contains kw line then
    let parts := str_split ":" line in
    if (1 <? length parts)%nat
    then acc ++ map str_strip (str_split "," (nth 1 parts EmptyString))
    else acc
  else acc.

Definition _extract_skills (analysis : string) : list string :=
  let lines := str_split LF (str_lower analysis) in
  fold_left (extract_line "skill") lines [].

Definition _extract_focus_areas (analysis : string) : list string :=
  fold_left (extract_line "focus") (str_split LF (str_lower analysis)) [].

Definition any_in (keywords : list string) (text : string) : bool :=
  existsb (fun k => str_contains k text) keywords.

Definition _extract_test_types (analysis query : string) : list string :=
  let text := str_lower (analysis +:+ " " +:+ query) in
  let types := [] in
  let types :=
    if any_in ["technical"; "coding"; "programming"] text
    then types ++ ["Knowledge & Skills"] else types in
  let types :=
    if any_in ["personality"; "leadership"] text
    then types ++ ["Personality & Behavior"] else types in
  let types :=
    if any_in ["cognitive"; "analytical"] text
    then types ++ ["Cognitive"] else types in
  match types with
  | [] => ["Knowledge & Skills"]
  | _ :: _ => types
  end.

Definition _extract_experience_level (analysis query : string) : string :=
  let text := str_lower (analysis +:+ " " +:+ query) in
  if str_contains "senior" text then "Senior"
  else if str_contains "junior" text || str_contains "entry" text
       then "Entry"
       else "Mid".

(** *** Parsing a ranking *)

(** [re.findall(r'\d+', response)]: the maximal runs of digits, left to
    right; [run] is the run being read, in reading order. *)
Fixpoint digit_runs (run : string) (response : string) : list string :=
  match response with
  | EmptyString =>
      match run with
      | EmptyString => []
      | String _ _ => [run]
      end
  | String c rest =>
      if is_digit c then digit_runs (run +:+ String c EmptyString) rest
      else match run with
           | EmptyString => digit_runs EmptyString rest
           | String _ _ => run :: digit_runs EmptyString rest
           end
  end.

Fixpoint digits_value (acc : Z) (digits : string) : Z :=
  match digits with
  | EmptyString => acc
  | String c rest =>
      digits_value (10 * acc + Z.of_nat (code c - 48))%Z rest
  end.

(** *** The balancing pass *)

(** [by_type.setdefault(t, []).append(r)]. *)
Definition setdefault_append (r : assessment)
  (by_type : gmap string (list assessment)) (t : string)
  : gmap string (list assessment) :=
  <[t := default [] (by_type !! t) ++ [r]]> by_type.

(** [for r in recs: for t in r.get('test_type', []): ...]. *)
Definition group_by_type (recs : list assessment)
  : gmap string (list assessment) :=
  fold_left
    (fun by_type r =>
       fold_left (setdefault_append r) (default [] (test_type r)) by_type)
    recs ∅.

(** The state of the two selection loops: [balanced] and [seen]. *)
Definition selection : Type := list assessment * gset (option string).

(** [for r in by_type[t]: if r.get('url') not in seen: ...; break]: the
    first item of the group whose url is not in [seen]. *)
Fixpoint first_unseen (seen : gset (option string)) (group : list assessment)
  : option assessment :=
  match group with
  | [] => None
  | r :: group' =>
      if decide (url r ∈ seen) then first_unseen seen group' else Some r
  end.

Definition select (st : selection) (r : assessment) : selection :=
  (st.1 ++ [r], {[url r]} ∪ st.2).

(** One iteration of [for t in req_types]. *)
Definition pick_for_type (by_type : gmap string (list assessment))
  (st : selection) (t : string) : selection :=
  match by_type !! t with
  | None => st
  | Some group =>
      match first_unseen st.2 group with
      | Some r => select st r
      | None => st
      end
  end.

(** One iteration of the closing [for r in recs]. *)
Definition append_unseen (st : selection) (r : assessment) : selection :=
  if decide (url r ∈ st.2) then st else select st r.

(** The state after the loop over the requested types: the diversity
    picks and their urls. *)
Definition diversity_state (recs : list assessment) (req_types : list string)
  : selection :=
  fold_left (pick_for_type (group_by_type recs)) req_types ([], ∅).

Definition diversity_picks (recs : list assessment) (req_types : list string)
  : list assessment :=
  (diversity_state recs req_types).1.

Definition _balance_recommendations (recs : list assessment)
  (analysis : query_analysis) : list assessment :=
  let req_types := test_types analysis in
  if (length req_types <=? 1)%nat then recs
  else (fold_left append_unseen recs (diversity_state recs req_types)).1.

(** *** The calls to the generative service, and the orchestrator *)

Section Pipeline.

(** [genai.models.generate_text(model=..., input=prompt).text]: it may
    raise, and the text of a response may be [None]. *)
Variable generate_text : prompt -> result (option string).

(** The interpreter's limit on the digits [int] converts
    ([sys.get_int_max_str_digits()], 4300 by default, 0 for none). *)
Variable int_max_str_digits : nat.

(** [int(n)] on a run of digits. *)
Definition py_int (digits : string) : result Z :=
  if (0 <? int_max_str_digits)%nat
     && (int_max_str_digits <? String.length digits)%nat
  then Raise ValueError
  else Ok (digits_value 0 digits).

(** [[int(n) - 1 for n in nums]]. *)
Fixpoint ranks_of (nums : list string) : result (list Z) :=
  match nums with
  | [] => Ok []
  | n :: nums' =>
      v ← py_int n;
      rest ← ranks_of nums';
      Ok ((v - 1)%Z :: rest)
  end.

Definition _parse_rankings (response : string) : result (list Z) :=
  ranks_of (digit_runs EmptyString response).

Definition default_analysis : query_analysis :=
  {| skills := [];
     test_types := ["Knowledge & Skills"; "Personality & Behavior"];
     experience_level := "Mid";
     focus_areas := [] |}.

Definition _analyze_query (query : string) : result query_analysis :=
  try_except
    (response ← generate_text (AnalysisPrompt query);
     let text := default EmptyString response in
     Ok {| skills := _extract_skills text;
           test_types := _extract_test_types text query;
           experience_level := _extract_experience_level text query;
           focus_areas := _extract_focus_areas text |})
    (fun _ => Ok default_analysis).

(** [c[key]] on an assessment: [KeyError] when the key is absent. *)
Definition getitem {A : Type} (key : string) (field : option A) : result A :=
  match field with
  | Some v => Ok v
  | None => Raise (KeyError key)
  end.

(** [f"{i+1}. {c['name']} - {c['description'][:100]}..."]. *)
Definition summary_line (i : nat) (c : assessment) : result string :=
  n ← getitem "name" (name c);
  d ← getitem "description" (description c);
  Ok (pretty (i + 1)%nat +:+ ". " +:+ n +:+ " - "
        +:+ String.substring 0 100 d +:+ "...").

Fixpoint summary_lines (i : nat) (cs : list assessment)
  : result (list string) :=
  match cs with
  | [] => Ok []
  | c :: cs' =>
      line ← summary_line i c;
      rest ← summary_lines (S i) cs';
      Ok (line :: rest)
  end.

(** [for r in rankings: if 0 <= r < len(candidates):
      reranked.append(candidates[r])]. *)
Definition append_ranked (candidates reranked : list assessment) (r : Z)
  : list assessment :=
  if (0 <=? r)%Z && (r <? Z.of_nat (length candidates))%Z then
    match candidates !! Z.to_nat r with
    | Some c => reranked ++ [c]
    | None => reranked
    end
  else reranked.

(** [for i, c in enumerate(candidates):
      if i not in rankings and len(reranked) < n_results:
        reranked.append(c)]. *)
Definition append_unranked (rankings : list Z) (n_results : Z)
  (reranked : list assessment) (ic : nat * assessment) : list assessment :=
  if negb (existsb (Z.eqb (Z.of_nat ic.1)) rankings)
     && (Z.of_nat (length reranked) <? n_results)%Z
  then reranked ++ [ic.2]
  else reranked.

Definition enumerate {A : Type} (l : list A) : list (nat * A) :=
  combine (seq 0 (length l)) l.

Definition rerank_body (query : string) (analysis : query_analysis)
  (candidates : list assessment) (n_results : Z)
  : result (list assessment) :=
  lines ← summary_lines 0 (firstn 15 candidates);
  let summary := String.concat (String LF EmptyString) lines in
  response ← generate_text (RankingPrompt n_results query summary);
  let text := default EmptyString response in
  rankings ← _parse_rankings text;
  let reranked := fold_left (append_ranked candidates) rankings [] in
  let reranked :=
    fold_left (append_unranked rankings n_results) (enumerate candidates)
              reranked in
  Ok reranked.

Definition _rerank_and_filter (query : string) (analysis : query_analysis)
  (candidates : list assessment) (n_results : Z)
  : result (list assessment) :=
  try_except (rerank_body query analysis candidates n_results)
             (fun _ => Ok candidates).

End Pipeline.

(** [recommend], over the five calls it makes: each is a method call on
    [self] or on an injected collaborator, and each may raise. *)
Section Orchestrator.

Context {Analysis Embedding Item : Type}.
Variable analyze : string -> result Analysis.
Variable embed : string -> result Embedding.
Variable search : Embedding -> Z -> result (list Item).
Variable rerank : string -> Analysis -> list Item -> Z -> result (list Item).
Variable balance : list Item -> Analysis -> result (list Item).

Definition recommend_body (query : string) (n_results : Z)
  : result (list Item) :=
  query_analysis ← analyze query;
  query_embedding ← embed query;
  candidates ← search query_embedding 20%Z;
  match candidates with
  | [] => Ok []
  | _ :: _ =>
      recommendations ← rerank query query_analysis candidates n_results;
      balanced ← balance recommendations query_analysis;
      Ok (py_slice_to n_results balanced)
  end.

Definition recommend_with (query : string) (n_results : Z)
  : result (list Item) :=
  try_except (recommend_body query n_results) (fun _ => Ok []).

End Orchestrator.

(** [RAGPipeline.recommend]: [vector_store] and [embeddings] are the
    injected collaborators. *)
Definition recommend
  (generate_text : prompt -> result (option string))
  (int_max_str_digits : nat)
  (get_embedding : string -> result (list float))
  (vector_store_search : list float -> Z -> result (list assessment))
  (query : string) (n_results : Z) : result (list assessment) :=
  recommend_with
    (_analyze_query generate_text)
    get_embedding
    vector_store_search
    (_rerank_and_filter generate_text int_max_str_digits)
    (fun recs analysis => Ok (_balance_recommendations recs analysis))
    query n_results.

End RagPipeline.

(** ** evaluation.py *)

Module Evaluation.

(** [sum(1 for url in predicted_k if url in relevant)]. *)
Definition count_relevant (predicted_k relevant : list string) : Z :=
  fold_left (fun acc url => if py_in url relevant then (acc + 1)%Z else acc)
            predicted_k 0%Z.

Definition calculate_recall_at_k
  (predicted relevant : list string) (k : Z) : result float :=
  match relevant with
  | [] => Ok 0%float
  | _ :: _ =>
      let predicted_k := py_slice_to k predicted in
      let relevant_in_k := count_relevant predicted_k relevant in
      recall ← py_truediv relevant_in_k (Z.of_nat (length relevant));
      Ok recall
  end.

(** A cell of the test sheet as [pd.read_excel] gives it: a text, or a
    blank cell, which is read as NaN.  Cells of other kinds (numbers,
    dates) are not followed. *)
Inductive cell : Type :=
| Blank
| Text (s : string).

(** [a == b] on two cells: NaN equals nothing, not even NaN. *)
Definition cell_eqb (a b : cell) : bool :=
  match a, b with
  | Text x, Text y => String.eqb x y
  | _, _ => false
  end.

(** Whether [unique] takes two cells for one value: it lists NaN once. *)
Definition cell_same (a b : cell) : bool :=
  match a, b with
  | Blank, Blank => true
  | Text x, Text y => String.eqb x y
  | _, _ => false
  end.

(** The texts among the cells of a list: the items that a [str] can
    equal. *)
Definition texts (cells : list cell) : list string :=
  flat_map (fun c => match c with Text s => [s] | Blank => [] end) cells.

(** [calculate_recall_at_k] on relevant urls as the sheet gives them: a
    blank cell is an item of the list, counted by [len(relevant)], that no
    predicted url equals.  On texts it is [calculate_recall_at_k]. *)
Definition calculate_recall_at_k_cells
  (predicted : list string) (relevant : list cell) (k : Z) : result float :=
  match relevant with
  | [] => Ok 0%float
  | _ :: _ =>
      let predicted_k := py_slice_to k predicted in
      let relevant_in_k := count_relevant predicted_k (texts relevant) in
      recall ← py_truediv relevant_in_k (Z.of_nat (length relevant));
      Ok recall
  end.

(** One query of the test data: [{'query': ..., 'relevant_urls': ...}],
    with the cells of the sheet as values. *)
Record test_query : Type := TestQuery {
  tq_query : cell;
  tq_relevant_urls : list cell
}.

(** One entry of [detailed_results]. *)
Record query_detail : Type := QueryDetail {
  qr_query : cell;
  qr_relevant_count : nat;
  qr_predicted_count : nat;
  qr_recall_at_5 : float;
  qr_recall_at_10 : float;
  qr_predicted_urls : list string;
  qr_relevant_urls : list cell
}.

(** The summary [evaluate_system] returns. *)
Record summary : Type := Summary {
  mean_recall_at_5 : float;
  mean_recall_at_10 : float;
  total_queries : nat;
  timestamp : string;
  detailed_results : list query_detail
}.

(** [s / n] for the sum [s] of a list and its length [n]: over an empty
    list it is [0 / 0]. *)
Definition div_by_len (s : float) (n : nat) : result float :=
  match n with
  | O => Raise ZeroDivisionError
  | S _ => Ok (PrimFloat.div s (float_of_int (Z.of_nat n)))
  end.

(** The rows of the test sheet, each the cell of the column
    [Query_Text] and the cell of the column [Assessment_URL]. *)
Definition sheet : Type := list (cell * cell).

(** [column.unique()]: the values in order of first appearance, NaN
    among them when a cell is blank. *)
Fixpoint unique (seen values : list cell) : list cell :=
  match values with
  | [] => []
  | v :: values' =>
      if existsb (cell_same v) seen then unique seen values'
      else v :: unique (v :: seen) values'
  end.

(** [df[df['Query_Text'] == query]['Assessment_URL'].tolist()]: the
    comparison selects no row when [query] is NaN. *)
Definition urls_of (query : cell) (df : sheet) : list cell :=
  map snd (List.filter (fun row => cell_eqb (fst row) query) df).

Section System.

(** [asyncio.run(predict_func(query))]: the predictions, or an exception. *)
Variable predict_func : cell -> result (list assessment).

(** The builtins [sum] and [round(_, 4)] on floats, and
    [datetime.now().isoformat()]. *)
Variable py_sum : list float -> float.
Variable round4 : float -> float.
Variable now : string.

(** [pd.read_excel(file_path)] with the two columns read off it; it
    raises when the file or a column is missing. *)
Variable read_excel : string -> result sheet.

(** [[p['url'] for p in predictions]]. *)
Fixpoint urls_of_predictions (predictions : list assessment)
  : result (list string) :=
  match predictions with
  | [] => Ok []
  | p :: predictions' =>
      u ← match url p with
          | Some u => Ok u
          | None => Raise (KeyError "url")
          end;
      us ← urls_of_predictions predictions';
      Ok (u :: us)
  end.

(** One iteration of the loop over the test data. *)
Definition evaluate_query (item : test_query) : result query_detail :=
  let query := tq_query item in
  let relevant_urls := tq_relevant_urls item in
  predicted_urls ←
    try_except
      (predictions ← predict_func query; urls_of_predictions predictions)
      (fun _ => Ok []);
  recall_at_5 ← calculate_recall_at_k_cells predicted_urls relevant_urls 5;
  recall_at_10 ← calculate_recall_at_k_cells predicted_urls relevant_urls 10;
  Ok {| qr_query := query;
        qr_relevant_count := length relevant_urls;
        qr_predicted_count := length predicted_urls;
        qr_recall_at_5 := recall_at_5;
        qr_recall_at_10 := recall_at_10;
        qr_predicted_urls := predicted_urls;
        qr_relevant_urls := relevant_urls |}.

Fixpoint evaluate_queries (test_data : list test_query)
  : result (list query_detail) :=
  match test_data with
  | [] => Ok []
  | item :: test_data' =>
      r ← evaluate_query item;
      rs ← evaluate_queries test_data';
      Ok (r :: rs)
  end.

Definition evaluate_system (test_data : list test_query) : result summary :=
  evaluation_results ← evaluate_queries test_data;
  mean_recall_5 ←
    div_by_len (py_sum (map qr_recall_at_5 evaluation_results))
               (length evaluation_results);
  mean_recall_10 ←
    div_by_len (py_sum (map qr_recall_at_10 evaluation_results))
               (length evaluation_results);
  Ok {| mean_recall_at_5 := round4 mean_recall_5;
        mean_recall_at_10 := round4 mean_recall_10;
        total_queries := length evaluation_results;
        timestamp := now;
        detailed_results := evaluation_results |}.

(** The loop of [calculate_mean_recall_at_k] over [evaluation_data], whose
    items are [{'predicted': ..., 'relevant': ...}]. *)
Fixpoint recalls_at_k (evaluation_data : list (list string * list string))
  (k : Z) : result (list float) :=
  match evaluation_data with
  | [] => Ok []
  | item :: evaluation_data' =>
      recall ← calculate_recall_at_k (fst item) (snd item) k;
      recalls ← recalls_at_k evaluation_data' k;
      Ok (recall :: recalls)
  end.

Definition calculate_mean_recall_at_k
  (evaluation_data : list (list string * list string)) (k : Z)
  : result float :=
  match evaluation_data with
  | [] => Ok 0%float
  | _ :: _ =>
      recalls ← recalls_at_k evaluation_data k;
      div_by_len (py_sum recalls) (length recalls)
  end.

Definition load_train_data (file_path : string) : list test_query :=
  match read_excel file_path with
  | Ok df =>
      map (fun query => {| tq_query := query;
                           tq_relevant_urls := urls_of query df |})
          (unique [] (map fst df))
  | Raise _ => []
  end.

End System.

End Evaluation.

(** ** scraper.py *)

(** What [_scrape_assessment_page] reads off the parsed page of one
    assessment: the stripped text of the first [h1], of the first [div]
    whose class matches description, content or summary, and of the first
    [p], each when the page has one. *)
Record page : Type := Page {
  h1 : option string;
  description_div : option string;
  first_p : option string
}.

(** The two variables of the loop of [scrape_catalog]. *)
Record crawl : Type := Crawl {
  seen_urls : gset string;
  assessments : list catalog_assessment
}.

Module Scraper.

(** [s.replace(a, b)] for two characters. *)
Fixpoint str_replace (a b : ascii) (s : string) : string :=
  match s with
  | EmptyString => EmptyString
  | String c rest =>
      String (if Ascii.eqb c a then b else c) (str_replace a b rest)
  end.

(** [parts[-2]]. *)
Definition last_but_one (parts : list string) : result string :=
  match rev parts with
  | _ :: part :: _ => Ok part
  | _ => Raise IndexError
  end.

Definition _extract_test_types (description name : string) : list string :=
  let text := str_lower (name +:+ " " +:+ description) in
  let types := [] in
  let types :=
    if RagPipeline.any_in
         ["programming"; "coding"; "java"; "python"; "sql"; "technical";
          "software"; "developer"; "engineer"; "analyst"; "data"] text
    then types ++ ["Knowledge & Skills"] else types in
  let types :=
    if RagPipeline.any_in
         ["personality"; "behavior"; "leadership"; "communication";
          "collaboration"; "teamwork"; "soft skill"; "emotional"] text
    then types ++ ["Personality & Behavior"] else types in
  let types :=
    if RagPipeline.any_in
         ["cognitive"; "reasoning"; "logical"; "verbal"; "numerical";
          "abstract"; "problem solving"] text
    then types ++ ["Cognitive"] else types in
  match types with
  | [] => ["General Assessment"]
  | _ :: _ => types
  end.

Definition _get_fallback_data : list catalog_assessment :=
  [
   {| c_name := "Java Developer Assessment";
      c_url :=
        "https://www.shl.com/solutions/products/product-catalog/view/java-programming/";
      c_description :=
        "Comprehensive Java programming assessment covering OOP, collections, multi-threading, and problem-solving skills.";
      c_duration := 60;
      c_test_type := ["Knowledge & Skills"];
      c_adaptive_support := "No";
      c_remote_support := "Yes" |};
   {| c_name := "Python Programming Test";
      c_url :=
        "https://www.shl.com/solutions/products/product-catalog/view/python-programming/";
      c_description :=
        "Python coding test evaluating syntax, data structures, algorithms, and application development capabilities.";
      c_duration := 45;
      c_test_type := ["Knowledge & Skills"];
      c_adaptive_support := "No";
      c_remote_support := "Yes" |};
   {| c_name := "SQL Database Assessment";
      c_url :=
        "https://www.shl.com/solutions/products/product-catalog/view/sql-assessment/";
      c_description :=
        "SQL assessment testing query writing, database design, optimization, and data manipulation skills.";
      c_duration := 50;
      c_test_type := ["Knowledge & Skills"];
      c_adaptive_support := "Yes";
      c_remote_support := "Yes" |};
   {| c_name := "Leadership & Collaboration Assessment";
      c_url :=
        "https://www.shl.com/solutions/products/product-catalog/view/leadership-assessment/";
      c_description :=
        "Evaluates leadership qualities, team collaboration, communication skills, and stakeholder management abilities.";
      c_duration := 40;
      c_test_type := ["Personality & Behavior"];
      c_adaptive_support := "Yes";
      c_remote_support := "Yes" |};
   {| c_name := "Cognitive Ability Test";
      c_url :=
        "https://www.shl.com/solutions/products/product-catalog/view/cognitive-test/";
      c_description :=
        "Measures cognitive abilities including logical reasoning, problem-solving, and analytical thinking.";
      c_duration := 30;
      c_test_type := ["Cognitive"];
      c_adaptive_support := "Yes";
      c_remote_support := "Yes" |};
   {| c_name := "Sales Representative Assessment";
      c_url :=
        "https://www.shl.com/solutions/products/product-catalog/view/sales-assessment/";
      c_description :=
        "Comprehensive assessment for sales roles covering persuasion, communication, and customer relationship skills.";
      c_duration := 35;
      c_test_type := ["Personality & Behavior"; "Cognitive"];
      c_adaptive_support := "Yes";
      c_remote_support := "Yes" |};
   {| c_name := "Data Analyst Assessment";
      c_url :=
        "https://www.shl.com/solutions/products/product-catalog/view/data-analyst/";
      c_description :=
        "Tests data analysis skills including Excel, SQL, Python, statistical analysis, and data visualization.";
      c_duration := 90;
      c_test_type := ["Knowledge & Skills"; "Cognitive"];
      c_adaptive_support := "No";
      c_remote_support := "Yes" |};
   {| c_name := "JavaScript Developer Test";
      c_url :=
        "https://www.shl.com/solutions/products/product-catalog/view/javascript-test/";
      c_description :=
        "Evaluates JavaScript proficiency including ES6+, DOM manipulation, async programming, and frameworks.";
      c_duration := 55;
      c_test_type := ["Knowledge & Skills"];
      c_adaptive_support := "No";
      c_remote_support := "Yes" |};
   {| c_name := "Communication Skills Assessment";
      c_url :=
        "https://www.shl.com/solutions/products/product-catalog/view/communication-skills/";
      c_description :=
        "Assesses written and verbal communication, presentation skills, and interpersonal effectiveness.";
      c_duration := 25;
      c_test_type := ["Personality & Behavior"];
      c_adaptive_support := "Yes";
      c_remote_support := "Yes" |};
   {| c_name := "Problem Solving & Critical Thinking";
      c_url :=
        "https://www.shl.com/solutions/products/product-catalog/view/problem-solving/";
      c_description :=
        "Measures analytical thinking, problem-solving approach, and decision-making capabilities.";
      c_duration := 40;
      c_test_type := ["Cognitive"];
      c_adaptive_support := "Yes";
      c_remote_support := "Yes" |}
  ].

Section Web.

(** [requests.get(url)], [raise_for_status()] and the parse of the
    response: the page, or the exception of a failed request. *)
Variable fetch_page : string -> result page.

(** [_extract_duration(soup)], a search of the text of the page with
    regular expressions, and [str.title()]; both are left open here. *)
Variable _extract_duration : page -> result Z.
Variable str_title : string -> string.

(** The catalog page: the [href] of every link that [find_all] returns,
    or the exception of a failed request. *)
Variable fetch_links : result (list string).

Definition scrape_page_body (url : string) : result catalog_assessment :=
  soup ← fetch_page url;
  name ← match h1 soup with
         | Some text => Ok text
         | None =>
             part ← last_but_one (str_split "/" url);
             Ok (str_title (str_replace "-" " " part))
         end;
  let description_elem :=
    match description_div soup with
    | Some text => Some text
    | None => first_p soup
    end in
  let description := default EmptyString description_elem in
  duration ← _extract_duration soup;
  let test_types := _extract_test_types description name in
  Ok {| c_name := name;
        c_url := url;
        c_description :=
          if String.eqb description EmptyString then name
          else String.substring 0 500 description;
        c_duration := duration;
        c_test_type := test_types;
        c_adaptive_support :=
          if str_contains "adaptive" (str_lower description)
          then "Yes" else "No";
        c_remote_support := "Yes" |}.

(** The page of one assessment, or [None] when anything raised. *)
Definition _scrape_assessment_page (url : string)
  : result (option catalog_assessment) :=
  try_except (a ← scrape_page_body url; Ok (Some a)) (fun _ => Ok None).

(** One iteration of the loop over the links; the pause between two pages
    is left out. *)
Definition visit (st : crawl) (link : string) : result crawl :=
  let href := link in
  if String.eqb href EmptyString then Ok st
  else
    let href :=
      if String.prefix "http" href then href
      else "https://www.shl.com" +:+ href in
    if decide (href ∈ seen_urls st) then Ok st
    else
      let seen := {[href]} ∪ seen_urls st in
      try_except
        (assessment_data ← _scrape_assessment_page href;
         Ok {| seen_urls := seen;
               assessments :=
                 match assessment_data with
                 | Some a => assessments st ++ [a]
                 | None => assessments st
                 end |})
        (fun _ => Ok {| seen_urls := seen; assessments := assessments st |}).

Fixpoint visit_all (st : crawl) (links : list string) : result crawl :=
  match links with
  | [] => Ok st
  | link :: links' => st' ← visit st link; visit_all st' links'
  end.

Definition scrape_catalog : result (list catalog_assessment) :=
  try_except
    (assessment_links ← fetch_links;
     st ← visit_all {| seen_urls := ∅; assessments := [] |} assessment_links;
     if (length (assessments st) =? 0)%nat then Ok _get_fallback_data
     else Ok (assessments st))
    (fun _ => Ok _get_fallback_data).

End Web.

End Scraper.

(** ** server.py *)

(** What a step of the server raises: an [HTTPException], or one of the
    other exceptions. *)
Inductive server_exn : Type :=
| HTTPException (status_code : Z) (detail : string)
| Other (e : exn).

Inductive outcome (A : Type) : Type :=
| Return (a : A)
| Except (e : server_exn).

Arguments Return {A} a.
Arguments Except {A} e.

(** A step of the server on the state of its stores (the database, the
    vector database, the files): what it returns or raises, and the state
    it leaves. *)
Definition action (world A : Type) : Type := world -> outcome A * world.

(** The body of [EvaluateResponse]. *)
Record evaluate_response : Type := EvaluateResponse {
  er_mean_recall_at_5 : float;
  er_mean_recall_at_10 : float;
  er_total_queries : nat;
  er_message : string
}.

Module Server.

Section Steps.

Context {world : Type}.

Definition ret {A : Type} (a : A) : action world A :=
  fun w => (Return a, w).

Definition raise {A : Type} (e : server_exn) : action world A :=
  fun w => (Except e, w).

Definition bind {A B : Type} (m : action world A) (k : A -> action world B)
  : action world B :=
  fun w =>
    match m w with
    | (Return a, w') => k a w'
    | (Except e, w') => (Except e, w')
    end.

(** [try: body except Exception as e: handler(e)]; an [HTTPException] is
    an [Exception] too. *)
Definition try_except_all {A : Type} (body : action world A)
  (handler : server_exn -> action world A) : action world A :=
  fun w =>
    match body w with
    | (Return a, w') => (Return a, w')
    | (Except e, w') => handler e w'
    end.

(** A call that returns or raises without touching the stores. *)
Definition lift {A : Type} (r : result A) : action world A :=
  match r with
  | Ok a => ret a
  | Raise e => raise (Other e)
  end.

End Steps.

Notation "'do' x <- m ; k" := (bind m (fun x => k))
  (at level 10, x name, m at level 100, k at level 200, only parsing).
Notation "m ;; k" := (bind m (fun _ => k))
  (at level 100, k at level 200, right associativity, only parsing).

Section Endpoints.

Context {world : Type}.

(** The collaborators: [vector_store.count()], [scraper.scrape_catalog()],
    the two calls on [db.assessments], [embeddings.get_embeddings_batch],
    [vector_store.clear()], [vector_store.add_assessments] and
    [rag_pipeline.recommend]. *)
Variable vector_count : action world Z.
Variable scrape_catalog : action world (list catalog_assessment).
Variable delete_many : action world unit.
Variable insert_many : list catalog_assessment -> action world unit.
Variable get_embeddings_batch : list string -> action world (list (list float)).
Variable vector_clear : action world unit.
Variable add_assessments :
  list catalog_assessment -> list (list float) -> action world unit.
Variable recommend : string -> Z -> action world (list assessment).

(** [int(x)] on a string and [str(e)] on an exception. *)
Variable py_int : string -> result Z.
Variable py_str : server_exn -> string.

(** For the evaluation: the download of the test file into a temporary
    file, [pd.read_excel], the predictions of the pipeline run by the
    evaluator, the builtins [sum] and [round(_, 4)], the clock, and
    [db.evaluation_results.insert_one]. *)
Variable download : string -> action world string.
Variable read_excel : world -> string -> result Evaluation.sheet.
Variable predict_func :
  world -> Evaluation.cell -> result (list assessment).
Variable py_sum : list float -> float.
Variable round4 : float -> float.
Variable now : world -> string.
Variable insert_one : Evaluation.summary -> action world unit.

Definition save_assessments_to_db (assessments : list catalog_assessment)
  : action world unit :=
  try_except_all
    (delete_many ;;
     match assessments with
     | [] => ret tt
     | _ :: _ => insert_many assessments
     end)
    (fun _ => ret tt).

(** The texts that [scrape_and_index] embeds. *)
Definition documents (assessments : list catalog_assessment) : list string :=
  map (fun a => c_name a +:+ " " +:+ c_description a +:+ " "
                  +:+ String.concat " " (c_test_type a))
      assessments.

Definition scrape_and_index : action world unit :=
  try_except_all
    (do assessments <- scrape_catalog;
     match assessments with
     | [] => ret tt
     | _ :: _ =>
         save_assessments_to_db assessments ;;
         do embeddings_list <- get_embeddings_batch (documents assessments);
         vector_clear ;;
         add_assessments assessments embeddings_list
     end)
    (fun _ => ret tt).

(** [Assessment(name=rec['name'], ..., duration=int(rec['duration']), ...)]:
    the model has the fields of a catalog entry. *)
Definition make_assessment (rec : assessment) : result catalog_assessment :=
  n ← RagPipeline.getitem "name" (name rec);
  u ← RagPipeline.getitem "url" (url rec);
  d ← RagPipeline.getitem "description" (description rec);
  dur ← RagPipeline.getitem "duration" (duration rec);
  dur ← py_int dur;
  tt ← RagPipeline.getitem "test_type" (test_type rec);
  ad ← RagPipeline.getitem "adaptive_support" (adaptive_support rec);
  re ← RagPipeline.getitem "remote_support" (remote_support rec);
  Ok {| c_name := n; c_url := u; c_description := d; c_duration := dur;
        c_test_type := tt; c_adaptive_support := ad;
        c_remote_support := re |}.

Fixpoint make_assessments (recommendations : list assessment)
  : result (list catalog_assessment) :=
  match recommendations with
  | [] => Ok []
  | rec :: recommendations' =>
      a ← make_assessment rec;
      rest ← make_assessments recommendations';
      Ok (a :: rest)
  end.

(** [POST /api/recommend]. *)
Definition recommend_assessments (query : string)
  : action world (list catalog_assessment) :=
  try_except_all
    (do stored <- vector_count;
     (if (stored =? 0)%Z then scrape_and_index else ret tt) ;;
     do recommendations <- recommend query 10;
     match recommendations with
     | [] => raise (HTTPException 404 "No assessments found")
     | _ :: _ => lift (make_assessments recommendations)
     end)
    (fun e => raise (HTTPException 500 (py_str e))).

(** [evaluator.load_train_data] and [evaluator.evaluate_system] in the
    state the endpoint has reached. *)
Definition load_train_data (file_path : string)
  : action world (list Evaluation.test_query) :=
  fun w => (Return (Evaluation.load_train_data (read_excel w) file_path), w).

Definition run_evaluation (test_data : list Evaluation.test_query)
  : action world Evaluation.summary :=
  fun w =>
    lift (Evaluation.evaluate_system (predict_func w) py_sum round4 (now w)
            test_data) w.

(** [POST /api/evaluate]. *)
Definition evaluate_system (test_file_url : option string)
  : action world evaluate_response :=
  try_except_all
    (do test_data <-
       match test_file_url with
       | Some (String c rest) =>
           do tmp <- download (String c rest);
           load_train_data tmp
       | Some EmptyString | None =>
           load_train_data "/app/data/test_data.xlsx"
       end;
     match test_data with
     | [] => raise (HTTPException 404 "Test data not found")
     | _ :: _ =>
         do results <- run_evaluation test_data;
         insert_one results ;;
         ret {| er_mean_recall_at_5 := Evaluation.mean_recall_at_5 results;
                er_mean_recall_at_10 := Evaluation.mean_recall_at_10 results;
                er_total_queries := Evaluation.total_queries results;
                er_message := "Evaluation completed successfully" |}
     end)
    (fun e => raise (HTTPException 500 (py_str e))).

End Endpoints.

End Server.

(** * Notions used to state the properties *)



(** The characters of a string. *)
Definition chars (s : string) : list ascii := list_ascii_of_string s.




(** Every group of [by_type] holds items of [recs] that carry the group's
    type in their [test_type]. *)
Definition groups_ok (recs : list assessment)
  (by_type : gmap string (list assessment)) : Prop :=
  forall (t : string) (group : list assessment) (r : assessment),
    by_type !! t = Some group -> r ∈ group ->
    r ∈ recs /\ exists ts, test_type r = Some ts /\ t ∈ ts.

(** The invariant of the two selection loops: [seen] holds the urls of
    the selected items, no url is selected twice, and every selected item
    comes from [recs]. *)
Definition selection_ok (recs : list assessment)
  (st : RagPipeline.selection) : Prop :=
  (forall k, k ∈ st.2 <-> k ∈ url <$> st.1)
  /\ NoDup (url <$> st.1)
  /\ forall r, r ∈ st.1 -> r ∈ recs.

(** An item carries one of the requested types. *)
Definition carries_requested (req_types : list string) (r : assessment)
  : Prop :=
  exists t ts, t ∈ req_types /\ test_type r = Some ts /\ t ∈ ts.

(** Sample assessments: two with a url, one without a url, one without a
    [test_type]. *)
Definition java_test : assessment :=
  {| name := Some "Java Programming Test";
     url := Some "https://www.shl.com/view/java-programming/";
     description := Some "Java programming skills";
     duration := Some "45";
     test_type := Some ["Knowledge & Skills"];
     adaptive_support := Some "No";
     remote_support := Some "Yes";
     distance := None |}.

Definition leadership_test : assessment :=
  {| name := Some "Leadership Assessment";
     url := Some "https://www.shl.com/view/leadership-assessment/";
     description := Some "Leadership potential";
     duration := Some "45";
     test_type := Some ["Personality & Behavior"];
     adaptive_support := Some "No";
     remote_support := Some "Yes";
     distance := None |}.

Definition no_url_test : assessment :=
  {| name := Some "Cognitive Ability Test";
     url := None;
     description := Some "Reasoning";
     duration := Some "30";
     test_type := Some ["Cognitive"];
     adaptive_support := Some "Yes";
     remote_support := Some "Yes";
     distance := None |}.

Definition no_type_test : assessment :=
  {| name := Some "Untyped Test";
     url := Some "https://www.shl.com/view/untyped/";
     description := Some "No categories";
     duration := Some "45";
     test_type := None;
     adaptive_support := Some "No";
     remote_support := Some "No";
     distance := None |}.

Definition requesting (types : list string) : query_analysis :=
  {| skills := []; test_types := types;
     experience_level := "Mid"; focus_areas := [] |}.

(** The contract of the vector database: a query for [n] neighbours
    answers with at most [n] of them. *)
Definition answers_at_most_requested (coll : collection) : Prop :=
  forall qs n r first rest,
    query coll qs n = Ok r -> metadatas r = Some (first :: rest) ->
    (Z.of_nat (length first) <= n)%Z.

(** A collection that holds the given payloads: it answers a query with
    the first [n] of them, and refuses [n <= 0]. *)
Definition collection_of (stored : list (gmap string string)) : collection :=
  {| count := Ok (Z.of_nat (length stored));
     query := fun _ n =>
       if (n <=? 0)%Z then Raise ValueError
       else Ok {| metadatas := Some [firstn (Z.to_nat n) stored];
                  distances := None |} |}.

Definition java_entry : catalog_assessment :=
  {| c_name := "Java Programming Test";
     c_url := "https://www.shl.com/view/java-programming/";
     c_description := "Java programming skills";
     c_duration := 45;
     c_test_type := ["Knowledge & Skills"];
     c_adaptive_support := "No";
     c_remote_support := "Yes" |}.

Definition sales_entry : catalog_assessment :=
  {| c_name := "Sales Assessment";
     c_url := "https://www.shl.com/view/sales-assessment/";
     c_description := "Sales aptitude";
     c_duration := 30;
     c_test_type := ["Personality & Behavior"; "Cognitive"];
     c_adaptive_support := "Yes";
     c_remote_support := "Yes" |}.

(** A callee that reports that it was called, and an [eval] that raises
    outside the forms followed. *)
Definition reporting_call (f : string) (args : list string) : result pyvalue :=
  Ok (VStr ("called " +:+ f)).

Definition eval_raises (source : string) : result pyvalue := Raise ValueError.

(** The categories a query analysis can request, in the order the
    analysis lists them. *)
Definition known_categories : list string :=
  ["Knowledge & Skills"; "Personality & Behavior"; "Cognitive"].

(** [r] carries the category [t] in its [test_type]. *)
Definition carries (t : string) (r : assessment) : bool :=
  py_in t (default [] (test_type r)).

(** The state after the requested types [done] have had their turn: a
    type that some ranked item carries is carried by one of the first
    items selected, no later than the type's place among the requested. *)
Definition represented (recs : list assessment) (done : list string)
  (picks : list assessment) : Prop :=
  forall (j : nat) (t : string),
    done !! j = Some t ->
    (exists r, r ∈ recs /\ carries t r = true) ->
    exists (i : nat) (p : assessment),
      i <= j /\ picks !! i = Some p /\ carries t p = true.

(** The rows of the test sheet that one item of the loaded test data
    stands for. *)
Definition rows_of (item : Evaluation.test_query)
  : list (Evaluation.cell * Evaluation.cell) :=
  map (pair (Evaluation.tq_query item)) (Evaluation.tq_relevant_urls item).

(** A row of the sheet whose query cell holds a text. *)
Definition has_query (row : Evaluation.cell * Evaluation.cell) : bool :=
  match fst row with
  | Evaluation.Text _ => true
  | Evaluation.Blank => false
  end.

(** Every prediction of a list has a url. *)
Definition all_have_url (predictions : list assessment) : bool :=
  forallb (fun p => match url p with Some _ => true | None => false end)
          predictions.

(** What [evaluate_system] records for one query of the test data: the
    query and its relevant urls as given, the two counts, the urls of the
    predictions (none when the prediction failed or one of its items has
    no url), and the two recalls of these urls. *)
Definition detail_of
  (predict_func : Evaluation.cell -> result (list assessment))
  (item : Evaluation.test_query) (d : Evaluation.query_detail) : Prop :=
  Evaluation.qr_query d = Evaluation.tq_query item
  /\ Evaluation.qr_relevant_urls d = Evaluation.tq_relevant_urls item
  /\ Evaluation.qr_relevant_count d
     = length (Evaluation.tq_relevant_urls item)
  /\ Evaluation.qr_predicted_count d
     = length (Evaluation.qr_predicted_urls d)
  /\ match predict_func (Evaluation.tq_query item) with
     | Ok predictions =>
         if all_have_url predictions
         then map url predictions
              = map Some (Evaluation.qr_predicted_urls d)
         else Evaluation.qr_predicted_urls d = []
     | Raise _ => Evaluation.qr_predicted_urls d = []
     end
  /\ Evaluation.calculate_recall_at_k_cells
       (Evaluation.qr_predicted_urls d) (Evaluation.tq_relevant_urls item) 5
     = Ok (Evaluation.qr_recall_at_5 d)
  /\ Evaluation.calculate_recall_at_k_cells
       (Evaluation.qr_predicted_urls d) (Evaluation.tq_relevant_urls item) 10
     = Ok (Evaluation.qr_recall_at_10 d).

(** The hit that [search] builds for an indexed assessment found at a
    distance. *)
Definition hit_of (a : catalog_assessment) (d : float) : search_hit :=
  {| h_name := c_name a;
     h_url := c_url a;
     h_description := c_description a;
     h_duration := pretty (c_duration a);
     h_test_type := VList (c_test_type a);
     h_adaptive_support := c_adaptive_support a;
     h_remote_support := c_remote_support a;
     h_distance := d |}.

(** The keys that [search] reads off a payload. *)
Definition payload_keys : list string :=
  ["name"; "url"; "description"; "duration"; "test_type";
   "adaptive_support"; "remote_support"].



(** * Properties *)

(** ** evaluation.py *)

Lemma py_in_true_iff (x : string) (l : list string) :
  py_in x l = true <-> In x l.
Proof.
  unfold py_in. rewrite existsb_exists. split.
  - intros [y [Hy Heq]]. apply String.eqb_eq in Heq. now subst.
  - intros Hin. exists x. split; [assumption | apply String.eqb_refl].
Qed.

Lemma py_in_false_iff (x : string) (l : list string) :
  py_in x l = false <-> ~ In x l.
Proof.
  rewrite <- py_in_true_iff. destruct (py_in x l); split; congruence.
Qed.

(** C9: with predictions [url1, url2, url3], relevant urls
    [url1, url3, url4] and [k = 2], only [url1] of the top two is relevant
    and the recall is the float [1/3]; [url2] is any url outside the
    relevant ones. *)
Theorem recall_at_2_example (url1 url2 url3 url4 : string) :
  ~ In url2 [url1; url3; url4] ->
  Evaluation.count_relevant (py_slice_to 2 [url1; url2; url3])
                            [url1; url3; url4] = 1%Z
  /\ Evaluation.calculate_recall_at_k
       [url1; url2; url3] [url1; url3; url4] 2
     = Ok (PrimFloat.div 1 3).
Proof.
  intros Hnot.
  assert (H1 : py_in url1 [url1; url3; url4] = true).
  { apply py_in_true_iff. now left. }
  assert (H2 : py_in url2 [url1; url3; url4] = false).
  { now apply py_in_false_iff. }
  unfold Evaluation.calculate_recall_at_k, Evaluation.count_relevant.
  change (py_slice_to 2 [url1; url2; url3]) with [url1; url2].
  cbn [fold_left]. rewrite H1, H2. split; reflexivity.
Qed.

Lemma recall_at_2_example_witness :
  Evaluation.count_relevant (py_slice_to 2 ["url1"; "url2"; "url3"])
                            ["url1"; "url3"; "url4"] = 1%Z
  /\ Evaluation.calculate_recall_at_k
       ["url1"; "url2"; "url3"] ["url1"; "url3"; "url4"] 2
     = Ok (PrimFloat.div 1 3).
Proof.
  apply (recall_at_2_example "url1" "url2" "url3" "url4").
  intros [H | [H | [H | []]]]; discriminate H.
Defined.

(** C10: an empty relevant list gives [0.0], and no input reaches the
    division with a zero length: the call never raises
    [ZeroDivisionError], and on a non-empty relevant list it returns the
    quotient by a positive length. *)
Theorem recall_never_divides_by_zero
  (predicted relevant : list string) (k : Z) :
  Evaluation.calculate_recall_at_k predicted [] k = Ok 0%float
  /\ Evaluation.calculate_recall_at_k predicted relevant k
     <> Raise ZeroDivisionError
  /\ (relevant = []
      \/ (0 < Z.of_nat (length relevant))%Z
         /\ Evaluation.calculate_recall_at_k predicted relevant k
            = Ok (PrimFloat.div
                    (float_of_int
                       (Evaluation.count_relevant
                          (py_slice_to k predicted) relevant))
                    (float_of_int (Z.of_nat (length relevant))))).
Proof.
  split; [reflexivity |].
  destruct relevant as [| r rs].
  - split; [discriminate | now left].
  - assert (Hpos : (0 < Z.of_nat (length (r :: rs)))%Z).
    { cbn [length]. lia. }
    unfold Evaluation.calculate_recall_at_k, py_truediv, mbind, result_bind.
    destruct (Z.eqb_spec (Z.of_nat (length (r :: rs))) 0) as [Hz | Hz].
    + lia.
    + split; [discriminate | right; split; [exact Hpos | reflexivity]].
Qed.

(** ** hashlib.sha256: the standard test vectors *)

Example sha256_empty :
  Sha256.digest (encode "") =
  [227; 176; 196; 66; 152; 252; 28; 20; 154; 251; 244; 200; 153; 111; 185;
   36; 39; 174; 65; 228; 100; 155; 147; 76; 164; 149; 153; 27; 120; 82; 184;
   85]%Z.
Proof. vm_compute. reflexivity. Qed.

Example sha256_abc :
  Sha256.digest (encode "abc") =
  [186; 120; 22; 191; 143; 1; 207; 234; 65; 65; 64; 222; 93; 174; 34; 35;
   176; 3; 97; 163; 150; 23; 122; 156; 180; 16; 255; 97; 242; 0; 21; 173]%Z.
Proof. vm_compute. reflexivity. Qed.

Example sha256_two_blocks :
  Sha256.digest
    (encode "abcdbcdecdefdefgefghfghighijhijkijkljklmklmnlmnomnopnopq") =
  [36; 141; 106; 97; 210; 6; 56; 184; 229; 192; 38; 147; 12; 62; 96; 57;
   163; 60; 228; 89; 100; 255; 33; 103; 246; 236; 237; 212; 25; 219; 6;
   193]%Z.
Proof. vm_compute. reflexivity. Qed.

Example sha256_two_byte_code_point :
  Sha256.digest (encode (String (ascii_of_nat 233) EmptyString)) =
  [74; 153; 85; 126; 64; 51; 195; 83; 157; 226; 235; 101; 71; 32; 23; 202;
   213; 249; 85; 127; 122; 6; 37; 160; 159; 28; 63; 110; 43; 166; 156;
   76]%Z.
Proof. vm_compute. reflexivity. Qed.


(** ** embeddings.py *)








(** ** [str] methods *)

Lemma str_split_nonempty (sep : ascii) (s : string) : str_split sep s <> [].
Proof.
  destruct s as [| c rest]; cbn [str_split]; [discriminate |].
  destruct (Ascii.eqb c sep); [discriminate |].
  destruct (str_split sep rest); discriminate.
Qed.














(** ** rag_pipeline.py: skill and focus extraction *)







(** ** rag_pipeline.py: the balancing pass *)

Lemma setdefault_append_ok (recs : list assessment) (r : assessment)
  (ts : list string) (by_type : gmap string (list assessment)) (t : string) :
  groups_ok recs by_type -> r ∈ recs -> test_type r = Some ts -> t ∈ ts ->
  groups_ok recs (RagPipeline.setdefault_append r by_type t).
Proof.
  intros Hok Hr Hts Ht t' group r' Hlook Hin.
  unfold RagPipeline.setdefault_append in Hlook.
  destruct (decide (t = t')) as [<- | Hne].
  - rewrite lookup_insert_eq in Hlook. injection Hlook as <-.
    apply elem_of_app in Hin. destruct Hin as [Hin | Hin].
    + destruct (by_type !! t) as [old |] eqn:Hold; cbn in Hin.
      * exact (Hok t old r' Hold Hin).
      * now apply elem_of_nil in Hin.
    + apply list_elem_of_singleton in Hin. subst r'.
      split; [exact Hr | exists ts; now split].
  - rewrite lookup_insert_ne in Hlook by exact Hne.
    exact (Hok t' group r' Hlook Hin).
Qed.

Lemma fold_setdefault_append_ok (recs : list assessment) (r : assessment)
  (ts some : list string) (by_type : gmap string (list assessment)) :
  groups_ok recs by_type -> r ∈ recs -> test_type r = Some ts ->
  (forall t, t ∈ some -> t ∈ ts) ->
  groups_ok recs (fold_left (RagPipeline.setdefault_append r) some by_type).
Proof.
  intros Hok Hr Hts. revert by_type Hok.
  induction some as [| t some IH]; intros by_type Hok Hsub; cbn.
  - exact Hok.
  - apply IH.
    + eapply setdefault_append_ok; eauto. apply Hsub. left.
    + intros t' Ht'. apply Hsub. now right.
Qed.

Lemma fold_group_ok (recs part : list assessment)
  (by_type : gmap string (list assessment)) :
  groups_ok recs by_type -> (forall r, r ∈ part -> r ∈ recs) ->
  groups_ok recs
    (fold_left
       (fun by_type r =>
          fold_left (RagPipeline.setdefault_append r)
                    (default [] (test_type r)) by_type)
       part by_type).
Proof.
  revert by_type. induction part as [| r part IH]; intros by_type Hok Hsub.
  - exact Hok.
  - cbn [fold_left]. apply IH.
    + destruct (test_type r) as [ts |] eqn:Hts; cbn [default fold_left].
      * eapply fold_setdefault_append_ok; eauto. apply Hsub. left.
      * exact Hok.
    + intros r' Hr'. apply Hsub. now right.
Qed.

Lemma group_by_type_ok (recs : list assessment) :
  groups_ok recs (RagPipeline.group_by_type recs).
Proof.
  unfold RagPipeline.group_by_type. apply fold_group_ok.
  - intros t group r Hlook. now rewrite lookup_empty in Hlook.
  - auto.
Qed.

Lemma first_unseen_spec (seen : gset (option string))
  (group : list assessment) (r : assessment) :
  RagPipeline.first_unseen seen group = Some r -> r ∈ group /\ url r ∉ seen.
Proof.
  induction group as [| r' group IH]; cbn; [discriminate |].
  destruct (decide (url r' ∈ seen)) as [Hin | Hnot].
  - intros H. destruct (IH H) as [Hr Hu]. split; [now right | exact Hu].
  - intros [= <-]. split; [left | exact Hnot].
Qed.

Lemma select_ok (recs : list assessment) (st : RagPipeline.selection)
  (r : assessment) :
  selection_ok recs st -> r ∈ recs -> url r ∉ st.2 ->
  selection_ok recs (RagPipeline.select st r).
Proof.
  intros (Hseen & Hnodup & Hsub) Hr Hnew.
  unfold RagPipeline.select, selection_ok. cbn [fst snd].
  rewrite fmap_app. cbn [fmap list_fmap].
  split; [| split].
  - intros k. rewrite elem_of_union, elem_of_singleton, elem_of_app,
      list_elem_of_singleton, Hseen. tauto.
  - apply NoDup_app. split; [exact Hnodup |]. split.
    + intros k Hk Hk'. apply list_elem_of_singleton in Hk'. subst k.
      apply Hnew, Hseen, Hk.
    + apply NoDup_singleton.
  - intros r' Hr'. apply elem_of_app in Hr'.
    destruct Hr' as [Hr' | Hr']; [now apply Hsub |].
    apply list_elem_of_singleton in Hr'. now subst r'.
Qed.

Lemma selection_ok_empty (recs : list assessment) : selection_ok recs ([], ∅).
Proof.
  split; [| split]; cbn.
  - intros k. split; intros H; [now apply not_elem_of_empty in H |
                                 now apply elem_of_nil in H].
  - apply NoDup_nil_2.
  - intros r Hr. now apply elem_of_nil in Hr.
Qed.

(** The loop over the requested types keeps the invariant, and every
    item it selects carries one of the requested types. *)
Lemma fold_pick_ok (recs : list assessment)
  (by_type : gmap string (list assessment)) (all types : list string)
  (st : RagPipeline.selection) :
  groups_ok recs by_type -> (forall t, t ∈ types -> t ∈ all) ->
  selection_ok recs st -> Forall (carries_requested all) st.1 ->
  let st' := fold_left (RagPipeline.pick_for_type by_type) types st in
  selection_ok recs st' /\ Forall (carries_requested all) st'.1.
Proof.
  intros Hgroups. revert st.
  induction types as [| t types IH]; intros st Hsub Hok Hcarry; cbn.
  - now split.
  - apply IH; [intros t' Ht'; apply Hsub; now right | |];
      unfold RagPipeline.pick_for_type;
      destruct (by_type !! t) as [group |] eqn:Hgroup; try assumption;
      destruct (RagPipeline.first_unseen st.2 group) as [r |] eqn:Hfirst;
      try assumption;
      destruct (first_unseen_spec _ _ _ Hfirst) as [Hr Hnew];
      destruct (Hgroups t group r Hgroup Hr) as [Hrecs [ts [Hts Ht]]].
    + now apply select_ok.
    + cbn [RagPipeline.select fst]. apply Forall_app. split; [exact Hcarry |].
      apply Forall_singleton. exists t, ts.
      split; [apply Hsub; left | now split].
Qed.

Lemma diversity_state_ok (recs : list assessment) (req_types : list string) :
  selection_ok recs (RagPipeline.diversity_state recs req_types)
  /\ Forall (carries_requested req_types)
            (RagPipeline.diversity_picks recs req_types).
Proof.
  unfold RagPipeline.diversity_picks, RagPipeline.diversity_state.
  apply fold_pick_ok; auto using group_by_type_ok, selection_ok_empty.
Qed.

(** The closing loop appends to the selection, in rank order, and once it
    is over every url of the list it ran over has been seen. *)
Lemma fold_append_unseen (recs part : list assessment)
  (st : RagPipeline.selection) :
  selection_ok recs st -> (forall r, r ∈ part -> r ∈ recs) ->
  let st' := fold_left RagPipeline.append_unseen part st in
  selection_ok recs st'
  /\ (forall k, k ∈ st.2 -> k ∈ st'.2)
  /\ (forall r, r ∈ part -> url r ∈ st'.2)
  /\ exists tail, st'.1 = st.1 ++ tail /\ sublist tail part.
Proof.
  revert st. induction part as [| r part IH]; intros st Hok Hsub; cbn.
  - split; [exact Hok |]. split; [auto |].
    split; [intros r Hr; now apply elem_of_nil in Hr |].
    exists []. split; [now rewrite app_nil_r | constructor].
  - assert (Hrest : forall r', r' ∈ part -> r' ∈ recs).
    { intros r' Hr'. apply Hsub. now right. }
    unfold RagPipeline.append_unseen at 2 4 6 8.
    destruct (decide (url r ∈ st.2)) as [Hseen | Hnew].
    + destruct (IH st Hok Hrest) as (Hok' & Hmono & Hall & tail & Heq & Hsl).
      split; [exact Hok' |]. split; [exact Hmono |]. split.
      * intros r' Hr'. apply elem_of_cons in Hr'.
        destruct Hr' as [-> | Hr']; [now apply Hmono | now apply Hall].
      * exists tail. split; [exact Heq | now constructor].
    + assert (Hok1 : selection_ok recs (RagPipeline.select st r)).
      { apply select_ok; auto. apply Hsub. left. }
      destruct (IH _ Hok1 Hrest) as (Hok' & Hmono & Hall & tail & Heq & Hsl).
      split; [exact Hok' |]. split; [| split].
      * intros k Hk. apply Hmono. cbn. apply elem_of_union. now right.
      * intros r' Hr'. apply elem_of_cons in Hr'.
        destruct Hr' as [-> | Hr']; [| now apply Hall].
        apply Hmono. cbn. apply elem_of_union. left.
        now apply elem_of_singleton.
      * exists (r :: tail). split.
        -- rewrite Heq. cbn [RagPipeline.select fst].
           now rewrite <- app_assoc.
        -- now constructor.
Qed.

Lemma url_injective_on (recs : list assessment) (x y : assessment) :
  NoDup (url <$> recs) -> x ∈ recs -> y ∈ recs -> url x = url y -> x = y.
Proof.
  induction recs as [| r recs IH]; intros Hnodup Hx Hy Heq.
  - now apply elem_of_nil in Hx.
  - cbn in Hnodup. apply NoDup_cons in Hnodup.
    destruct Hnodup as [Hfresh Hnodup].
    apply elem_of_cons in Hx. apply elem_of_cons in Hy.
    destruct Hx as [-> | Hx], Hy as [-> | Hy]; [reflexivity | | | auto].
    + exfalso. apply Hfresh. rewrite Heq. now apply list_elem_of_fmap_2.
    + exfalso. apply Hfresh. rewrite <- Heq. now apply list_elem_of_fmap_2.
Qed.

(** C4, as the code has it: when the urls of the ranked items are
    pairwise distinct (an absent url counting as one url), the balanced
    list is a permutation of the ranked list. *)
Theorem balance_permutation (recs : list assessment)
  (analysis : query_analysis) :
  NoDup (url <$> recs) ->
  Permutation recs (RagPipeline._balance_recommendations recs analysis).
Proof.
  intros Hnodup. unfold RagPipeline._balance_recommendations. cbv zeta.
  destruct (length (test_types analysis) <=? 1); [reflexivity |].
  destruct (diversity_state_ok recs (test_types analysis)) as [Hok _].
  destruct (fold_append_unseen recs recs _ Hok (fun r H => H))
    as ((Hseen & Hkeys & Hsub) & _ & Hall & _).
  symmetry. apply NoDup_Permutation.
  - eapply NoDup_fmap_1. exact Hkeys.
  - eapply NoDup_fmap_1. exact Hnodup.
  - intros x. split; [apply Hsub |].
    intros Hx. pose proof (Hall x Hx) as Hk.
    apply Hseen, list_elem_of_fmap in Hk.
    destruct Hk as [y [Heq Hy]].
    now rewrite (url_injective_on recs x y Hnodup Hx (Hsub y Hy) Heq).
Qed.

Lemma balance_permutation_witness :
  Permutation
    [java_test; no_type_test; leadership_test; no_url_test]
    (RagPipeline._balance_recommendations
       [java_test; no_type_test; leadership_test; no_url_test]
       (requesting ["Cognitive"; "Personality & Behavior"])).
Proof.
  apply (balance_permutation
           [java_test; no_type_test; leadership_test; no_url_test]
           (requesting ["Cognitive"; "Personality & Behavior"])).
  cbn. repeat (apply NoDup_cons; split;
               [rewrite ?elem_of_cons, elem_of_nil; intros H;
                repeat (destruct H as [H | H]; [discriminate H |]);
                exact H |]).
  apply NoDup_nil_2.
Defined.

(** C4 as stated fails: the reranker lists a candidate once per mention
    of its index, and the balancing pass then keeps one item per url. *)
Lemma balance_drops_repeated_url :
  RagPipeline._rerank_and_filter
    (fun _ => Ok (Some "1, 1")) 4300 "java developer"
    (requesting ["Knowledge & Skills"; "Personality & Behavior"])
    [java_test] 10
  = Ok [java_test; java_test]
  /\ RagPipeline._balance_recommendations [java_test; java_test]
       (requesting ["Knowledge & Skills"; "Personality & Behavior"])
     = [java_test]
  /\ ~ Permutation
         [java_test; java_test]
         (RagPipeline._balance_recommendations [java_test; java_test]
            (requesting ["Knowledge & Skills"; "Personality & Behavior"])).
Proof.
  split; [vm_compute; reflexivity |].
  assert (H : RagPipeline._balance_recommendations [java_test; java_test]
                (requesting ["Knowledge & Skills"; "Personality & Behavior"])
              = [java_test]) by (vm_compute; reflexivity).
  split; [exact H |].
  rewrite H. intros Hperm. apply Permutation_length in Hperm.
  discriminate Hperm.
Qed.

(** C7, as the code has it: with two or more requested categories the
    balanced list is the diversity picks followed by a tail in rank
    order; every pick is a ranked item that carries a requested category
    in its [test_type], so an item without a [test_type] field is never a
    pick and occurs in the tail only. *)
Theorem balance_picks_then_tail (recs : list assessment)
  (analysis : query_analysis) :
  2 <= length (test_types analysis) ->
  let picks := RagPipeline.diversity_picks recs (test_types analysis) in
  exists tail : list assessment,
    RagPipeline._balance_recommendations recs analysis = picks ++ tail
    /\ sublist tail recs
    /\ NoDup (url <$> picks ++ tail)
    /\ (forall p, p ∈ picks ->
          p ∈ recs /\ carries_requested (test_types analysis) p)
    /\ (forall r, test_type r = None -> r ∉ picks).
Proof.
  intros Hlen picks.
  destruct (diversity_state_ok recs (test_types analysis)) as [Hok Hcarry].
  destruct (fold_append_unseen recs recs _ Hok (fun r H => H))
    as ((_ & Hkeys & _) & _ & _ & tail & Heq & Hsub).
  assert (Hpicks : forall p, p ∈ picks ->
            p ∈ recs /\ carries_requested (test_types analysis) p).
  { intros p Hp. split.
    - destruct Hok as (_ & _ & Hin). now apply Hin.
    - rewrite Forall_forall in Hcarry. now apply Hcarry. }
  exists tail. unfold RagPipeline._balance_recommendations. cbv zeta.
  destruct (Nat.leb_spec (length (test_types analysis)) 1) as [Hle | _];
    [lia |].
  split; [exact Heq |]. split; [exact Hsub |].
  split; [unfold picks, RagPipeline.diversity_picks; now rewrite <- Heq |].
  split; [exact Hpicks |].
  intros r Hnone Hr. destruct (Hpicks r Hr) as [_ (t & ts & _ & Hts & _)].
  congruence.
Qed.

Lemma balance_picks_then_tail_witness :
  let recs := [java_test; no_type_test; leadership_test; no_url_test] in
  let analysis := requesting ["Personality & Behavior"; "Knowledge & Skills"] in
  let picks := RagPipeline.diversity_picks recs (test_types analysis) in
  exists tail : list assessment,
    RagPipeline._balance_recommendations recs analysis = picks ++ tail
    /\ sublist tail recs
    /\ NoDup (url <$> picks ++ tail)
    /\ (forall p, p ∈ picks ->
          p ∈ recs /\ carries_requested (test_types analysis) p)
    /\ (forall r, test_type r = None -> r ∉ picks).
Proof.
  apply (balance_picks_then_tail
           [java_test; no_type_test; leadership_test; no_url_test]
           (requesting ["Personality & Behavior"; "Knowledge & Skills"])).
  cbn. lia.
Defined.

(** C7 as stated fails for an item without a url: its url reads as
    [None], which is not in [seen], so it is chosen as the diversity pick
    of its category and moves from the last rank to the head. *)
Lemma item_without_url_is_picked :
  url no_url_test = None
  /\ RagPipeline.diversity_picks
       [java_test; leadership_test; no_url_test]
       ["Cognitive"; "Knowledge & Skills"]
     = [no_url_test; java_test]
  /\ RagPipeline._balance_recommendations
       [java_test; leadership_test; no_url_test]
       (requesting ["Cognitive"; "Knowledge & Skills"])
     = [no_url_test; java_test; leadership_test].
Proof.
  split; [reflexivity |]. split; vm_compute; reflexivity.
Qed.

(** ** rag_pipeline.py: failures in the reranker and in the orchestrator *)

Lemma try_except_total {A : Type} (body : result A) (fallback : A) :
  exists a, try_except body (fun _ => Ok fallback) = Ok a.
Proof. destruct body as [a | e]; cbn; eauto. Qed.

Lemma try_except_raise {A : Type} (body : result A) (fallback : A) (e : exn) :
  body = Raise e -> try_except body (fun _ => Ok fallback) = Ok fallback.
Proof. now intros ->. Qed.

(** C3: [_rerank_and_filter] always returns a list, and it returns the
    candidates as they were given whenever its body raises: when a
    candidate of the summary lacks a key, when the generative call raises,
    and when the ranking parse raises. *)
Theorem rerank_failure_returns_candidates
  (generate_text : prompt -> result (option string))
  (int_max_str_digits : nat)
  (query : string) (analysis : query_analysis)
  (candidates : list assessment) (n_results : Z) :
  let rerank :=
    RagPipeline._rerank_and_filter generate_text int_max_str_digits
      query analysis candidates n_results in
  let ranking_prompt lines :=
    RankingPrompt n_results query (String.concat (String LF EmptyString) lines) in
  (exists reranked, rerank = Ok reranked)
  /\ (forall e,
        RagPipeline.rerank_body generate_text int_max_str_digits
          query analysis candidates n_results = Raise e ->
        rerank = Ok candidates)
  /\ (forall lines e,
        RagPipeline.summary_lines 0 (firstn 15 candidates) = Ok lines ->
        generate_text (ranking_prompt lines) = Raise e ->
        rerank = Ok candidates)
  /\ (forall lines response e,
        RagPipeline.summary_lines 0 (firstn 15 candidates) = Ok lines ->
        generate_text (ranking_prompt lines) = Ok response ->
        RagPipeline._parse_rankings int_max_str_digits
          (default EmptyString response) = Raise e ->
        rerank = Ok candidates).
Proof.
  intros rerank ranking_prompt. unfold rerank, ranking_prompt.
  unfold RagPipeline._rerank_and_filter.
  split; [apply try_except_total |].
  split; [intros e He; now apply try_except_raise with e |].
  split.
  - intros lines e Hlines Hgen. apply try_except_raise with e.
    unfold RagPipeline.rerank_body. rewrite Hlines. cbn.
    now rewrite Hgen.
  - intros lines response e Hlines Hgen Hparse.
    apply try_except_raise with e.
    unfold RagPipeline.rerank_body. rewrite Hlines. cbn.
    rewrite Hgen. cbn. now rewrite Hparse.
Qed.

Lemma rerank_failure_returns_candidates_witness :
  RagPipeline._rerank_and_filter
    (fun _ => Raise (ServiceError "unavailable")) 4300 "java developer"
    (requesting ["Knowledge & Skills"])
    [leadership_test; java_test] 10
  = Ok [leadership_test; java_test]
  /\ RagPipeline._rerank_and_filter
       (fun _ => Ok (Some "2, 12345")) 4 "java developer"
       (requesting ["Knowledge & Skills"])
       [leadership_test; java_test] 10
     = Ok [leadership_test; java_test].
Proof.
  split.
  - apply (proj1 (proj2 (proj2
             (rerank_failure_returns_candidates
                (fun _ => Raise (ServiceError "unavailable")) 4300
                "java developer" (requesting ["Knowledge & Skills"])
                [leadership_test; java_test] 10))))
      with (lines := ["1. Leadership Assessment - Leadership potential...";
                      "2. Java Programming Test - Java programming skills..."])
           (e := ServiceError "unavailable");
      reflexivity.
  - apply (proj2 (proj2 (proj2
             (rerank_failure_returns_candidates
                (fun _ => Ok (Some "2, 12345")) 4
                "java developer" (requesting ["Knowledge & Skills"])
                [leadership_test; java_test] 10))))
      with (lines := ["1. Leadership Assessment - Leadership potential...";
                      "2. Java Programming Test - Java programming skills..."])
           (response := Some "2, 12345")
           (e := ValueError);
      reflexivity.
Defined.

(** C1: [recommend] always returns a list, and it returns the empty list
    whenever one of its five calls raises, that is, whenever an exception
    leaves the query analysis, the embedding, the search, the reranker or
    the balancing pass.  No exception leaves [recommend]. *)
Theorem recommend_catches_every_exception
  {Analysis Embedding Item : Type}
  (analyze : string -> result Analysis)
  (embed : string -> result Embedding)
  (search : Embedding -> Z -> result (list Item))
  (rerank : string -> Analysis -> list Item -> Z -> result (list Item))
  (balance : list Item -> Analysis -> result (list Item))
  (query : string) (n_results : Z) :
  let recommend :=
    RagPipeline.recommend_with analyze embed search rerank balance
      query n_results in
  (exists recommendations, recommend = Ok recommendations)
  /\ (forall e, analyze query = Raise e -> recommend = Ok [])
  /\ (forall a e,
        analyze query = Ok a -> embed query = Raise e -> recommend = Ok [])
  /\ (forall a v e,
        analyze query = Ok a -> embed query = Ok v ->
        search v 20%Z = Raise e -> recommend = Ok [])
  /\ (forall a v candidates e,
        analyze query = Ok a -> embed query = Ok v ->
        search v 20%Z = Ok candidates ->
        rerank query a candidates n_results = Raise e ->
        recommend = Ok [])
  /\ (forall a v candidates reranked e,
        analyze query = Ok a -> embed query = Ok v ->
        search v 20%Z = Ok candidates ->
        rerank query a candidates n_results = Ok reranked ->
        balance reranked a = Raise e ->
        recommend = Ok []).
Proof.
  intros recommend. unfold recommend, RagPipeline.recommend_with.
  split; [apply try_except_total |].
  unfold RagPipeline.recommend_body.
  split; [intros e Ha; now rewrite Ha |].
  split; [intros a e Ha Hv; rewrite Ha; cbn; now rewrite Hv |].
  split; [intros a v e Ha Hv Hs; rewrite Ha; cbn; rewrite Hv; cbn;
          now rewrite Hs |].
  split.
  - intros a v candidates e Ha Hv Hs Hr.
    rewrite Ha; cbn; rewrite Hv; cbn; rewrite Hs; cbn.
    destruct candidates; [reflexivity |]. now rewrite Hr.
  - intros a v candidates reranked e Ha Hv Hs Hr Hb.
    rewrite Ha; cbn; rewrite Hv; cbn; rewrite Hs; cbn.
    destruct candidates; [reflexivity |]. rewrite Hr; cbn. now rewrite Hb.
Qed.

Lemma recommend_catches_every_exception_witness :
  RagPipeline.recommend
    (fun _ => Raise (ServiceError "unavailable")) 4300
    (fun _ => Ok [PrimFloat.div 1 2])
    (fun _ _ => Raise (ServiceError "collection not found"))
    "java developer" 10
  = Ok [].
Proof.
  apply (proj1 (proj2 (proj2 (proj2
           (recommend_catches_every_exception
              (RagPipeline._analyze_query
                 (fun _ => Raise (ServiceError "unavailable")))
              (fun _ => Ok [PrimFloat.div 1 2])
              (fun _ _ => Raise (ServiceError "collection not found"))
              (RagPipeline._rerank_and_filter
                 (fun _ => Raise (ServiceError "unavailable")) 4300)
              (fun recs analysis =>
                 Ok (RagPipeline._balance_recommendations recs analysis))
              "java developer" 10)))))
    with (a := RagPipeline.default_analysis)
         (v := [PrimFloat.div 1 2])
         (e := ServiceError "collection not found");
    reflexivity.
Defined.

(** ** [repr] and [eval] *)

Lemma str_app_assoc (a b c : string) : (a +:+ b) +:+ c = a +:+ (b +:+ c).
Proof.
  induction a as [| x a IH]; [reflexivity |].
  change (String x ((a +:+ b) +:+ c) = String x (a +:+ (b +:+ c))).
  now rewrite IH.
Qed.

Lemma str_length_app (a b : string) :
  String.length (a +:+ b) = String.length a + String.length b.
Proof.
  induction a as [| x a IH]; [reflexivity |].
  change (S (String.length (a +:+ b)) = S (String.length a) + String.length b).
  now rewrite IH.
Qed.

Lemma str_app_nil (s : string) : EmptyString +:+ s = s.
Proof. reflexivity. Qed.

Lemma str_app_cons (c : ascii) (a b : string) :
  String c a +:+ b = String c (a +:+ b).
Proof. reflexivity. Qed.

Lemma is_quote_cases (q : ascii) :
  is_quote q = true -> q = SQUOTE \/ q = DQUOTE.
Proof.
  unfold is_quote. intros H. apply orb_prop in H.
  destruct H as [H | H]; apply Ascii.eqb_eq in H; auto.
Qed.

(** Reading back one character of a [repr]. *)
Lemma parse_body_repr_char (q c : ascii) (rest : string) :
  is_quote q = true ->
  parse_body q (repr_char q c +:+ rest) = prepend c (parse_body q rest).
Proof.
  intros Hq. destruct (is_quote_cases q Hq) as [-> | ->];
    destruct c as [[] [] [] [] [] [] [] []]; reflexivity.
Qed.

Lemma parse_body_repr_body (q : ascii) (s rest : string) :
  is_quote q = true ->
  parse_body q (repr_body q s +:+ String q rest) = Some (s, rest).
Proof.
  intros Hq. induction s as [| c s IH]; cbn [repr_body].
  - rewrite str_app_nil. cbn [parse_body]. now rewrite Ascii.eqb_refl.
  - rewrite str_app_assoc, parse_body_repr_char by exact Hq.
    now rewrite IH.
Qed.

Lemma repr_quote_is_quote (s : string) : is_quote (repr_quote s) = true.
Proof.
  unfold repr_quote.
  destruct (has_char SQUOTE s && negb (has_char DQUOTE s)); reflexivity.
Qed.

Lemma py_repr_shape (s : string) :
  exists q, is_quote q = true
            /\ py_repr s = String q (repr_body q s +:+ String q EmptyString).
Proof. exists (repr_quote s). split; [apply repr_quote_is_quote | reflexivity]. Qed.

Lemma not_quote_neq (q c : ascii) :
  is_quote q = true -> is_quote c = false -> Ascii.eqb q c = false.
Proof.
  intros Hq Hc. apply Ascii.eqb_neq. intros ->. congruence.
Qed.

(** Reading back one item of a [str] of a list, whatever follows it. *)
Lemma py_repr_followed (x : string) :
  exists q, is_quote q = true
    /\ forall tail, py_repr x +:+ tail
                    = String q (repr_body q x +:+ String q tail).
Proof.
  destruct (py_repr_shape x) as [q [Hq Hx]]. exists q. split; [exact Hq |].
  intros tail'. rewrite Hx, str_app_cons, str_app_assoc, str_app_cons.
  now rewrite str_app_nil.
Qed.

Lemma skip_spaces_quote (q : ascii) (s : string) :
  is_quote q = true -> skip_spaces (String q s) = String q s.
Proof. intros Hq. destruct (is_quote_cases q Hq) as [-> | ->]; reflexivity. Qed.

(** Reading back the items of a [str] of a non-empty list. *)
Lemma parse_items_repr (close : ascii) (l : list string) :
  is_quote close = false -> close <> ","%char ->
  forall (fuel : nat) (rest : string),
    l <> [] -> length l <= fuel ->
    parse_items fuel close
      (String.concat ", " (map py_repr l) +:+ String close rest)
    = Some (l, rest).
Proof.
  intros Hclose Hcomma.
  induction l as [| x l IH]; intros fuel rest Hne Hfuel; [congruence |].
  destruct fuel as [| fuel]; [cbn in Hfuel; lia |].
  destruct (py_repr_followed x) as [q [Hq Hx]].
  destruct l as [| y l].
  - cbn [map String.concat]. rewrite Hx. cbn [parse_items].
    rewrite Hq, parse_body_repr_body by exact Hq.
    now rewrite Ascii.eqb_refl.
  - change (String.concat ", " (map py_repr (x :: y :: l)))
      with (py_repr x +:+ ", " +:+ String.concat ", " (map py_repr (y :: l))).
    rewrite !str_app_assoc, Hx. cbn [parse_items].
    rewrite Hq, parse_body_repr_body by exact Hq.
    rewrite !str_app_cons, str_app_nil.
    assert (Hcc : Ascii.eqb ","%char close = false).
    { apply Ascii.eqb_neq. congruence. }
    rewrite Hcc. change (Ascii.eqb "," ",") with true. cbv iota.
    assert (Hskip : forall tail,
               skip_spaces
                 (String " "
                    (String.concat ", " (map py_repr (y :: l)) +:+ tail))
               = String.concat ", " (map py_repr (y :: l)) +:+ tail).
    { intros tail. destruct (py_repr_followed y) as [qy [Hqy Hy]].
      cbn [skip_spaces].
      destruct l as [| z l].
      - cbn [map String.concat]. rewrite Hy. now apply skip_spaces_quote.
      - change (String.concat ", " (map py_repr (y :: z :: l)))
          with (py_repr y +:+ ", "
                  +:+ String.concat ", " (map py_repr (z :: l))).
        rewrite !str_app_assoc, Hy. now apply skip_spaces_quote. }
    rewrite Hskip, IH; [reflexivity | discriminate | cbn in *; lia].
Qed.

Lemma concat_repr_length (l : list string) :
  length l <= String.length (String.concat ", " (map py_repr l)).
Proof.
  induction l as [| x l IH]; [cbn; lia |].
  destruct l as [| y l].
  - cbn. lia.
  - change (String.concat ", " (map py_repr (x :: y :: l)))
      with (py_repr x +:+ ", " +:+ String.concat ", " (map py_repr (y :: l))).
    rewrite !str_length_app. cbn [length] in *. cbn [String.length]. lia.
Qed.

Lemma parse_expr_str_of_list (l : list string) :
  parse_expr (py_str_of_list l) = Some (EStrList l).
Proof.
  unfold py_str_of_list. rewrite str_app_cons, str_app_nil.
  cbn [parse_expr].
  change (is_quote "[") with false. cbv iota.
  rewrite Ascii.eqb_refl. unfold parse_sequence.
  destruct l as [| x l].
  - reflexivity.
  - destruct (String.concat ", " (map py_repr (x :: l)) +:+ "]")
      as [| c body] eqn:Hsrc.
    { pose proof (concat_repr_length (x :: l)) as Hlen.
      apply (f_equal String.length) in Hsrc.
      rewrite str_length_app in Hsrc. cbn in Hsrc, Hlen. lia. }
    assert (Hc : Ascii.eqb c "]" = false).
    { destruct (py_repr_followed x) as [q [Hq Hx]].
      destruct l as [| y l].
      - cbn [map String.concat] in Hsrc. rewrite Hx in Hsrc.
        injection Hsrc as <- _. now apply not_quote_neq.
      - change (String.concat ", " (map py_repr (x :: y :: l)))
          with (py_repr x +:+ ", "
                  +:+ String.concat ", " (map py_repr (y :: l))) in Hsrc.
        rewrite !str_app_assoc, Hx in Hsrc.
        injection Hsrc as <- _. now apply not_quote_neq. }
    rewrite Hc, <- Hsrc.
    rewrite parse_items_repr; [reflexivity | reflexivity | discriminate
                              | discriminate |].
    rewrite str_length_app. pose proof (concat_repr_length (x :: l)). lia.
Qed.

(** ** vector_store.py *)

Lemma create_metadata_lookups (a : catalog_assessment) :
  VectorStore._create_metadata a !! "name" = Some (c_name a)
  /\ VectorStore._create_metadata a !! "url" = Some (c_url a)
  /\ VectorStore._create_metadata a !! "description" = Some (c_description a)
  /\ VectorStore._create_metadata a !! "duration"
     = Some (pretty (c_duration a))
  /\ VectorStore._create_metadata a !! "test_type"
     = Some (py_str_of_list (c_test_type a))
  /\ VectorStore._create_metadata a !! "adaptive_support"
     = Some (c_adaptive_support a)
  /\ VectorStore._create_metadata a !! "remote_support"
     = Some (c_remote_support a).
Proof.
  unfold VectorStore._create_metadata.
  repeat split; now simplify_map_eq.
Qed.

(** C6, as the code has it: the [test_type] list of an assessment is
    stored as its [str], and [eval] of the stored string is the identical
    list, so the hit that [search] builds from the payload carries the
    list as it was indexed.  The decoding is the generic evaluator. *)
Theorem test_type_round_trip
  (call_function : string -> list string -> result pyvalue)
  (eval_other : string -> result pyvalue)
  (a : catalog_assessment) (results : query_result) (i : nat) :
  let stored := py_str_of_list (c_test_type a) in
  VectorStore._create_metadata a !! "test_type" = Some stored
  /\ parse_expr stored = Some (EStrList (c_test_type a))
  /\ py_eval call_function eval_other stored = Ok (VList (c_test_type a))
  /\ (VectorStore.distance_at results i = Raise IndexError
      \/ exists hit,
           VectorStore.format_hit call_function eval_other results i
             (VectorStore._create_metadata a) = Ok hit
           /\ h_test_type hit = VList (c_test_type a)
           /\ h_name hit = c_name a /\ h_url hit = c_url a).
Proof.
  intros stored.
  destruct (create_metadata_lookups a)
    as (Hn & Hu & Hd & Hdur & Htt & Had & Hre).
  assert (Hparse : parse_expr stored = Some (EStrList (c_test_type a)))
    by apply parse_expr_str_of_list.
  assert (Heval : py_eval call_function eval_other stored
                  = Ok (VList (c_test_type a))).
  { unfold py_eval. now rewrite Hparse. }
  split; [exact Htt |]. split; [exact Hparse |]. split; [exact Heval |].
  destruct (VectorStore.distance_at results i) as [d | e] eqn:Hdist.
  - right. unfold VectorStore.format_hit, VectorStore.getitem.
    rewrite Hn, Hu, Hd, Hdur, Htt, Had, Hre. cbn.
    fold stored. rewrite Heval. cbn. rewrite Hdist. cbn.
    eexists. split; [reflexivity |]. cbn. auto.
  - left. unfold VectorStore.distance_at in *.
    destruct (distances results) as [[| first rest] |]; try discriminate.
    destruct (first !! i); [discriminate | now symmetry].
Qed.

(** C6 as stated fails: the decoding is [eval], and a stored string that
    is a call is evaluated as a call; the hit then carries what the
    callee returned. *)
Lemma stored_call_is_evaluated :
  parse_expr "__import__('os')" = Some (ECall "__import__" ["os"])
  /\ py_eval reporting_call eval_raises "__import__('os')"
     = Ok (VStr "called __import__")
  /\ VectorStore.search reporting_call eval_raises
       (collection_of
          [<["test_type" := "__import__('os')"]>
             (VectorStore._create_metadata java_entry)])
       [PrimFloat.div 1 2] 20
     = Ok [ {| h_name := "Java Programming Test";
               h_url := "https://www.shl.com/view/java-programming/";
               h_description := "Java programming skills";
               h_duration := "45";
               h_test_type := VStr "called __import__";
               h_adaptive_support := "No";
               h_remote_support := "Yes";
               h_distance := 0%float |} ].
Proof.
  split; [reflexivity |]. split; [reflexivity |].
  vm_compute. reflexivity.
Qed.

Lemma format_hits_length
  (call_function : string -> list string -> result pyvalue)
  (eval_other : string -> result pyvalue) (results : query_result)
  (ms : list (gmap string string)) :
  forall (i : nat) (hits : list search_hit),
    VectorStore.format_hits call_function eval_other results i ms = Ok hits ->
    length hits = length ms.
Proof.
  induction ms as [| m ms IH]; intros i hits; cbn.
  - now intros [= <-].
  - destruct (VectorStore.format_hit _ _ _ _ _) as [hit | e]; cbn;
      [| discriminate].
    destruct (VectorStore.format_hits _ _ _ _ _) as [rest | e] eqn:Hrest;
      cbn; [| discriminate].
    intros [= <-]. cbn. f_equal. eapply IH. exact Hrest.
Qed.

(** C5: [search] always returns a list; it asks the collection for
    [min(n_results, count())] neighbours, so asking for more than is
    stored is asking for all that is stored; and when the collection
    answers with no more than it is asked for, the hits are at most
    [count()], and none on an empty collection. *)
Theorem search_clamps_to_count
  (call_function : string -> list string -> result pyvalue)
  (eval_other : string -> result pyvalue)
  (coll : collection) (query_embedding : list float) (n_results : Z) :
  let search := VectorStore.search call_function eval_other coll
                  query_embedding in
  (exists hits, search n_results = Ok hits)
  /\ (forall stored,
        count coll = Ok stored ->
        VectorStore.search_body call_function eval_other coll
          query_embedding n_results
        = (results ← query coll [query_embedding] (Z.min n_results stored);
           VectorStore.format_results call_function eval_other results))
  /\ (forall stored more,
        count coll = Ok stored ->
        (stored <= n_results)%Z -> (stored <= more)%Z ->
        search n_results = search more)
  /\ (forall stored hits,
        count coll = Ok stored -> answers_at_most_requested coll ->
        search n_results = Ok hits ->
        (Z.of_nat (length hits) <= Z.max 0 (Z.min n_results stored))%Z
        /\ ((0 <= stored)%Z -> (Z.of_nat (length hits) <= stored)%Z)
        /\ (stored = 0%Z -> hits = [])).
Proof.
  intros search. unfold search, VectorStore.search.
  split; [apply try_except_total |].
  split; [intros stored Hcount; unfold VectorStore.search_body;
          now rewrite Hcount |].
  split.
  - intros stored more Hcount Hle Hle'.
    unfold VectorStore.search_body. rewrite Hcount. cbn.
    now rewrite !Z.min_r by lia.
  - intros stored hits Hcount Hcontract Hsearch.
    assert (Hbound : (Z.of_nat (length hits)
                      <= Z.max 0 (Z.min n_results stored))%Z).
    { unfold VectorStore.search_body in Hsearch.
      rewrite Hcount in Hsearch. cbn in Hsearch.
      destruct (query coll [query_embedding] (Z.min n_results stored))
        as [results | e] eqn:Hquery; cbn in Hsearch.
      - unfold VectorStore.format_results in Hsearch.
        destruct (metadatas results) as [[| first rest] |] eqn:Hmeta;
          try (injection Hsearch as <-; cbn; lia).
        pose proof (Hcontract _ _ _ _ _ Hquery Hmeta) as Hfirst.
        destruct (VectorStore.format_hits _ _ _ _ _) as [hs | e] eqn:Hhits;
          cbn in Hsearch; injection Hsearch as <-; [| cbn; lia].
        apply format_hits_length in Hhits. rewrite Hhits. lia.
      - injection Hsearch as <-. cbn. lia. }
    split; [exact Hbound |]. split; [lia |].
    intros ->. destruct hits; [reflexivity | cbn in Hbound; lia].
Qed.

Lemma collection_of_answers_at_most_requested
  (stored : list (gmap string string)) :
  answers_at_most_requested (collection_of stored).
Proof.
  intros qs n r first rest Hquery Hmeta. cbn in Hquery.
  destruct (Z.leb_spec n 0) as [Hle | Hlt]; [discriminate |].
  injection Hquery as <-. cbn in Hmeta. injection Hmeta as <- <-.
  rewrite length_take. lia.
Qed.

Lemma search_clamps_to_count_witness :
  VectorStore.search reporting_call eval_raises
    (collection_of [VectorStore._create_metadata java_entry;
                    VectorStore._create_metadata sales_entry])
    [PrimFloat.div 1 2] 20
  = VectorStore.search reporting_call eval_raises
      (collection_of [VectorStore._create_metadata java_entry;
                      VectorStore._create_metadata sales_entry])
      [PrimFloat.div 1 2] 2
  /\ forall hits,
       VectorStore.search reporting_call eval_raises
         (collection_of [VectorStore._create_metadata java_entry;
                         VectorStore._create_metadata sales_entry])
         [PrimFloat.div 1 2] 20 = Ok hits ->
       (Z.of_nat (length hits) <= 2)%Z.
Proof.
  pose proof (search_clamps_to_count reporting_call eval_raises
                (collection_of [VectorStore._create_metadata java_entry;
                                VectorStore._create_metadata sales_entry])
                [PrimFloat.div 1 2] 20) as (_ & _ & Hsame & Hbound).
  split.
  - apply (Hsame 2%Z 2%Z); [reflexivity | lia | lia].
  - intros hits Hhits.
    destruct (Hbound 2%Z hits eq_refl
                (collection_of_answers_at_most_requested _) Hhits)
      as (_ & Hle & _).
    apply Hle. lia.
Defined.

(** * Further properties of the backend *)

(** ** rag_pipeline.py: the query analysis *)

Lemma prefix_nil (s : string) : String.prefix EmptyString s = true.
Proof. destruct s; reflexivity. Qed.

Lemma prefix_app_l (sub a b : string) :
  String.prefix sub a = true -> String.prefix sub (a +:+ b) = true.
Proof.
  revert a. induction sub as [| c sub IH]; intros a H; [apply prefix_nil |].
  destruct a as [| c' a]; [discriminate |].
  rewrite str_app_cons. cbn [String.prefix] in *.
  destruct (ascii_dec c c'); [now apply IH | discriminate].
Qed.

Lemma str_contains_app_l (sub a b : string) :
  str_contains sub a = true -> str_contains sub (a +:+ b) = true.
Proof.
  induction a as [| c a IH]; intros H.
  - cbn in H. rewrite orb_false_r in H.
    destruct sub; [| discriminate].
    rewrite str_app_nil. destruct b; reflexivity.
  - rewrite str_app_cons. cbn [str_contains] in *.
    apply orb_prop in H. apply orb_true_intro.
    destruct H as [H | H].
    + left. now apply (prefix_app_l sub (String c a) b).
    + right. now apply IH.
Qed.

Lemma str_contains_app_r (sub a b : string) :
  str_contains sub b = true -> str_contains sub (a +:+ b) = true.
Proof.
  intros H. induction a as [| c a IH]; [exact H |].
  rewrite str_app_cons. cbn [str_contains]. rewrite IH. apply orb_true_r.
Qed.

Lemma str_lower_app (a b : string) :
  str_lower (a +:+ b) = str_lower a +:+ str_lower b.
Proof.
  induction a as [| c a IH]; [reflexivity |].
  rewrite str_app_cons. cbn [str_lower]. now rewrite IH, str_app_cons.
Qed.

(** A keyword found in the lower-cased model output or in the lower-cased
    query is found in the text the classifiers read. *)
Lemma classified_text_contains (k analysis query : string) :
  str_contains k (str_lower analysis) = true
  \/ str_contains k (str_lower query) = true ->
  str_contains k (str_lower (analysis +:+ " " +:+ query)) = true.
Proof.
  rewrite !str_lower_app. intros [H | H].
  - now apply str_contains_app_l.
  - now apply str_contains_app_r, str_contains_app_r.
Qed.

Lemma any_in_intro (k : string) (keywords : list string) (text : string) :
  In k keywords -> str_contains k text = true ->
  RagPipeline.any_in keywords text = true.
Proof.
  intros Hin Hk. unfold RagPipeline.any_in. apply existsb_exists. eauto.
Qed.

Lemma extract_test_types_cases (analysis query : string) :
  let text := str_lower (analysis +:+ " " +:+ query) in
  let k := RagPipeline.any_in ["technical"; "coding"; "programming"] text in
  let p := RagPipeline.any_in ["personality"; "leadership"] text in
  let c := RagPipeline.any_in ["cognitive"; "analytical"] text in
  RagPipeline._extract_test_types analysis query
  = if k || p || c
    then (if k then ["Knowledge & Skills"] else [])
           ++ (if p then ["Personality & Behavior"] else [])
           ++ (if c then ["Cognitive"] else [])
    else ["Knowledge & Skills"].
Proof.
  intros text k p c. unfold RagPipeline._extract_test_types. cbv zeta.
  fold text. fold k. fold p. fold c.
  destruct k, p, c; reflexivity.
Qed.

(** X2: The classifiers are case-insensitive and read both texts: "senior"
    anywhere in the model output or in the query gives [Senior], whatever
    else is there, and a keyword of a category anywhere in either puts the
    category among the requested ones. *)
Theorem keywords_decide_analysis (analysis query : string) :
  let found k :=
    str_contains k (str_lower analysis) = true
    \/ str_contains k (str_lower query) = true in
  (found "senior" ->
   RagPipeline._extract_experience_level analysis query = "Senior")
  /\ (forall k, In k ["technical"; "coding"; "programming"] -> found k ->
        In "Knowledge & Skills"
           (RagPipeline._extract_test_types analysis query))
  /\ (forall k, In k ["personality"; "leadership"] -> found k ->
        In "Personality & Behavior"
           (RagPipeline._extract_test_types analysis query))
  /\ (forall k, In k ["cognitive"; "analytical"] -> found k ->
        In "Cognitive" (RagPipeline._extract_test_types analysis query)).
Proof.
  intros found. unfold found. split; [| split; [| split]].
  - intros H. apply classified_text_contains in H.
    unfold RagPipeline._extract_experience_level. cbv zeta. now rewrite H.
  - intros k Hk H. apply classified_text_contains in H.
    rewrite extract_test_types_cases. cbv zeta.
    rewrite (any_in_intro k _ _ Hk H). cbn. now left.
  - intros k Hk H. apply classified_text_contains in H.
    rewrite extract_test_types_cases. cbv zeta.
    rewrite (any_in_intro k _ _ Hk H). rewrite orb_true_r. cbn.
    apply in_or_app. right. now left.
  - intros k Hk H. apply classified_text_contains in H.
    rewrite extract_test_types_cases. cbv zeta.
    rewrite (any_in_intro k _ _ Hk H). rewrite !orb_true_r.
    apply in_or_app. right. apply in_or_app. right. now left.
Qed.

(** X1: Whatever the generative service does, the analysis is returned, with
    at least one requested category, none of them twice, in the order
    Knowledge, Personality, Cognitive, and with one of the three
    experience levels; when the service raises it is the default analysis. *)
Theorem analyze_query_invariants
  (generate_text : prompt -> result (option string)) (query : string) :
  exists a : query_analysis,
    RagPipeline._analyze_query generate_text query = Ok a
    /\ test_types a <> []
    /\ NoDup (test_types a)
    /\ sublist (test_types a) known_categories
    /\ In (experience_level a) ["Senior"; "Entry"; "Mid"]
    /\ (forall e, generate_text (AnalysisPrompt query) = Raise e ->
          a = RagPipeline.default_analysis).
Proof.
  unfold RagPipeline._analyze_query.
  destruct (generate_text (AnalysisPrompt query)) as [response | e];
    cbn [mbind result_bind try_except].
  - eexists. split; [reflexivity |]. cbn [test_types experience_level].
    rewrite extract_test_types_cases. cbv zeta.
    assert (Hlevel : In (RagPipeline._extract_experience_level
                           (default EmptyString response) query)
                        ["Senior"; "Entry"; "Mid"]).
    { unfold RagPipeline._extract_experience_level. cbv zeta.
      destruct (str_contains "senior" _); [now left |].
      destruct (_ || _); [right; now left | right; right; now left]. }
    destruct (RagPipeline.any_in ["technical"; "coding"; "programming"] _),
             (RagPipeline.any_in ["personality"; "leadership"] _),
             (RagPipeline.any_in ["cognitive"; "analytical"] _);
      cbn [orb app];
      (split; [discriminate |]);
      (split; [compute_done |]);
      (split; [unfold known_categories; repeat constructor |]);
      (split; [exact Hlevel | discriminate]).
  - exists RagPipeline.default_analysis. split; [reflexivity |].
    split; [discriminate |].
    split; [compute_done |].
    split; [unfold known_categories; repeat constructor |].
    split; [right; right; now left | reflexivity].
Qed.

Lemma keywords_decide_analysis_witness :
  RagPipeline._extract_experience_level
    "Level: junior or entry" "SENIOR Java lead, Coding test" = "Senior"
  /\ In "Knowledge & Skills"
        (RagPipeline._extract_test_types
           "Level: junior or entry" "SENIOR Java lead, Coding test").
Proof.
  pose proof (keywords_decide_analysis
                "Level: junior or entry" "SENIOR Java lead, Coding test")
    as (Hsenior & Hknowledge & _).
  split.
  - apply Hsenior. right. reflexivity.
  - apply (Hknowledge "coding"); [right; now left | right; reflexivity].
Defined.

(** ** rag_pipeline.py: what the reranker and the orchestrator return *)

Lemma py_slice_to_length {A : Type} (k : Z) (l : list A) :
  (0 <= k)%Z -> (Z.of_nat (length (py_slice_to k l)) <= k)%Z.
Proof.
  intros Hk. unfold py_slice_to.
  destruct (Z.ltb_spec k 0) as [Hlt | _]; [lia |].
  rewrite length_take. lia.
Qed.

Lemma py_slice_to_sublist {A : Type} (k : Z) (l : list A) :
  sublist (py_slice_to k l) l.
Proof.
  unfold py_slice_to. destruct (k <? 0)%Z; apply sublist_take.
Qed.

(** X3: [recommend] never returns more than [n_results] items, for a
    non-negative [n_results] and whatever its five steps do. *)
Theorem recommend_returns_at_most_n
  {Analysis Embedding Item : Type}
  (analyze : string -> result Analysis)
  (embed : string -> result Embedding)
  (search : Embedding -> Z -> result (list Item))
  (rerank : string -> Analysis -> list Item -> Z -> result (list Item))
  (balance : list Item -> Analysis -> result (list Item))
  (query : string) (n_results : Z) :
  (0 <= n_results)%Z ->
  exists recommendations,
    RagPipeline.recommend_with analyze embed search rerank balance
      query n_results = Ok recommendations
    /\ (Z.of_nat (length recommendations) <= n_results)%Z.
Proof.
  intros Hn. unfold RagPipeline.recommend_with, RagPipeline.recommend_body.
  destruct (analyze query) as [a | e]; cbn; [| exists []; split; [easy | cbn; lia]].
  destruct (embed query) as [v | e]; cbn; [| exists []; split; [easy | cbn; lia]].
  destruct (search v 20%Z) as [[| c cs] | e]; cbn;
    [exists []; split; [easy | cbn; lia] | | exists []; split; [easy | cbn; lia]].
  destruct (rerank query a (c :: cs) n_results) as [r | e]; cbn;
    [| exists []; split; [easy | cbn; lia]].
  destruct (balance r a) as [b | e]; cbn;
    [| exists []; split; [easy | cbn; lia]].
  eexists. split; [reflexivity |]. now apply py_slice_to_length.
Qed.

Lemma recommend_returns_at_most_n_witness :
  exists recommendations,
    RagPipeline.recommend
      (fun _ => Raise (ServiceError "unavailable")) 4300
      (fun _ => Ok [PrimFloat.div 1 2])
      (fun _ _ => Ok [java_test; leadership_test; no_type_test])
      "java developer" 2
    = Ok recommendations
    /\ (Z.of_nat (length recommendations) <= 2)%Z.
Proof.
  apply (recommend_returns_at_most_n
           (RagPipeline._analyze_query
              (fun _ => Raise (ServiceError "unavailable")))
           (fun _ => Ok [PrimFloat.div 1 2])
           (fun _ _ => Ok [java_test; leadership_test; no_type_test])
           (RagPipeline._rerank_and_filter
              (fun _ => Raise (ServiceError "unavailable")) 4300)
           (fun recs analysis =>
              Ok (RagPipeline._balance_recommendations recs analysis))
           "java developer" 2).
  lia.
Defined.

(** The first loop of the reranker appends candidates only, and it
    appends the candidate of every index it is given that is in range. *)
Lemma fold_append_ranked (candidates : list assessment) (rankings : list Z) :
  forall acc : list assessment,
    let out := fold_left (RagPipeline.append_ranked candidates) rankings acc in
    (forall x, x ∈ out -> x ∈ acc \/ x ∈ candidates)
    /\ (forall x, x ∈ acc -> x ∈ out)
    /\ (forall (i : nat) (c : assessment),
          In (Z.of_nat i) rankings -> candidates !! i = Some c -> c ∈ out).
Proof.
  induction rankings as [| r rankings IH]; intros acc; cbn.
  - split; [auto |]. split; [auto |]. intros i c [].
  - destruct (IH (RagPipeline.append_ranked candidates acc r))
      as (Hsub & Hkeep & Hall).
    assert (Hstep : forall x,
              x ∈ RagPipeline.append_ranked candidates acc r ->
              x ∈ acc \/ x ∈ candidates).
    { intros x. unfold RagPipeline.append_ranked.
      destruct (_ && _); [| auto].
      destruct (candidates !! Z.to_nat r) as [c |] eqn:Hc; [| auto].
      rewrite elem_of_app, list_elem_of_singleton.
      intros [H | ->]; [auto |]. right. eapply list_elem_of_lookup_2, Hc. }
    assert (Hgrow : forall x,
              x ∈ acc -> x ∈ RagPipeline.append_ranked candidates acc r).
    { intros x Hx. unfold RagPipeline.append_ranked.
      destruct (_ && _); [| exact Hx].
      destruct (candidates !! Z.to_nat r); [| exact Hx].
      apply elem_of_app. now left. }
    split; [| split].
    + intros x Hx. destruct (Hsub x Hx) as [H | H]; auto.
    + intros x Hx. apply Hkeep, Hgrow, Hx.
    + intros i c [Hi | Hi] Hc; [| now apply (Hall i c)].
      apply Hkeep. subst r. unfold RagPipeline.append_ranked.
      rewrite Nat2Z.id, Hc.
      apply lookup_lt_Some in Hc.
      destruct (Z.leb_spec 0 (Z.of_nat i)); [| lia].
      destruct (Z.ltb_spec (Z.of_nat i) (Z.of_nat (length candidates)));
        [| lia].
      cbn. apply elem_of_app. right. now apply list_elem_of_singleton.
Qed.

(** The second loop appends items of the list it runs over, and passes
    over an item only when its index was ranked or [n_results] items are
    there already. *)
Lemma fold_append_unranked (rankings : list Z) (n_results : Z)
  (part : list (nat * assessment)) :
  forall acc : list assessment,
    let out :=
      fold_left (RagPipeline.append_unranked rankings n_results) part acc in
    (forall x, x ∈ out -> x ∈ acc \/ exists i, (i, x) ∈ part)
    /\ (forall x, x ∈ acc -> x ∈ out)
    /\ length acc <= length out
    /\ (forall i c, (i, c) ∈ part ->
          In (Z.of_nat i) rankings \/ c ∈ out
          \/ (n_results <= Z.of_nat (length out))%Z).
Proof.
  induction part as [| [i c] part IH]; intros acc; cbn.
  - split; [auto |]. split; [auto |]. split; [lia |].
    intros i c H. now apply elem_of_nil in H.
  - destruct (IH (RagPipeline.append_unranked rankings n_results acc (i, c)))
      as (Hsub & Hkeep & Hlen & Hall).
    unfold RagPipeline.append_unranked in *. cbn [fst snd] in *.
    destruct (existsb (Z.eqb (Z.of_nat i)) rankings) eqn:Hranked;
      cbn [negb andb] in *.
    + split; [| split; [exact Hkeep | split; [exact Hlen |]]].
      * intros x Hx. destruct (Hsub x Hx) as [H | [j H]]; [auto |].
        right. exists j. now right.
      * intros j d Hd. apply elem_of_cons in Hd.
        destruct Hd as [[= -> ->] | Hd]; [| now apply Hall].
        left. apply existsb_exists in Hranked.
        destruct Hranked as [z [Hz Heq]]. apply Z.eqb_eq in Heq. now subst.
    + destruct (Z.ltb_spec (Z.of_nat (length acc)) n_results) as [Hroom | Hfull].
      * split; [| split; [| split]].
        -- intros x Hx. destruct (Hsub x Hx) as [H | [j H]].
           ++ apply elem_of_app in H. destruct H as [H | H]; [auto |].
              apply list_elem_of_singleton in H. subst x.
              right. exists i. left.
           ++ right. exists j. now right.
        -- intros x Hx. apply Hkeep, elem_of_app. now left.
        -- rewrite length_app in Hlen. cbn in Hlen. lia.
        -- intros j d Hd. apply elem_of_cons in Hd.
           destruct Hd as [[= -> ->] | Hd]; [| now apply Hall].
           right. left. apply Hkeep, elem_of_app. right.
           now apply list_elem_of_singleton.
      * split; [| split; [exact Hkeep | split; [exact Hlen |]]].
        -- intros x Hx. destruct (Hsub x Hx) as [H | [j H]]; [auto |].
           right. exists j. now right.
        -- intros j d Hd. apply elem_of_cons in Hd.
           destruct Hd as [[= -> ->] | Hd]; [| now apply Hall].
           right. right. lia.
Qed.

Lemma enumerate_spec {A : Type} (l : list A) (i : nat) (x : A) :
  (i, x) ∈ RagPipeline.enumerate l <-> l !! i = Some x.
Proof.
  unfold RagPipeline.enumerate. rewrite list_elem_of_lookup. split.
  - intros [j Hj]. apply lookup_zip_with_Some in Hj.
    destruct Hj as (a & b & [= -> ->] & Ha & Hb).
    apply lookup_seq in Ha. destruct Ha as [-> _]. exact Hb.
  - intros Hx. exists i. apply lookup_zip_with_Some.
    exists i, x. split; [reflexivity |]. split; [| exact Hx].
    apply lookup_seq. split; [reflexivity |]. now apply lookup_lt_Some in Hx.
Qed.

(** X4: Whatever the generative service answers, the reranker returns
    candidates only, and it leaves a candidate out only when [n_results]
    items are returned already. *)
Theorem rerank_returns_candidates
  (generate_text : prompt -> result (option string))
  (int_max_str_digits : nat)
  (query : string) (analysis : query_analysis)
  (candidates : list assessment) (n_results : Z) :
  exists reranked : list assessment,
    RagPipeline._rerank_and_filter generate_text int_max_str_digits
      query analysis candidates n_results = Ok reranked
    /\ (forall x, x ∈ reranked -> x ∈ candidates)
    /\ ((n_results <= Z.of_nat (length reranked))%Z
        \/ forall c, c ∈ candidates -> c ∈ reranked).
Proof.
  unfold RagPipeline._rerank_and_filter.
  destruct (RagPipeline.rerank_body _ _ _ _ _ _) as [reranked | e] eqn:Hbody;
    cbn [try_except]; [| exists candidates; auto].
  exists reranked. split; [reflexivity |].
  unfold RagPipeline.rerank_body in Hbody.
  destruct (RagPipeline.summary_lines 0 (firstn 15 candidates))
    as [lines | e]; cbn in Hbody; [| discriminate].
  destruct (generate_text _) as [response | e]; cbn in Hbody; [| discriminate].
  destruct (RagPipeline._parse_rankings _ _) as [rankings | e];
    cbn in Hbody; [| discriminate].
  injection Hbody as <-.
  destruct (fold_append_ranked candidates rankings [])
    as (Hsub1 & _ & Hall1).
  destruct (fold_append_unranked rankings n_results
              (RagPipeline.enumerate candidates)
              (fold_left (RagPipeline.append_ranked candidates) rankings []))
    as (Hsub2 & Hkeep2 & _ & Hall2).
  cbv zeta in *. split.
  - intros x Hx. destruct (Hsub2 x Hx) as [H | [i H]].
    + destruct (Hsub1 x H) as [H' | H']; [now apply elem_of_nil in H' | exact H'].
    + apply enumerate_spec in H. eapply list_elem_of_lookup_2, H.
  - match goal with
    | |- (?n <= Z.of_nat (length ?out))%Z \/ _ =>
        destruct (Z.le_gt_cases n (Z.of_nat (length out))) as [Hfull | Hroom]
    end; [now left |].
    right. intros c Hc. apply list_elem_of_lookup in Hc.
    destruct Hc as [i Hi].
    destruct (Hall2 i c (proj2 (enumerate_spec _ _ _) Hi)) as [H | [H | H]].
    + apply Hkeep2. now apply (Hall1 i c).
    + exact H.
    + lia.
Qed.

(** ** rag_pipeline.py: what the balancing pass keeps and where it puts it *)

(** X5: The balanced list holds ranked items only, and every url of the
    ranked list is the url of a balanced item: no url is lost. *)
Theorem balance_keeps_every_url (recs : list assessment)
  (analysis : query_analysis) :
  let balanced := RagPipeline._balance_recommendations recs analysis in
  (forall x, x ∈ balanced -> x ∈ recs)
  /\ (forall k, k ∈ url <$> balanced <-> k ∈ url <$> recs).
Proof.
  unfold RagPipeline._balance_recommendations. cbv zeta.
  destruct (length (test_types analysis) <=? 1); [tauto |].
  destruct (diversity_state_ok recs (test_types analysis)) as [Hok _].
  destruct (fold_append_unseen recs recs _ Hok (fun r H => H))
    as ((Hseen & _ & Hsub) & _ & Hall & _).
  split; [exact Hsub |].
  intros k. split; intros Hk; apply list_elem_of_fmap in Hk;
    destruct Hk as [r [-> Hr]].
  - apply list_elem_of_fmap_2, Hsub, Hr.
  - apply Hseen, Hall, Hr.
Qed.

Lemma carries_iff (t : string) (r : assessment) :
  carries t r = true <-> exists ts, test_type r = Some ts /\ t ∈ ts.
Proof.
  unfold carries. rewrite py_in_true_iff, <- list_elem_of_In.
  destruct (test_type r) as [ts |]; cbn.
  - split; [eauto | intros [ts' [[= <-] H]]; exact H].
  - split; [intros H; now apply elem_of_nil in H | intros [ts' [[=] _]]].
Qed.

(** The group of a type after the inner loop over the types of one item. *)
Lemma fold_setdefault_append_lookup (r : assessment) (t : string)
  (ts : list string) :
  forall by_type : gmap string (list assessment),
    let by_type' := fold_left (RagPipeline.setdefault_append r) ts by_type in
    match by_type !! t with
    | Some group => exists more, by_type' !! t = Some (group ++ more)
    | None =>
        if py_in t ts then exists more, by_type' !! t = Some (r :: more)
        else by_type' !! t = None
    end.
Proof.
  induction ts as [| t' ts IH]; intros by_type; cbn [fold_left].
  - destruct (by_type !! t) as [group |]; [| reflexivity].
    exists []. now rewrite app_nil_r.
  - specialize (IH (RagPipeline.setdefault_append r by_type t')).
    cbv zeta in IH.
    assert (Hlook : RagPipeline.setdefault_append r by_type t' !! t
                    = if String.eqb t t'
                      then Some (default [] (by_type !! t) ++ [r])
                      else by_type !! t).
    { unfold RagPipeline.setdefault_append.
      destruct (String.eqb_spec t t') as [<- | Hne].
      - apply lookup_insert_eq.
      - apply lookup_insert_ne. congruence. }
    rewrite Hlook in IH.
    change (py_in t (t' :: ts)) with (String.eqb t t' || py_in t ts).
    destruct (String.eqb t t'); [| exact IH].
    destruct IH as [more IH].
    destruct (by_type !! t) as [group |]; cbn [default orb] in *.
    + exists ([r] ++ more). now rewrite app_assoc.
    + exists more. exact IH.
Qed.

(** The group of a type after the loop over the items: it starts with the
    first item, in rank order, that carries the type. *)
Lemma fold_group_lookup (t : string) (part : list assessment) :
  forall by_type : gmap string (list assessment),
    let by_type' :=
      fold_left
        (fun by_type r =>
           fold_left (RagPipeline.setdefault_append r)
                     (default [] (test_type r)) by_type)
        part by_type in
    match by_type !! t with
    | Some group => exists more, by_type' !! t = Some (group ++ more)
    | None =>
        match List.find (carries t) part with
        | Some r => exists more, by_type' !! t = Some (r :: more)
        | None => by_type' !! t = None
        end
    end.
Proof.
  induction part as [| r part IH]; intros by_type; cbn [fold_left List.find].
  - destruct (by_type !! t) as [group |]; [| reflexivity].
    exists []. now rewrite app_nil_r.
  - pose proof (fold_setdefault_append_lookup r t
                  (default [] (test_type r)) by_type) as Hinner.
    cbv zeta in Hinner.
    specialize (IH (fold_left (RagPipeline.setdefault_append r)
                              (default [] (test_type r)) by_type)).
    cbv zeta in IH. fold (carries t r) in Hinner.
    destruct (by_type !! t) as [group |].
    + destruct Hinner as [more Hinner]. rewrite Hinner in IH.
      destruct IH as [more' IH]. exists (more ++ more').
      now rewrite app_assoc.
    + destruct (carries t r).
      * destruct Hinner as [more Hinner]. rewrite Hinner in IH.
        destruct IH as [more' IH]. exists (more ++ more'). exact IH.
      * rewrite Hinner in IH. exact IH.
Qed.

Lemma group_by_type_lookup (t : string) (recs : list assessment) :
  match List.find (carries t) recs with
  | Some r => exists more, RagPipeline.group_by_type recs !! t = Some (r :: more)
  | None => RagPipeline.group_by_type recs !! t = None
  end.
Proof.
  pose proof (fold_group_lookup t recs ∅) as H. cbv zeta in H.
  now rewrite lookup_empty in H.
Qed.

(** The loop over the requested types appends to the selection. *)
Lemma fold_pick_prefix (by_type : gmap string (list assessment))
  (types : list string) :
  forall st : RagPipeline.selection,
    exists more,
      (fold_left (RagPipeline.pick_for_type by_type) types st).1
      = st.1 ++ more
      /\ length more <= length types.
Proof.
  induction types as [| t types IH]; intros st; cbn [fold_left].
  - exists []. split; [now rewrite app_nil_r | cbn; lia].
  - assert (Hstep : RagPipeline.pick_for_type by_type st t = st
                    \/ exists r, RagPipeline.pick_for_type by_type st t
                                 = RagPipeline.select st r).
    { unfold RagPipeline.pick_for_type.
      destruct (by_type !! t) as [group |]; [| now left].
      destruct (RagPipeline.first_unseen st.2 group) as [r |]; eauto. }
    destruct (IH (RagPipeline.pick_for_type by_type st t)) as [more [Heq Hlen]].
    destruct Hstep as [Hstep | [r Hstep]]; rewrite Hstep in *.
    + exists more. split; [exact Heq | cbn; lia].
    + exists (r :: more). cbn [RagPipeline.select fst] in Heq.
      rewrite <- app_assoc in Heq. split; [exact Heq | cbn; lia].
Qed.

(** X6: With two or more requested categories, the balanced list starts with
    the first ranked item that carries the first requested category, when
    there is one. *)
Theorem balance_leads_with_first_category (recs : list assessment)
  (analysis : query_analysis) (t1 t2 : string) (rest : list string)
  (r : assessment) :
  test_types analysis = t1 :: t2 :: rest ->
  List.find (carries t1) recs = Some r ->
  head (RagPipeline._balance_recommendations recs analysis) = Some r.
Proof.
  intros Htypes Hfind.
  pose proof (group_by_type_lookup t1 recs) as Hgroup.
  rewrite Hfind in Hgroup. destruct Hgroup as [more Hgroup].
  assert (Hfirst : RagPipeline.pick_for_type (RagPipeline.group_by_type recs)
                     ([], ∅) t1 = RagPipeline.select ([], ∅) r).
  { unfold RagPipeline.pick_for_type. rewrite Hgroup.
    cbn [snd RagPipeline.first_unseen].
    destruct (decide (url r ∈ (∅ : gset (option string)))) as [Hin | _];
      [now apply not_elem_of_empty in Hin | reflexivity]. }
  assert (Hstate : RagPipeline.diversity_state recs (t1 :: t2 :: rest)
                   = fold_left (RagPipeline.pick_for_type
                                  (RagPipeline.group_by_type recs))
                               (t2 :: rest) (RagPipeline.select ([], ∅) r)).
  { unfold RagPipeline.diversity_state. cbn [fold_left]. now rewrite Hfirst. }
  unfold RagPipeline._balance_recommendations. cbv zeta.
  rewrite Htypes. cbn [length Nat.leb].
  destruct (diversity_state_ok recs (t1 :: t2 :: rest)) as [Hok _].
  destruct (fold_append_unseen recs recs _ Hok (fun x H => H))
    as (_ & _ & _ & tail & Htail & _).
  cbv zeta in Htail. rewrite Htail, Hstate.
  destruct (fold_pick_prefix (RagPipeline.group_by_type recs) (t2 :: rest)
              (RagPipeline.select ([], ∅) r)) as [picks [Hpicks _]].
  rewrite Hpicks. reflexivity.
Qed.

Lemma balance_leads_with_first_category_witness :
  head (RagPipeline._balance_recommendations
          [java_test; no_type_test; leadership_test; no_url_test]
          (requesting ["Personality & Behavior"; "Knowledge & Skills"]))
  = Some leadership_test.
Proof.
  apply (balance_leads_with_first_category
           [java_test; no_type_test; leadership_test; no_url_test]
           (requesting ["Personality & Behavior"; "Knowledge & Skills"])
           "Personality & Behavior" "Knowledge & Skills" []);
    reflexivity.
Defined.

Lemma first_unseen_none (seen : gset (option string))
  (group : list assessment) :
  RagPipeline.first_unseen seen group = None ->
  forall g, g ∈ group -> url g ∈ seen.
Proof.
  induction group as [| r group IH]; cbn; intros Hnone g Hg.
  - now apply elem_of_nil in Hg.
  - destruct (decide (url r ∈ seen)) as [Hin | _]; [| discriminate].
    apply elem_of_cons in Hg. destruct Hg as [-> | Hg]; auto.
Qed.

Lemma carrier_has_group (recs : list assessment) (t : string) :
  (exists r, r ∈ recs /\ carries t r = true) ->
  exists g more, RagPipeline.group_by_type recs !! t = Some (g :: more).
Proof.
  intros [r [Hr Hc]]. pose proof (group_by_type_lookup t recs) as H.
  destruct (List.find (carries t) recs) as [g |] eqn:Hfind.
  - destruct H as [more H]. eauto.
  - apply list_elem_of_In in Hr.
    pose proof (find_none _ _ Hfind r Hr). congruence.
Qed.

Lemma pick_for_type_represents (recs : list assessment) (done : list string)
  (st : RagPipeline.selection) (t : string) :
  NoDup (url <$> recs) -> selection_ok recs st ->
  length st.1 <= length done -> represented recs done st.1 ->
  let st' := RagPipeline.pick_for_type (RagPipeline.group_by_type recs) st t in
  selection_ok recs st'
  /\ length st'.1 <= length (done ++ [t])
  /\ represented recs (done ++ [t]) st'.1.
Proof.
  intros Hnodup Hok Hlen Hrep st'.
  assert (Hok' : selection_ok recs st').
  { unfold st', RagPipeline.pick_for_type.
    destruct (_ !! t) as [group |] eqn:Hgroup; [| exact Hok].
    destruct (RagPipeline.first_unseen st.2 group) as [r |] eqn:Hfirst;
      [| exact Hok].
    destruct (first_unseen_spec _ _ _ Hfirst) as [Hr Hnew].
    apply select_ok; [exact Hok | | exact Hnew].
    now destruct (group_by_type_ok recs t group r Hgroup Hr). }
  assert (Hgrow : st'.1 = st.1 \/ exists r, st'.1 = st.1 ++ [r]).
  { unfold st', RagPipeline.pick_for_type.
    destruct (_ !! t) as [group |]; [| now left].
    destruct (RagPipeline.first_unseen st.2 group) as [r |]; [| now left].
    right. now exists r. }
  split; [exact Hok' |]. rewrite length_app. cbn [length]. split.
  { destruct Hgrow as [-> | [r ->]]; [lia |].
    rewrite length_app. cbn. lia. }
  intros j t' Hj Hcarrier.
  destruct (Nat.lt_ge_cases j (length done)) as [Hold | Hnew].
  - rewrite lookup_app_l in Hj by exact Hold.
    destruct (Hrep j t' Hj Hcarrier) as (i & p & Hi & Hp & Hc).
    exists i, p. split; [exact Hi |]. split; [| exact Hc].
    destruct Hgrow as [-> | [r ->]]; [exact Hp |].
    now apply lookup_app_l_Some.
  - rewrite lookup_app_r in Hj by exact Hnew.
    destruct (j - length done) as [| k] eqn:Hk; [| now destruct k].
    injection Hj as <-. assert (j = length done) as -> by lia.
    destruct (carrier_has_group recs t Hcarrier) as (g & more & Hgroup).
    pose proof (group_by_type_ok recs) as Hgroups.
    unfold st', RagPipeline.pick_for_type in *. rewrite Hgroup in *.
    destruct (RagPipeline.first_unseen st.2 (g :: more)) as [r |] eqn:Hfirst.
    + destruct (first_unseen_spec _ _ _ Hfirst) as [Hr _].
      destruct (Hgroups t _ r Hgroup Hr) as [_ Hts].
      exists (length st.1), r. split; [exact Hlen |]. split.
      * cbn [RagPipeline.select fst]. rewrite lookup_app_r by lia.
        now rewrite Nat.sub_diag.
      * now apply carries_iff.
    + assert (Hg : g ∈ g :: more) by left.
      pose proof (first_unseen_none _ _ Hfirst g Hg) as Hseen.
      destruct (Hgroups t _ g Hgroup Hg) as [Hgrecs Hts].
      destruct Hok as (Hkeys & _ & Hsub).
      apply Hkeys, list_elem_of_fmap in Hseen.
      destruct Hseen as [p [Hurl Hp]].
      assert (p = g) as ->.
      { symmetry. apply (url_injective_on recs); auto. }
      apply list_elem_of_lookup in Hp. destruct Hp as [i Hi].
      exists i, g. split; [| split; [exact Hi | now apply carries_iff]].
      apply lookup_lt_Some in Hi. lia.
Qed.

Lemma fold_pick_represents (recs : list assessment) (types : list string) :
  NoDup (url <$> recs) ->
  forall (done : list string) (st : RagPipeline.selection),
    selection_ok recs st -> length st.1 <= length done ->
    represented recs done st.1 ->
    represented recs (done ++ types)
      (fold_left (RagPipeline.pick_for_type (RagPipeline.group_by_type recs))
                 types st).1.
Proof.
  intros Hnodup. induction types as [| t types IH]; intros done st Hok Hlen Hrep.
  - cbn. now rewrite app_nil_r.
  - cbn [fold_left].
    destruct (pick_for_type_represents recs done st t Hnodup Hok Hlen Hrep)
      as (Hok' & Hlen' & Hrep').
    replace (done ++ t :: types) with ((done ++ [t]) ++ types)
      by now rewrite <- app_assoc.
    now apply IH.
Qed.

(** X7: With pairwise distinct urls and two or more requested categories,
    every requested category that some ranked item carries is carried by
    one of the first items of the balanced list: the category requested
    in place [j] (from 0) by an item at place [j] or before. *)
Theorem balance_represents_requested (recs : list assessment)
  (analysis : query_analysis) (j : nat) (t : string) :
  NoDup (url <$> recs) ->
  2 <= length (test_types analysis) ->
  test_types analysis !! j = Some t ->
  (exists r, r ∈ recs /\ carries t r = true) ->
  exists (i : nat) (p : assessment),
    i <= j
    /\ RagPipeline._balance_recommendations recs analysis !! i = Some p
    /\ carries t p = true.
Proof.
  intros Hnodup Hlen Hj Hcarrier.
  pose proof (fold_pick_represents recs (test_types analysis) Hnodup
                [] ([], ∅) (selection_ok_empty recs)) as Hrep.
  cbn [fst length app] in Hrep.
  destruct (Hrep (Nat.le_refl 0)) with (j := j) (t := t)
    as (i & p & Hi & Hp & Hc); [| exact Hj | exact Hcarrier |].
  { intros k t' Hk. now rewrite lookup_nil in Hk. }
  exists i, p. split; [exact Hi |]. split; [| exact Hc].
  unfold RagPipeline._balance_recommendations. cbv zeta.
  destruct (Nat.leb_spec (length (test_types analysis)) 1); [lia |].
  destruct (diversity_state_ok recs (test_types analysis)) as [Hok _].
  destruct (fold_append_unseen recs recs _ Hok (fun x H => H))
    as (_ & _ & _ & tail & Htail & _).
  cbv zeta in Htail. rewrite Htail.
  now apply lookup_app_l_Some.
Qed.

Lemma balance_represents_requested_witness :
  exists (i : nat) (p : assessment),
    i <= 1
    /\ RagPipeline._balance_recommendations
         [java_test; no_type_test; leadership_test; no_url_test]
         (requesting ["Knowledge & Skills"; "Cognitive"]) !! i = Some p
    /\ carries "Cognitive" p = true.
Proof.
  apply (balance_represents_requested
           [java_test; no_type_test; leadership_test; no_url_test]
           (requesting ["Knowledge & Skills"; "Cognitive"]) 1 "Cognitive").
  - cbn. repeat (apply NoDup_cons; split;
                 [rewrite ?elem_of_cons, elem_of_nil; intros H;
                  repeat (destruct H as [H | H]; [discriminate H |]);
                  exact H |]).
    apply NoDup_nil_2.
  - cbn. lia.
  - reflexivity.
  - exists no_url_test. split; [| reflexivity].
    do 3 right. left.
Defined.

(** ** rag_pipeline.py: reading a ranking *)

Lemma pretty_N_go_app (x : N) :
  forall s : string, pretty_N_go x s = pretty_N_go x EmptyString +:+ s.
Proof.
  induction (N.lt_wf_0 x) as [x _ IH]. intros s.
  destruct (N.eq_0_gt_0_cases x) as [-> | Hpos]; [reflexivity |].
  rewrite (pretty_N_go_step x s), (pretty_N_go_step x EmptyString) by exact Hpos.
  assert (Hlt : (x `div` 10 < x)%N) by (apply N.div_lt; lia).
  rewrite (IH _ Hlt (String _ s)), (IH _ Hlt (String _ EmptyString)).
  now rewrite str_app_assoc.
Qed.

Lemma pretty_N_char_digit (d : N) :
  (d < 10)%N ->
  is_digit (pretty_N_char d) = true
  /\ Z.of_nat (code (pretty_N_char d) - 48) = Z.of_N d.
Proof.
  intros Hd.
  assert (d = 0 \/ d = 1 \/ d = 2 \/ d = 3 \/ d = 4 \/ d = 5 \/ d = 6
          \/ d = 7 \/ d = 8 \/ d = 9)%N as H by lia.
  repeat (destruct H as [-> | H]; [split; reflexivity |]).
  subst d. split; reflexivity.
Qed.

Lemma digits_value_app (a b : string) :
  forall acc : Z,
    RagPipeline.digits_value acc (a +:+ b)
    = RagPipeline.digits_value (RagPipeline.digits_value acc a) b.
Proof.
  induction a as [| c a IH]; intros acc; [reflexivity |].
  rewrite str_app_cons. cbn [RagPipeline.digits_value]. apply IH.
Qed.

Lemma chars_app (a b : string) (c : ascii) :
  In c (chars (a +:+ b)) <-> In c (chars a) \/ In c (chars b).
Proof.
  induction a as [| x a IH]; [cbn; tauto |].
  rewrite str_app_cons. cbn. rewrite IH. tauto.
Qed.

(** The decimal digits of a number: they are digits, and their value is
    the number. *)
Lemma pretty_N_go_digits (x : N) :
  (forall c, In c (chars (pretty_N_go x EmptyString)) -> is_digit c = true)
  /\ RagPipeline.digits_value 0 (pretty_N_go x EmptyString) = Z.of_N x.
Proof.
  induction (N.lt_wf_0 x) as [x _ IH].
  destruct (N.eq_0_gt_0_cases x) as [-> | Hpos]; [split; [intros c [] | reflexivity] |].
  rewrite (pretty_N_go_step x EmptyString) by exact Hpos.
  rewrite pretty_N_go_app.
  assert (Hlt : (x `div` 10 < x)%N) by (apply N.div_lt; lia).
  destruct (IH _ Hlt) as [Hdigits Hvalue].
  destruct (pretty_N_char_digit (x `mod` 10)) as [Hd Hv];
    [apply N.mod_lt; lia |].
  split.
  - intros c Hc. apply chars_app in Hc. destruct Hc as [Hc | Hc].
    + now apply Hdigits.
    + destruct Hc as [<- | []]. exact Hd.
  - rewrite digits_value_app, Hvalue. cbn [RagPipeline.digits_value].
    rewrite Hv. pose proof (N.div_mod x 10). lia.
Qed.

Lemma pretty_N_digits (x : N) :
  pretty x <> EmptyString
  /\ (forall c, In c (chars (pretty x)) -> is_digit c = true)
  /\ RagPipeline.digits_value 0 (pretty x) = Z.of_N x.
Proof.
  unfold pretty, pretty_N. destruct (decide (x = 0%N)) as [-> | Hne].
  - split; [discriminate |]. split; [| reflexivity].
    intros c [<- | []]. reflexivity.
  - destruct (pretty_N_go_digits x) as [Hdigits Hvalue].
    split; [| split; [exact Hdigits | exact Hvalue]].
    intros Hempty. rewrite Hempty in Hvalue. cbn in Hvalue. lia.
Qed.

(** A run of digits is read as one run. *)
Lemma digit_runs_app (s rest : string) :
  (forall c, In c (chars s) -> is_digit c = true) ->
  forall run : string,
    RagPipeline.digit_runs run (s +:+ rest)
    = RagPipeline.digit_runs (run +:+ s) rest.
Proof.
  induction s as [| c s IH]; intros Hdigits run.
  - rewrite str_app_nil.
    replace (run +:+ EmptyString) with run; [reflexivity |].
    clear. induction run as [| a run IHr]; [reflexivity |].
    now rewrite str_app_cons, <- IHr.
  - rewrite str_app_cons. cbn [RagPipeline.digit_runs].
    rewrite (Hdigits c) by now left.
    rewrite IH by (intros c' Hc'; apply Hdigits; now right).
    now rewrite str_app_assoc.
Qed.

Lemma digit_runs_end (run : string) :
  run <> EmptyString -> RagPipeline.digit_runs run EmptyString = [run].
Proof. destruct run; [congruence | reflexivity]. Qed.

Lemma digit_runs_comma (run rest : string) :
  run <> EmptyString ->
  RagPipeline.digit_runs run (", " +:+ rest)
  = run :: RagPipeline.digit_runs EmptyString rest.
Proof. destruct run; [congruence | reflexivity]. Qed.

Lemma digit_runs_join (nums : list string) :
  Forall (fun n => n <> EmptyString
                   /\ forall c, In c (chars n) -> is_digit c = true) nums ->
  RagPipeline.digit_runs EmptyString (String.concat ", " nums) = nums.
Proof.
  induction nums as [| n nums IH]; intros Hall; [reflexivity |].
  apply Forall_cons in Hall. destruct Hall as [[Hne Hdigits] Hall].
  destruct nums as [| m nums].
  - cbn [String.concat].
    replace n with (n +:+ EmptyString) at 1
      by (clear; induction n as [| a n IHn];
          [reflexivity | now rewrite str_app_cons, IHn]).
    rewrite digit_runs_app by exact Hdigits.
    rewrite str_app_nil. now apply digit_runs_end.
  - change (String.concat ", " (n :: m :: nums))
      with (n +:+ ", " +:+ String.concat ", " (m :: nums)).
    rewrite digit_runs_app by exact Hdigits.
    rewrite str_app_nil, digit_runs_comma by exact Hne.
    now rewrite IH.
Qed.

Lemma parse_rankings_decimal (int_max_str_digits : nat)
  (ranks : list N) :
  (int_max_str_digits = 0
   \/ forall n, In n ranks -> String.length (pretty n) <= int_max_str_digits) ->
  RagPipeline._parse_rankings int_max_str_digits
    (String.concat ", " (map pretty ranks))
  = Ok (map (fun n => (Z.of_N n - 1)%Z) ranks).
Proof.
  intros Hlimit. unfold RagPipeline._parse_rankings.
  rewrite digit_runs_join.
  2:{ apply Forall_forall. intros s Hs.
      apply list_elem_of_In, in_map_iff in Hs. destruct Hs as [n [<- _]].
      destruct (pretty_N_digits n) as (Hne & Hd & _). now split. }
  induction ranks as [| n ranks IH]; [reflexivity |].
  cbn [map RagPipeline.ranks_of].
  assert (Hint : RagPipeline.py_int int_max_str_digits (pretty n)
                 = Ok (Z.of_N n)).
  { unfold RagPipeline.py_int.
    destruct (pretty_N_digits n) as (_ & _ & ->).
    destruct Hlimit as [-> | Hlimit]; [reflexivity |].
    specialize (Hlimit n (or_introl eq_refl)).
    destruct (Nat.ltb_spec int_max_str_digits (String.length (pretty n)));
      [lia | now rewrite andb_false_r]. }
  rewrite Hint. cbn [mbind result_bind].
  rewrite IH; [reflexivity |].
  destruct Hlimit as [-> | Hlimit]; [now left | right].
  intros m Hm. apply Hlimit. now right.
Qed.

Lemma digits_value_nonneg (digits : string) :
  forall acc, (0 <= acc)%Z -> (0 <= RagPipeline.digits_value acc digits)%Z.
Proof.
  induction digits as [| c rest IH]; intros acc Hacc; [exact Hacc |].
  cbn [RagPipeline.digits_value]. apply IH. lia.
Qed.

Lemma ranks_of_shape (int_max_str_digits : nat) (nums : list string) :
  match RagPipeline.ranks_of int_max_str_digits nums with
  | Ok ranks => Forall (fun r => (-1 <= r)%Z) ranks
  | Raise e => e = ValueError /\ 0 < int_max_str_digits
  end.
Proof.
  induction nums as [| n nums IH]; [constructor |].
  cbn [RagPipeline.ranks_of]. unfold RagPipeline.py_int.
  destruct (Nat.ltb_spec 0 int_max_str_digits) as [Hpos | Hzero];
    cbn [andb].
  - destruct (int_max_str_digits <? String.length n)%nat;
      cbn [mbind result_bind]; [now split |].
    destruct (RagPipeline.ranks_of int_max_str_digits nums) as [ranks | e];
      cbn [mbind result_bind]; [| exact IH].
    constructor; [| exact IH].
    pose proof (digits_value_nonneg n 0%Z ltac:(lia)). lia.
  - cbn [mbind result_bind].
    destruct (RagPipeline.ranks_of int_max_str_digits nums) as [ranks | e];
      cbn [mbind result_bind]; [| exact IH].
    constructor; [| exact IH].
    pose proof (digits_value_nonneg n 0%Z ltac:(lia)). lia.
Qed.

(** X8: A comma-separated list of ranks, each written in decimal, is read as
    those ranks less one, as long as no rank is longer than the
    interpreter's digit limit.  On any response at all, the parse returns
    numbers from minus one up (minus one for a rank written as zero), or
    raises [ValueError], and that only under a positive digit limit. *)
Theorem parse_rankings_of_decimal_list (int_max_str_digits : nat)
  (ranks : list N) (response : string) :
  ((int_max_str_digits = 0
    \/ forall n, In n ranks ->
         String.length (pretty n) <= int_max_str_digits) ->
   RagPipeline._parse_rankings int_max_str_digits
     (String.concat ", " (map pretty ranks))
   = Ok (map (fun n => (Z.of_N n - 1)%Z) ranks))
  /\ match RagPipeline._parse_rankings int_max_str_digits response with
     | Ok parsed => Forall (fun r => (-1 <= r)%Z) parsed
     | Raise e => e = ValueError /\ 0 < int_max_str_digits
     end.
Proof.
  split; [apply parse_rankings_decimal |].
  unfold RagPipeline._parse_rankings. apply ranks_of_shape.
Qed.

Lemma parse_rankings_of_decimal_list_witness :
  RagPipeline._parse_rankings 4300 "3, 1, 12"
  = Ok [2%Z; 0%Z; 11%Z].
Proof.
  apply (proj1 (parse_rankings_of_decimal_list 4300 [3; 1; 12]%N "")).
  right. intros n Hn. cbn [In] in Hn.
  destruct Hn as [<- | [<- | [<- | []]]]; vm_compute; lia.
Defined.

Lemma fold_append_ranked_order (candidates : list assessment)
  (order : list nat) :
  forall acc : list assessment,
    fold_left (RagPipeline.append_ranked candidates) (map Z.of_nat order) acc
    = acc ++ omap (fun i => candidates !! i) order.
Proof.
  induction order as [| i order IH]; intros acc;
    cbn [map fold_left omap list_omap].
  - now rewrite app_nil_r.
  - rewrite IH. unfold RagPipeline.append_ranked at 1. rewrite Nat2Z.id.
    destruct (Z.leb_spec 0 (Z.of_nat i)); [| lia].
    destruct (candidates !! i) as [c |] eqn:Hc; cbn [andb].
    + pose proof (lookup_lt_Some _ _ _ Hc).
      destruct (Z.ltb_spec (Z.of_nat i) (Z.of_nat (length candidates)));
        [| lia].
      now rewrite <- app_assoc.
    + now destruct (_ <? _)%Z.
Qed.

Lemma fold_append_unranked_fill (rankings : list Z) (n_results : Z)
  (part : list (nat * assessment)) :
  forall acc : list assessment,
    exists fill,
      fold_left (RagPipeline.append_unranked rankings n_results) part acc
      = acc ++ fill
      /\ sublist fill (map snd part)
      /\ forall c, c ∈ fill ->
           exists i, (i, c) ∈ part /\ ~ In (Z.of_nat i) rankings.
Proof.
  induction part as [| [i c] part IH]; intros acc; cbn [fold_left map snd].
  - exists []. split; [now rewrite app_nil_r |]. split; [constructor |].
    intros c Hc. now apply elem_of_nil in Hc.
  - destruct (IH (RagPipeline.append_unranked rankings n_results acc (i, c)))
      as (fill & Heq & Hsub & Hfill).
    rewrite Heq. unfold RagPipeline.append_unranked. cbn [fst snd].
    destruct (existsb (Z.eqb (Z.of_nat i)) rankings) eqn:Hranked;
      cbn [negb andb].
    + exists fill. split; [reflexivity |]. split; [now constructor |].
      intros d Hd. destruct (Hfill d Hd) as [j [Hj Hn]].
      exists j. split; [now right | exact Hn].
    + destruct (_ <? _)%Z.
      * exists (c :: fill). split; [now rewrite <- app_assoc |].
        split; [now constructor |].
        intros d Hd. apply elem_of_cons in Hd. destruct Hd as [-> | Hd].
        -- exists i. split; [left |]. intros Hin.
           assert (existsb (Z.eqb (Z.of_nat i)) rankings = true); [| congruence].
           apply existsb_exists. exists (Z.of_nat i).
           split; [exact Hin | apply Z.eqb_refl].
        -- destruct (Hfill d Hd) as [j [Hj Hn]].
           exists j. split; [now right | exact Hn].
      * exists fill. split; [reflexivity |]. split; [now constructor |].
        intros d Hd. destruct (Hfill d Hd) as [j [Hj Hn]].
        exists j. split; [now right | exact Hn].
Qed.

Lemma map_snd_enumerate {A : Type} (l : list A) :
  map snd (RagPipeline.enumerate l) = l.
Proof.
  unfold RagPipeline.enumerate. generalize 0 as k.
  induction l as [| x l IH]; intros k; [reflexivity |].
  cbn. now rewrite IH.
Qed.

Lemma ranks_of_raises (int_max_str_digits : nat) (nums : list string) :
  0 < int_max_str_digits ->
  (exists n, In n nums /\ int_max_str_digits < String.length n) ->
  RagPipeline.ranks_of int_max_str_digits nums = Raise ValueError.
Proof.
  intros Hpos. induction nums as [| n nums IH]; intros (m & Hm & Hlong);
    [destruct Hm |].
  cbn [RagPipeline.ranks_of]. unfold RagPipeline.py_int.
  destruct (Nat.ltb_spec 0 int_max_str_digits) as [_ | Hzero]; [| lia].
  cbn [andb].
  destruct (Nat.ltb_spec int_max_str_digits (String.length n))
    as [Hn | Hn]; [reflexivity |].
  cbn [mbind result_bind].
  rewrite IH; [reflexivity |].
  destruct Hm as [<- | Hm]; [lia |]. now exists m.
Qed.

Lemma parse_rankings_decimal_raises (int_max_str_digits : nat)
  (ranks : list N) :
  0 < int_max_str_digits ->
  (exists n, In n ranks /\ int_max_str_digits < String.length (pretty n)) ->
  RagPipeline._parse_rankings int_max_str_digits
    (String.concat ", " (map pretty ranks))
  = Raise ValueError.
Proof.
  intros Hpos (n & Hn & Hlong). unfold RagPipeline._parse_rankings.
  rewrite digit_runs_join.
  2:{ apply Forall_forall. intros s Hs.
      apply list_elem_of_In, in_map_iff in Hs. destruct Hs as [m [<- _]].
      destruct (pretty_N_digits m) as (Hne & Hd & _). now split. }
  apply ranks_of_raises; [exact Hpos |].
  exists (pretty n). split; [now apply in_map | exact Hlong].
Qed.

(** X9: When the generative service answers with a comma-separated list of
    1-based ranks, what the reranker returns depends on the interpreter's
    digit limit.  If no rank is longer than the limit (or there is no
    limit), it returns the candidates of those ranks in the order given
    (ranks beyond the candidates are passed over), followed by candidates
    that were not ranked, in their original order.  If a rank is longer
    than a positive limit, the parse raises and the reranker returns the
    candidates unchanged. *)
Theorem rerank_follows_ranking
  (generate_text : prompt -> result (option string))
  (int_max_str_digits : nat)
  (query : string) (analysis : query_analysis)
  (candidates : list assessment) (n_results : Z)
  (order : list nat) (lines : list string) :
  RagPipeline.summary_lines 0 (firstn 15 candidates) = Ok lines ->
  generate_text
    (RankingPrompt n_results query
       (String.concat (String LF EmptyString) lines))
  = Ok (Some (String.concat ", "
                (map (fun i => pretty (N.of_nat (S i))) order))) ->
  ((int_max_str_digits = 0
    \/ forall i, In i order ->
         String.length (pretty (N.of_nat (S i))) <= int_max_str_digits) ->
   exists fill : list assessment,
     RagPipeline._rerank_and_filter generate_text int_max_str_digits
       query analysis candidates n_results
     = Ok (omap (fun i => candidates !! i) order ++ fill)
     /\ sublist fill candidates
     /\ forall c, c ∈ fill ->
          exists i, candidates !! i = Some c /\ ~ In i order)
  /\ (0 < int_max_str_digits ->
      (exists i, In i order
                 /\ int_max_str_digits
                    < String.length (pretty (N.of_nat (S i)))) ->
      RagPipeline._rerank_and_filter generate_text int_max_str_digits
        query analysis candidates n_results
      = Ok candidates).
Proof.
  intros Hlines Hgen. split.
  - intros Hlimit.
    assert (Hparse : RagPipeline._parse_rankings int_max_str_digits
                       (String.concat ", "
                          (map (fun i => pretty (N.of_nat (S i))) order))
                     = Ok (map Z.of_nat order)).
    { rewrite <- (map_map (fun i => N.of_nat (S i)) pretty).
      rewrite parse_rankings_decimal.
      - rewrite map_map. f_equal. apply map_ext. intros i. lia.
      - destruct Hlimit as [-> | Hlimit]; [now left | right].
        intros n Hn. apply in_map_iff in Hn. destruct Hn as [i [<- Hi]].
        now apply Hlimit. }
    destruct (fold_append_unranked_fill (map Z.of_nat order) n_results
                (RagPipeline.enumerate candidates)
                (omap (fun i => candidates !! i) order))
      as (fill & Heq & Hsub & Hfill).
    exists fill. split; [| split].
    + unfold RagPipeline._rerank_and_filter, RagPipeline.rerank_body.
      rewrite Hlines. cbn [mbind result_bind]. rewrite Hgen.
      cbn [mbind result_bind default from_option id]. rewrite Hparse.
      cbn [mbind result_bind try_except].
      rewrite fold_append_ranked_order, app_nil_l. now rewrite Heq.
    + now rewrite map_snd_enumerate in Hsub.
    + intros c Hc. destruct (Hfill c Hc) as [i [Hi Hn]].
      exists i. split; [now apply enumerate_spec |].
      intros Hin. apply Hn. apply in_map_iff. now exists i.
  - intros Hpos (i & Hi & Hlong).
    assert (Hparse : RagPipeline._parse_rankings int_max_str_digits
                       (String.concat ", "
                          (map (fun i => pretty (N.of_nat (S i))) order))
                     = Raise ValueError).
    { rewrite <- (map_map (fun i => N.of_nat (S i)) pretty).
      apply parse_rankings_decimal_raises; [exact Hpos |].
      exists (N.of_nat (S i)). split; [| exact Hlong].
      apply in_map_iff. now exists i. }
    unfold RagPipeline._rerank_and_filter, RagPipeline.rerank_body.
    rewrite Hlines. cbn [mbind result_bind]. rewrite Hgen.
    cbn [mbind result_bind default from_option id]. rewrite Hparse.
    reflexivity.
Qed.

Lemma rerank_follows_ranking_witness :
  (exists fill : list assessment,
     RagPipeline._rerank_and_filter
       (fun _ => Ok (Some "3, 1")) 4300 "java developer"
       (requesting ["Knowledge & Skills"])
       [leadership_test; java_test; no_type_test] 10
     = Ok ([no_type_test; leadership_test] ++ fill)
     /\ sublist fill [leadership_test; java_test; no_type_test]
     /\ forall c, c ∈ fill ->
          exists i, [leadership_test; java_test; no_type_test] !! i = Some c
                    /\ ~ In i [2; 0])
  /\ RagPipeline._rerank_and_filter
       (fun _ => Ok (Some "3, 12")) 1 "java developer"
       (requesting ["Knowledge & Skills"])
       [leadership_test; java_test; no_type_test] 10
     = Ok [leadership_test; java_test; no_type_test].
Proof.
  split.
  - apply (proj1 (rerank_follows_ranking
                    (fun _ => Ok (Some "3, 1")) 4300 "java developer"
                    (requesting ["Knowledge & Skills"])
                    [leadership_test; java_test; no_type_test] 10 [2; 0]
                    ["1. Leadership Assessment - Leadership potential...";
                     "2. Java Programming Test - Java programming skills...";
                     "3. Untyped Test - No categories..."]
                    eq_refl eq_refl)).
    right. intros i [<- | [<- | []]]; vm_compute; lia.
  - apply (proj2 (rerank_follows_ranking
                    (fun _ => Ok (Some "3, 12")) 1 "java developer"
                    (requesting ["Knowledge & Skills"])
                    [leadership_test; java_test; no_type_test] 10 [2; 11]
                    ["1. Leadership Assessment - Leadership potential...";
                     "2. Java Programming Test - Java programming skills...";
                     "3. Untyped Test - No categories..."]
                    eq_refl eq_refl)).
    + lia.
    + exists 11. split; [right; now left | vm_compute; lia].
Defined.

(** ** embeddings.py: the service with its fallback, one text and many *)






(** ** evaluation.py: the numerator of the recall *)

Lemma count_relevant_filter (predicted_k relevant : list string) :
  Evaluation.count_relevant predicted_k relevant
  = Z.of_nat (length (List.filter (fun url => py_in url relevant)
                                  predicted_k)).
Proof.
  unfold Evaluation.count_relevant.
  assert (H : forall acc : Z,
             fold_left
               (fun acc url => if py_in url relevant then (acc + 1)%Z else acc)
               predicted_k acc
             = (acc + Z.of_nat (length (List.filter
                                          (fun url => py_in url relevant)
                                          predicted_k)))%Z).
  { induction predicted_k as [| u predicted_k IH]; intros acc; cbn.
    - lia.
    - rewrite IH. destruct (py_in u relevant); cbn [length]; lia. }
  rewrite H. lia.
Qed.

(** X11: The number of hits that the recall divides: it is never negative and
    never more than the predictions looked at, so at most [k]; and it is
    at most the number of relevant urls when no prediction is repeated.
    A repeated prediction is counted each time. *)
Theorem recall_hits_bounds (predicted relevant : list string) (k : Z) :
  let hits := Evaluation.count_relevant (py_slice_to k predicted) relevant in
  (0 <= hits <= Z.of_nat (length predicted))%Z
  /\ ((0 <= k)%Z -> (hits <= k)%Z)
  /\ (NoDup predicted -> (hits <= Z.of_nat (length relevant))%Z)
  /\ Evaluation.count_relevant (py_slice_to 10 ["u"; "u"; "u"]) ["u"] = 3%Z.
Proof.
  cbv zeta. rewrite count_relevant_filter.
  pose proof (List.filter_length_le (fun url => py_in url relevant)
                (py_slice_to k predicted)) as Hfilter.
  pose proof (sublist_length _ _ (py_slice_to_sublist k predicted)) as Hslice.
  split; [lia |]. split; [| split; [| reflexivity]].
  - intros Hk. pose proof (py_slice_to_length k predicted Hk). lia.
  - intros Hnodup. apply inj_le.
    apply (List.NoDup_incl_length (l' := relevant)).
    + apply List.NoDup_filter.
      apply NoDup_ListNoDup.
      exact (sublist_NoDup _ _ Hnodup (py_slice_to_sublist k predicted)).
    + intros u Hu. apply List.filter_In in Hu.
      destruct Hu as [_ Hu]. now apply py_in_true_iff.
Qed.

(** ** evaluation.py: evaluate_system *)

Lemma recall_at_k_returns (predicted relevant : list string) (k : Z) :
  exists recall,
    Evaluation.calculate_recall_at_k predicted relevant k = Ok recall.
Proof.
  destruct relevant as [| r rs]; [now exists 0%float |].
  unfold Evaluation.calculate_recall_at_k, py_truediv, mbind, result_bind.
  destruct (Z.eqb_spec (Z.of_nat (length (r :: rs))) 0) as [Hz | Hz].
  - cbn [length] in Hz. lia.
  - eexists. reflexivity.
Qed.

Lemma texts_of_texts (relevant : list string) :
  Evaluation.texts (map Evaluation.Text relevant) = relevant.
Proof.
  unfold Evaluation.texts.
  induction relevant as [| r rs IH]; [reflexivity |].
  cbn [map flat_map app]. now rewrite IH.
Qed.

Lemma recall_cells_of_texts (predicted relevant : list string) (k : Z) :
  Evaluation.calculate_recall_at_k_cells predicted
    (map Evaluation.Text relevant) k
  = Evaluation.calculate_recall_at_k predicted relevant k.
Proof.
  destruct relevant as [| r rs]; [reflexivity |].
  unfold Evaluation.calculate_recall_at_k_cells,
    Evaluation.calculate_recall_at_k.
  cbn [map]. change (Evaluation.Text r :: map Evaluation.Text rs)
    with (map Evaluation.Text (r :: rs)).
  now rewrite texts_of_texts, length_map.
Qed.

Lemma recall_cells_returns (predicted : list string)
  (relevant : list Evaluation.cell) (k : Z) :
  exists recall,
    Evaluation.calculate_recall_at_k_cells predicted relevant k = Ok recall.
Proof.
  destruct relevant as [| r rs]; [now exists 0%float |].
  unfold Evaluation.calculate_recall_at_k_cells, py_truediv, mbind,
    result_bind.
  destruct (Z.eqb_spec (Z.of_nat (length (r :: rs))) 0) as [Hz | Hz].
  - cbn [length] in Hz. lia.
  - eexists. reflexivity.
Qed.

Lemma urls_of_predictions_cases (predictions : list assessment) :
  if all_have_url predictions
  then exists urls,
         Evaluation.urls_of_predictions predictions = Ok urls
         /\ map url predictions = map Some urls
  else Evaluation.urls_of_predictions predictions = Raise (KeyError "url").
Proof.
  induction predictions as [| p ps IH]; [now exists [] |].
  cbn [all_have_url forallb Evaluation.urls_of_predictions].
  destruct (url p) as [u |] eqn:Hu; [| reflexivity].
  cbn [andb mbind result_bind]. fold (all_have_url ps).
  destruct (all_have_url ps).
  - destruct IH as [us [Hus Hmap]]. rewrite Hus. exists (u :: us).
    split; [reflexivity |]. cbn [map]. now rewrite Hu, Hmap.
  - now rewrite IH.
Qed.

Lemma evaluate_query_detail
  (predict_func : Evaluation.cell -> result (list assessment))
  (item : Evaluation.test_query) :
  exists d, Evaluation.evaluate_query predict_func item = Ok d
            /\ detail_of predict_func item d.
Proof.
  unfold Evaluation.evaluate_query.
  set (predicted :=
         try_except
           (predictions ← predict_func (Evaluation.tq_query item);
            Evaluation.urls_of_predictions predictions)
           (fun _ => Ok [])).
  assert (Hpred : exists urls,
             predicted = Ok urls
             /\ match predict_func (Evaluation.tq_query item) with
                | Ok predictions =>
                    if all_have_url predictions
                    then map url predictions = map Some urls
                    else urls = []
                | Raise _ => urls = []
                end).
  { subst predicted.
    destruct (predict_func (Evaluation.tq_query item)) as [ps | e];
      [| now exists []].
    cbn [mbind result_bind].
    pose proof (urls_of_predictions_cases ps) as Hcases.
    destruct (all_have_url ps).
    - destruct Hcases as [us [Hus Hmap]]. rewrite Hus. now exists us.
    - rewrite Hcases. now exists []. }
  destruct Hpred as [urls [Hurls Hshape]]. rewrite Hurls.
  destruct (recall_cells_returns urls (Evaluation.tq_relevant_urls item) 5)
    as [r5 Hr5].
  destruct (recall_cells_returns urls (Evaluation.tq_relevant_urls item) 10)
    as [r10 Hr10].
  cbn [mbind result_bind]. rewrite Hr5, Hr10. eexists. split; [reflexivity |].
  unfold detail_of. cbn.
  repeat (split; [reflexivity || assumption |]). assumption.
Qed.

Lemma evaluate_queries_details
  (predict_func : Evaluation.cell -> result (list assessment))
  (test_data : list Evaluation.test_query) :
  exists details,
    Evaluation.evaluate_queries predict_func test_data = Ok details
    /\ Forall2 (detail_of predict_func) test_data details.
Proof.
  induction test_data as [| item rest IH]; [exists []; now split |].
  destruct IH as [ds [Hds Hall]].
  destruct (evaluate_query_detail predict_func item) as [d [Hd Hdetail]].
  exists (d :: ds). cbn [Evaluation.evaluate_queries].
  rewrite Hd, Hds. split; [reflexivity | now constructor].
Qed.

Lemma evaluate_system_returns
  (predict_func : Evaluation.cell -> result (list assessment))
  (py_sum : list float -> float) (round4 : float -> float) (now : string)
  (item : Evaluation.test_query) (rest : list Evaluation.test_query) :
  exists s,
    Evaluation.evaluate_system predict_func py_sum round4 now (item :: rest)
    = Ok s
    /\ Evaluation.total_queries s = length (item :: rest)
    /\ Forall2 (detail_of predict_func) (item :: rest)
               (Evaluation.detailed_results s).
Proof.
  destruct (evaluate_queries_details predict_func (item :: rest))
    as [ds [Hds Hall]].
  unfold Evaluation.evaluate_system. rewrite Hds.
  pose proof (Forall2_length _ _ _ Hall) as Hlen.
  destruct ds as [| d ds']; [discriminate Hlen |].
  cbn [mbind result_bind Evaluation.div_by_len length].
  eexists. split; [reflexivity |].
  cbn [Evaluation.total_queries Evaluation.detailed_results].
  split; [| exact Hall]. cbn [length] in Hlen. now symmetry.
Qed.

(** X12: Over empty test data [evaluate_system] divides by the length of an
    empty list and raises [ZeroDivisionError]; over any other test data it
    returns a summary, whatever the predictions do: one detail per query,
    in the order of the test data, and a query whose prediction raises, or
    returns an item without url, is recorded with no predicted url instead
    of ending the evaluation.  The test data may hold the blank cells of
    the sheet; where the relevant urls are all texts, the recalls recorded
    are those of [calculate_recall_at_k]. *)
Theorem evaluate_system_outcome
  (predict_func : Evaluation.cell -> result (list assessment))
  (py_sum : list float -> float) (round4 : float -> float) (now : string)
  (item : Evaluation.test_query) (rest : list Evaluation.test_query) :
  Evaluation.evaluate_system predict_func py_sum round4 now []
  = Raise ZeroDivisionError
  /\ (exists s,
        Evaluation.evaluate_system predict_func py_sum round4 now
          (item :: rest)
        = Ok s
        /\ Evaluation.total_queries s = length (item :: rest)
        /\ Forall2 (detail_of predict_func) (item :: rest)
                   (Evaluation.detailed_results s))
  /\ forall (predicted relevant : list string) (k : Z),
       Evaluation.calculate_recall_at_k_cells predicted
         (map Evaluation.Text relevant) k
       = Evaluation.calculate_recall_at_k predicted relevant k.
Proof.
  split; [reflexivity |].
  split; [apply evaluate_system_returns | apply recall_cells_of_texts].
Qed.

(** ** evaluation.py: calculate_mean_recall_at_k *)

Lemma recalls_at_k_returns
  (evaluation_data : list (list string * list string)) (k : Z) :
  exists recalls,
    Evaluation.recalls_at_k evaluation_data k = Ok recalls
    /\ Forall2
         (fun item recall =>
            Evaluation.calculate_recall_at_k (fst item) (snd item) k
            = Ok recall)
         evaluation_data recalls.
Proof.
  induction evaluation_data as [| item rest IH]; [exists []; now split |].
  destruct IH as [rs [Hrs Hall]].
  destruct (recall_at_k_returns (fst item) (snd item) k) as [r Hr].
  exists (r :: rs). cbn [Evaluation.recalls_at_k].
  rewrite Hr, Hrs. split; [reflexivity | now constructor].
Qed.

(** X13: Unlike [evaluate_system], [calculate_mean_recall_at_k] guards its
    division: it never raises.  Over no data it returns [0.0]; otherwise it
    returns the sum of the recalls of the items, one per item and in
    order, divided by their number. *)
Theorem mean_recall_never_raises (py_sum : list float -> float)
  (evaluation_data : list (list string * list string)) (k : Z) :
  exists mean,
    Evaluation.calculate_mean_recall_at_k py_sum evaluation_data k = Ok mean
    /\ (evaluation_data = [] -> mean = 0%float)
    /\ (evaluation_data <> [] ->
        exists recalls,
          Forall2
            (fun item recall =>
               Evaluation.calculate_recall_at_k (fst item) (snd item) k
               = Ok recall)
            evaluation_data recalls
          /\ mean = PrimFloat.div
                      (py_sum recalls)
                      (float_of_int (Z.of_nat (length evaluation_data)))).
Proof.
  destruct evaluation_data as [| item rest].
  - exists 0%float. split; [reflexivity |]. split; [reflexivity | congruence].
  - destruct (recalls_at_k_returns (item :: rest) k) as [rs [Hrs Hall]].
    unfold Evaluation.calculate_mean_recall_at_k. rewrite Hrs.
    pose proof (Forall2_length _ _ _ Hall) as Hlen.
    destruct rs as [| r rs']; [discriminate Hlen |].
    cbn [mbind result_bind Evaluation.div_by_len].
    eexists. split; [reflexivity |]. split; [discriminate |].
    intros _. exists (r :: rs'). split; [exact Hall |]. now rewrite Hlen.
Qed.

(** ** evaluation.py: load_train_data *)

Lemma cell_same_true (a b : Evaluation.cell) :
  Evaluation.cell_same a b = true <-> a = b.
Proof.
  destruct a as [| x], b as [| y]; cbn; try (split; congruence).
  rewrite String.eqb_eq. split; congruence.
Qed.

Lemma cell_eqb_true (a b : Evaluation.cell) :
  Evaluation.cell_eqb a b = true
  <-> exists s, a = Evaluation.Text s /\ b = Evaluation.Text s.
Proof.
  destruct a as [| x], b as [| y]; cbn.
  - split; [discriminate | intros (s & Hs & _); discriminate].
  - split; [discriminate | intros (s & Hs & _); discriminate].
  - split; [discriminate | intros (s & _ & Hs); discriminate].
  - rewrite String.eqb_eq. split.
    + intros ->. now exists y.
    + intros (s & Hx & Hy). congruence.
Qed.

Lemma seen_true_iff (v : Evaluation.cell) (seen : list Evaluation.cell) :
  existsb (Evaluation.cell_same v) seen = true <-> In v seen.
Proof.
  rewrite existsb_exists. split.
  - intros [y [Hy Heq]]. apply cell_same_true in Heq. now subst.
  - intros Hin. exists v. split; [assumption | now apply cell_same_true].
Qed.

Lemma unique_spec (values seen : list Evaluation.cell) :
  NoDup (Evaluation.unique seen values)
  /\ Evaluation.unique seen values `sublist_of` values
  /\ forall v, In v (Evaluation.unique seen values)
               <-> In v values /\ ~ In v seen.
Proof.
  revert seen. induction values as [| v values IH]; intros seen.
  - cbn. split; [constructor |]. split; [constructor | tauto].
  - cbn [Evaluation.unique].
    destruct (existsb (Evaluation.cell_same v) seen) eqn:Hseen.
    + destruct (IH seen) as [Hnodup [Hsub Hin]].
      split; [exact Hnodup |]. split; [now apply sublist_cons |].
      intros x. rewrite Hin. cbn [In].
      apply seen_true_iff in Hseen.
      split; [tauto |]. intros [[Heq | Hx] Hnot]; [now subst | tauto].
    + destruct (IH (v :: seen)) as [Hnodup [Hsub Hin]].
      assert (Hv : ~ In v seen).
      { intros Hv. apply seen_true_iff in Hv. congruence. }
      split.
      { apply NoDup_cons. split; [| exact Hnodup].
        rewrite list_elem_of_In, Hin. cbn [In]. tauto. }
      split; [now apply sublist_skip |].
      intros x. cbn [In]. rewrite Hin. cbn [In].
      destruct (Evaluation.cell_same v x) eqn:Hsame.
      * apply cell_same_true in Hsame. subst. tauto.
      * assert (v <> x).
        { intros ->. now rewrite (proj2 (cell_same_true x x) eq_refl)
            in Hsame. }
        tauto.
Qed.

Lemma filter_split_perm {A : Type} (P Q : A -> bool) (l : list A) :
  (forall x, P x = true -> Q x = true -> False) ->
  Permutation (List.filter P l ++ List.filter Q l)
              (List.filter (fun x => P x || Q x) l).
Proof.
  intros Hdisjoint. induction l as [| a l IH]; [constructor |].
  cbn [List.filter].
  destruct (P a) eqn:HP, (Q a) eqn:HQ; cbn [orb app].
  - destruct (Hdisjoint a HP HQ).
  - now constructor.
  - rewrite <- Permutation_middle. now constructor.
  - exact IH.
Qed.

Lemma rows_by_key (df : Evaluation.sheet) (keys : list Evaluation.cell) :
  NoDup keys ->
  Permutation
    (flat_map
       (fun q => List.filter (fun row => Evaluation.cell_eqb (fst row) q) df)
       keys)
    (List.filter
       (fun row => existsb (Evaluation.cell_eqb (fst row)) keys) df).
Proof.
  induction keys as [| q keys IH]; intros Hnodup.
  - cbn [flat_map]. induction df as [| row df IHdf]; [constructor |].
    exact IHdf.
  - apply NoDup_cons in Hnodup as [Hq Hnodup].
    cbn [flat_map]. rewrite (IH Hnodup).
    apply (filter_split_perm
             (fun row => Evaluation.cell_eqb (fst row) q)
             (fun row => existsb (Evaluation.cell_eqb (fst row)) keys)).
    intros row Heq Hin.
    apply cell_eqb_true in Heq as (s & Hrow & ->).
    apply existsb_exists in Hin as (key & Hkey & Heq).
    apply cell_eqb_true in Heq as (s' & Hrow' & ->).
    apply Hq. apply list_elem_of_In. congruence.
Qed.

Lemma rows_of_urls_of (q : Evaluation.cell) (df : Evaluation.sheet) :
  map (pair q) (Evaluation.urls_of q df)
  = List.filter (fun row => Evaluation.cell_eqb (fst row) q) df.
Proof.
  unfold Evaluation.urls_of. induction df as [| [q' u] df IH];
    [reflexivity |].
  cbn [List.filter fst].
  destruct (Evaluation.cell_eqb q' q) eqn:Heq; [| exact IH].
  cbn [map snd]. rewrite IH.
  apply cell_eqb_true in Heq as (s & -> & ->). reflexivity.
Qed.

Lemma filter_sublist {A : Type} (f : A -> bool) (l : list A) :
  List.filter f l `sublist_of` l.
Proof.
  induction l as [| a l IH]; [constructor |].
  cbn [List.filter]. destruct (f a).
  - now apply sublist_skip.
  - now apply sublist_cons.
Qed.

Lemma filter_all_true {A : Type} (f : A -> bool) (l : list A) :
  (forall x, In x l -> f x = true) -> List.filter f l = l.
Proof.
  induction l as [| a l IH]; intros Hall; [reflexivity |].
  cbn [List.filter]. rewrite (Hall a (or_introl eq_refl)).
  f_equal. apply IH. intros x Hx. apply Hall. now right.
Qed.

Lemma blank_equals_no_key (keys : list Evaluation.cell) :
  existsb (Evaluation.cell_eqb Evaluation.Blank) keys = false.
Proof. induction keys as [| k keys IH]; [reflexivity | exact IH]. Qed.

(** X14: [load_train_data] never raises and groups the rows of the sheet by
    query.  The queries of the loaded items are pairwise distinct and come
    in the order of the sheet; an item whose query is a text has at least
    one relevant url, and its rows are rows of the sheet in the sheet's
    order; the rows of all items together are the rows of the sheet whose
    query cell holds a text, each row once.  A blank query cell is read as
    NaN, which [unique] lists and which equals no cell: the rows with a
    blank query are lost, and they leave one item with no relevant url.
    On a sheet without blank query cell, the rows of the items are the
    rows of the sheet.  A sheet that cannot be read gives the empty list. *)
Theorem load_train_data_groups_rows
  (read_excel : string -> result Evaluation.sheet) (file_path : string) :
  let data := Evaluation.load_train_data read_excel file_path in
  NoDup (map Evaluation.tq_query data)
  /\ Forall (fun item =>
               match Evaluation.tq_query item with
               | Evaluation.Text _ => Evaluation.tq_relevant_urls item <> []
               | Evaluation.Blank => Evaluation.tq_relevant_urls item = []
               end) data
  /\ match read_excel file_path with
     | Ok df =>
         map Evaluation.tq_query data `sublist_of` map fst df
         /\ Forall (fun item => rows_of item `sublist_of` df) data
         /\ Permutation (flat_map rows_of data) (List.filter has_query df)
         /\ (In Evaluation.Blank (map Evaluation.tq_query data)
             <-> In Evaluation.Blank (map fst df))
         /\ (forallb has_query df = true ->
             Permutation (flat_map rows_of data) df)
     | Raise _ => data = []
     end.
Proof.
  cbv zeta. unfold Evaluation.load_train_data.
  destruct (read_excel file_path) as [df | e].
  2: { split; [constructor |]. split; [constructor | reflexivity]. }
  destruct (unique_spec (map fst df) []) as [Hnodup [Hsub Hin]].
  set (keys := Evaluation.unique [] (map fst df)) in *.
  assert (Hqueries :
            map Evaluation.tq_query
              (map (fun query =>
                      {| Evaluation.tq_query := query;
                         Evaluation.tq_relevant_urls :=
                           Evaluation.urls_of query df |}) keys)
            = keys).
  { rewrite map_map. cbn [Evaluation.tq_query]. apply map_id. }
  assert (Hrows : Permutation
                    (flat_map rows_of
                       (map (fun query =>
                               {| Evaluation.tq_query := query;
                                  Evaluation.tq_relevant_urls :=
                                    Evaluation.urls_of query df |}) keys))
                    (List.filter has_query df)).
  { rewrite flat_map_concat_map, map_map, <- flat_map_concat_map.
    unfold rows_of. cbn [Evaluation.tq_query Evaluation.tq_relevant_urls].
    rewrite (flat_map_ext _ _ (fun q => rows_of_urls_of q df)).
    rewrite (rows_by_key df keys Hnodup).
    erewrite List.filter_ext_in; [reflexivity |].
    intros [q u] Hrow. unfold has_query. cbn [fst].
    destruct q as [| s]; [apply blank_equals_no_key |].
    apply existsb_exists. exists (Evaluation.Text s). split.
    - apply Hin. split; [| intros []].
      apply in_map_iff. now exists (Evaluation.Text s, u).
    - apply cell_eqb_true. now exists s. }
  rewrite Hqueries. split; [exact Hnodup |]. split; [| split; [exact Hsub |]].
  - apply Forall_forall. intros item Hitem.
    apply list_elem_of_In, in_map_iff in Hitem as [q [<- Hq]].
    cbn [Evaluation.tq_query Evaluation.tq_relevant_urls].
    destruct q as [| s].
    + unfold Evaluation.urls_of.
      replace (List.filter _ df) with (@nil (Evaluation.cell * Evaluation.cell));
        [reflexivity |].
      clear. induction df as [| [q u] df IH]; [reflexivity |].
      cbn [List.filter fst]. now destruct q.
    + apply Hin in Hq as [Hq _].
      apply in_map_iff in Hq as [[q' u] [Hfst Hrow]].
      cbn [fst] in Hfst. subst q'.
      intros Hnone.
      assert (Hfound : In (Evaluation.Text s, u)
                         (List.filter
                            (fun row => Evaluation.cell_eqb (fst row)
                                          (Evaluation.Text s)) df)).
      { apply List.filter_In. split; [exact Hrow |].
        apply cell_eqb_true. now exists s. }
      rewrite <- rows_of_urls_of, Hnone in Hfound. exact Hfound.
  - split.
    { apply Forall_forall. intros item Hitem.
      apply list_elem_of_In, in_map_iff in Hitem as [q [<- Hq]].
      unfold rows_of. cbn [Evaluation.tq_query Evaluation.tq_relevant_urls].
      rewrite rows_of_urls_of. apply filter_sublist. }
    split; [exact Hrows |]. split.
    { rewrite Hin. tauto. }
    intros Hall. rewrite Hrows.
    rewrite filter_all_true; [reflexivity |].
    intros row Hrow. rewrite forallb_forall in Hall. now apply Hall.
Qed.

(** ** vector_store.py: add_assessments and search *)

Lemma format_hit_created
  (call_function : string -> list string -> result pyvalue)
  (eval_other : string -> result pyvalue)
  (results : query_result) (i : nat) (a : catalog_assessment) :
  VectorStore.format_hit call_function eval_other results i
    (VectorStore._create_metadata a)
  = (d ← VectorStore.distance_at results i; Ok (hit_of a d)).
Proof.
  destruct (create_metadata_lookups a)
    as (Hn & Hu & Hd & Hdur & Htt & Had & Hre).
  unfold VectorStore.format_hit, VectorStore.getitem.
  rewrite Hn, Hu, Hd, Hdur, Htt, Had, Hre. cbn [mbind result_bind].
  unfold py_eval. rewrite parse_expr_str_of_list.
  reflexivity.
Qed.

Lemma format_hits_created
  (call_function : string -> list string -> result pyvalue)
  (eval_other : string -> result pyvalue)
  (results : query_result) (entries : list catalog_assessment) :
  forall i : nat,
    VectorStore.format_hits call_function eval_other results i
      (map VectorStore._create_metadata entries)
    = match distances results with
      | None | Some [] => Ok (map (fun a => hit_of a 0%float) entries)
      | Some (ds :: _) =>
          if (length entries <=? length (drop i ds))%nat
          then Ok (zip_with hit_of entries (drop i ds))
          else Raise IndexError
      end.
Proof.
  induction entries as [| a entries IH]; intros i.
  - cbn [map VectorStore.format_hits length Nat.leb zip_with].
    now destruct (distances results) as [[| ds more] |].
  - cbn [map VectorStore.format_hits]. rewrite format_hit_created, IH.
    unfold VectorStore.distance_at.
    destruct (distances results) as [[| ds more] |]; try reflexivity.
    destruct (ds !! i) as [d |] eqn:Hd.
    + rewrite (drop_S _ _ _ Hd). cbn [length Nat.leb mbind result_bind].
      now destruct (length entries <=? length (drop (S i) ds))%nat.
    + apply lookup_ge_None in Hd. rewrite (drop_ge ds i Hd).
      reflexivity.
Qed.

(** X15: What was indexed is what [search] returns: when the collection answers
    a query with payloads that [_create_metadata] made, [search] returns
    one hit per payload, in the order of the answer, with the fields of the
    indexed assessment (the duration as its decimal string) and the
    distance of the same rank, or [0.0] when the answer has no distances.
    When the answer has fewer distances than payloads, [search] returns no
    hit at all. *)
Theorem search_returns_indexed
  (call_function : string -> list string -> result pyvalue)
  (eval_other : string -> result pyvalue)
  (coll : collection) (query_embedding : list float) (n_results stored : Z)
  (results : query_result) (entries : list catalog_assessment)
  (more : list (list (gmap string string))) :
  count coll = Ok stored ->
  query coll [query_embedding] (Z.min n_results stored) = Ok results ->
  metadatas results
  = Some (map VectorStore._create_metadata entries :: more) ->
  VectorStore.search call_function eval_other coll query_embedding n_results
  = Ok match distances results with
       | None | Some [] => map (fun a => hit_of a 0%float) entries
       | Some (ds :: _) =>
           if (length entries <=? length ds)%nat
           then zip_with hit_of entries ds
           else []
       end.
Proof.
  intros Hcount Hquery Hmeta.
  unfold VectorStore.search, VectorStore.search_body.
  rewrite Hcount. cbn [mbind result_bind]. rewrite Hquery.
  cbn [mbind result_bind]. unfold VectorStore.format_results.
  rewrite Hmeta, format_hits_created.
  destruct (distances results) as [[| ds rest] |]; try reflexivity.
  rewrite drop_0.
  now destruct (length entries <=? length ds)%nat.
Qed.

Lemma search_returns_indexed_witness :
  VectorStore.search reporting_call eval_raises
    (collection_of [VectorStore._create_metadata java_entry;
                    VectorStore._create_metadata sales_entry])
    [PrimFloat.div 1 2] 20
  = Ok [hit_of java_entry 0%float; hit_of sales_entry 0%float].
Proof.
  exact (search_returns_indexed reporting_call eval_raises
           (collection_of [VectorStore._create_metadata java_entry;
                           VectorStore._create_metadata sales_entry])
           [PrimFloat.div 1 2] 20 2
           {| metadatas := Some [[VectorStore._create_metadata java_entry;
                                  VectorStore._create_metadata sales_entry]];
              distances := None |}
           [java_entry; sales_entry] []
           eq_refl eq_refl eq_refl).
Defined.

Lemma format_hit_missing_key
  (call_function : string -> list string -> result pyvalue)
  (eval_other : string -> result pyvalue)
  (results : query_result) (i : nat) (m : gmap string string) (key : string) :
  In key payload_keys -> m !! key = None ->
  exists e,
    VectorStore.format_hit call_function eval_other results i m = Raise e.
Proof.
  intros Hkey Hnone.
  unfold VectorStore.format_hit, VectorStore.getitem.
  destruct (m !! "name") eqn:H1; [| now eexists].
  destruct (m !! "url") eqn:H2; [| now eexists].
  destruct (m !! "description") eqn:H3; [| now eexists].
  destruct (m !! "duration") eqn:H4; [| now eexists].
  destruct (m !! "test_type") eqn:H5; [| now eexists].
  cbn [mbind result_bind].
  destruct (py_eval call_function eval_other _); [| now eexists].
  cbn [mbind result_bind].
  destruct (m !! "adaptive_support") eqn:H6; [| now eexists].
  destruct (m !! "remote_support") eqn:H7; [| now eexists].
  exfalso. unfold payload_keys in Hkey. cbn [In] in Hkey.
  repeat (destruct Hkey as [<- | Hkey]; [congruence |]). exact Hkey.
Qed.

Lemma format_hits_raises
  (call_function : string -> list string -> result pyvalue)
  (eval_other : string -> result pyvalue)
  (results : query_result) (ms : list (gmap string string)) :
  forall i : nat,
    (exists j m e, ms !! j = Some m
                   /\ VectorStore.format_hit call_function eval_other
                        results (i + j) m = Raise e) ->
    exists e,
      VectorStore.format_hits call_function eval_other results i ms = Raise e.
Proof.
  induction ms as [| m0 ms IH]; intros i (j & m & e & Hj & Hraise).
  - discriminate Hj.
  - cbn [VectorStore.format_hits].
    destruct j as [| j].
    + injection Hj as ->. rewrite Nat.add_0_r in Hraise. rewrite Hraise.
      now eexists.
    + destruct (VectorStore.format_hit _ _ _ i m0); [| now eexists].
      cbn [mbind result_bind].
      destruct (IH (S i)) as [e' He'].
      { exists j, m, e. split; [exact Hj |].
        now rewrite Nat.add_succ_comm. }
      rewrite He'. now eexists.
Qed.

(** X16: [search] is all or nothing: when one payload of the answer lacks one of
    the seven keys, [search] returns no hit, however many payloads of the
    answer are complete. *)
Theorem search_drops_all_on_incomplete_payload
  (call_function : string -> list string -> result pyvalue)
  (eval_other : string -> result pyvalue)
  (coll : collection) (query_embedding : list float) (n_results stored : Z)
  (results : query_result) (first : list (gmap string string))
  (more : list (list (gmap string string)))
  (m : gmap string string) (key : string) :
  count coll = Ok stored ->
  query coll [query_embedding] (Z.min n_results stored) = Ok results ->
  metadatas results = Some (first :: more) ->
  In m first -> In key payload_keys -> m !! key = None ->
  VectorStore.search call_function eval_other coll query_embedding n_results
  = Ok [].
Proof.
  intros Hcount Hquery Hmeta Hm Hkey Hnone.
  unfold VectorStore.search, VectorStore.search_body.
  rewrite Hcount. cbn [mbind result_bind]. rewrite Hquery.
  cbn [mbind result_bind]. unfold VectorStore.format_results. rewrite Hmeta.
  apply list_elem_of_In, list_elem_of_lookup in Hm as [j Hj].
  destruct (format_hits_raises call_function eval_other results first 0)
    as [e He]; [| now rewrite He].
  destruct (format_hit_missing_key call_function eval_other results
              (0 + j) m key Hkey Hnone) as [e He].
  now exists j, m, e.
Qed.

Lemma search_drops_all_on_incomplete_payload_witness :
  VectorStore.search reporting_call eval_raises
    (collection_of [VectorStore._create_metadata java_entry;
                    delete "url" (VectorStore._create_metadata sales_entry)])
    [PrimFloat.div 1 2] 20
  = Ok [].
Proof.
  apply (search_drops_all_on_incomplete_payload reporting_call eval_raises
           (collection_of
              [VectorStore._create_metadata java_entry;
               delete "url" (VectorStore._create_metadata sales_entry)])
           [PrimFloat.div 1 2] 20 2
           {| metadatas :=
                Some [[VectorStore._create_metadata java_entry;
                       delete "url"
                         (VectorStore._create_metadata sales_entry)]];
              distances := None |}
           [VectorStore._create_metadata java_entry;
            delete "url" (VectorStore._create_metadata sales_entry)]
           []
           (delete "url" (VectorStore._create_metadata sales_entry))
           "url").
  - reflexivity.
  - reflexivity.
  - reflexivity.
  - right. left. reflexivity.
  - right. left. reflexivity.
  - apply lookup_delete_eq.
Defined.

Lemma add_assessments_request
  (store : Type)
  (collection_add : VectorStore.add_request -> store -> result store)
  (a : catalog_assessment) (rest : list catalog_assessment)
  (e : list float) (erest : list (list float)) (s : store) :
  VectorStore.add_assessments store collection_add (a :: rest) (e :: erest) s
  = collection_add
      {| VectorStore.add_ids :=
           map (fun i : nat => "assessment_" +:+ pretty i)
               (seq 0 (length (a :: rest)));
         VectorStore.add_embeddings := e :: erest;
         VectorStore.add_documents :=
           map VectorStore._create_document (a :: rest);
         VectorStore.add_metadatas :=
           map VectorStore._create_metadata (a :: rest) |} s.
Proof.
  unfold VectorStore.add_assessments, VectorStore.add_body, try_except.
  now destruct (collection_add _ s).
Qed.

(** X17: [add_assessments] sends nothing when either list is empty.  Otherwise
    it sends one batch: the ids are pairwise distinct, the i-th id is
    [assessment_i], the i-th document and payload are those of the i-th
    assessment, and the embeddings are passed on as given, whatever their
    number; what the collection raises is raised to the caller. *)
Theorem add_assessments_sends_aligned_batch
  (store : Type) (collection_add : VectorStore.add_request -> store -> result store)
  (assessments : list catalog_assessment) (embeddings : list (list float))
  (s : store) :
  let add := VectorStore.add_assessments store collection_add in
  (assessments = [] \/ embeddings = [] -> add assessments embeddings s = Ok s)
  /\ (assessments <> [] -> embeddings <> [] ->
      exists req,
        add assessments embeddings s = collection_add req s
        /\ NoDup (VectorStore.add_ids req)
        /\ VectorStore.add_embeddings req = embeddings
        /\ length (VectorStore.add_ids req) = length assessments
        /\ length (VectorStore.add_documents req) = length assessments
        /\ length (VectorStore.add_metadatas req) = length assessments
        /\ forall (i : nat) (a : catalog_assessment),
             assessments !! i = Some a ->
             VectorStore.add_ids req !! i = Some ("assessment_" +:+ pretty i)
             /\ VectorStore.add_documents req !! i
                = Some (VectorStore._create_document a)
             /\ VectorStore.add_metadatas req !! i
                = Some (VectorStore._create_metadata a)).
Proof.
  cbv zeta. split.
  - unfold VectorStore.add_assessments, VectorStore.add_body.
    intros [-> | ->]; [reflexivity | now destruct assessments].
  - intros Ha He.
    destruct assessments as [| a0 rest]; [congruence |].
    destruct embeddings as [| e0 erest]; [congruence |].
    set (assessments := a0 :: rest).
    exists {| VectorStore.add_ids :=
                map (fun i : nat => "assessment_" +:+ pretty i)
                    (seq 0 (length assessments));
              VectorStore.add_embeddings := e0 :: erest;
              VectorStore.add_documents :=
                map VectorStore._create_document assessments;
              VectorStore.add_metadatas :=
                map VectorStore._create_metadata assessments |}.
    split; [subst assessments; apply add_assessments_request |].
    cbn [VectorStore.add_ids VectorStore.add_embeddings
         VectorStore.add_documents VectorStore.add_metadatas].
    split.
    { apply NoDup_ListNoDup. apply Finite.Injective_map_NoDup.
      - intros i j Heq. apply (inj (String.app "assessment_")) in Heq.
        now apply (inj pretty) in Heq.
      - apply List.seq_NoDup. }
    split; [reflexivity |].
    rewrite !length_map, length_seq.
    repeat (split; [reflexivity |]).
    intros i a Hi.
    change (@map) with (@fmap list _).
    rewrite !list_lookup_fmap, Hi.
    rewrite lookup_seq_lt by (apply lookup_lt_Some in Hi; exact Hi).
    now cbn.
Qed.

(** ** scraper.py *)

Lemma scraper_test_types_cases (description name : string) :
  let text := str_lower (name +:+ " " +:+ description) in
  let k := RagPipeline.any_in
             ["programming"; "coding"; "java"; "python"; "sql"; "technical";
              "software"; "developer"; "engineer"; "analyst"; "data"] text in
  let p := RagPipeline.any_in
             ["personality"; "behavior"; "leadership"; "communication";
              "collaboration"; "teamwork"; "soft skill"; "emotional"] text in
  let c := RagPipeline.any_in
             ["cognitive"; "reasoning"; "logical"; "verbal"; "numerical";
              "abstract"; "problem solving"] text in
  Scraper._extract_test_types description name
  = if k || p || c
    then (if k then ["Knowledge & Skills"] else [])
           ++ (if p then ["Personality & Behavior"] else [])
           ++ (if c then ["Cognitive"] else [])
    else ["General Assessment"].
Proof.
  intros text k p c. unfold Scraper._extract_test_types. cbv zeta.
  fold text. fold k. fold p. fold c.
  destruct k, p, c; reflexivity.
Qed.

Lemma scraper_test_types_shape (description name : string) :
  let types := Scraper._extract_test_types description name in
  types <> []
  /\ NoDup types
  /\ (types = ["General Assessment"] \/ types `sublist_of` known_categories).
Proof.
  cbv zeta. rewrite scraper_test_types_cases. cbv zeta.
  destruct (RagPipeline.any_in _ _), (RagPipeline.any_in _ _),
           (RagPipeline.any_in _ _);
    cbn [orb app];
    (split; [discriminate |]);
    (split; [compute_done |]);
    solve [ now left
          | right; unfold known_categories; repeat constructor ].
Qed.

Lemma substring_length_le (n : nat) (s : string) :
  String.length (String.substring 0 n s) <= n.
Proof.
  revert s. induction n as [| n IH]; intros [| c s]; cbn; try lia.
  specialize (IH s). lia.
Qed.

Lemma substring_empty (n : nat) (s : string) :
  String.substring 0 (S n) s = EmptyString -> s = EmptyString.
Proof. destruct s; [reflexivity | discriminate]. Qed.

(** The crux of [_scrape_assessment_page]: the fields of the [dict] it
    builds. *)
Lemma scrape_page_body_fields
  (fetch_page : string -> result page)
  (_extract_duration : page -> result Z) (str_title : string -> string)
  (url : string) (a : catalog_assessment) :
  Scraper.scrape_page_body fetch_page _extract_duration str_title url = Ok a ->
  c_url a = url
  /\ c_remote_support a = "Yes"
  /\ In (c_adaptive_support a) ["Yes"; "No"]
  /\ (String.length (c_description a) <= 500 \/ c_description a = c_name a)
  /\ (c_description a = EmptyString -> c_name a = EmptyString)
  /\ c_test_type a <> []
  /\ NoDup (c_test_type a)
  /\ (c_test_type a = ["General Assessment"]
      \/ c_test_type a `sublist_of` known_categories).
Proof.
  unfold Scraper.scrape_page_body.
  destruct (fetch_page url) as [soup | e]; [| discriminate].
  cbn [mbind result_bind].
  set (name := match h1 soup with
               | Some text => Ok text
               | None => _
               end).
  destruct name as [name | e]; [| discriminate].
  cbn [mbind result_bind].
  destruct (_extract_duration soup) as [duration | e]; [| discriminate].
  cbn [mbind result_bind].
  set (description := default EmptyString _).
  intros [= <-].
  cbn [c_url c_remote_support c_adaptive_support c_description c_name
       c_test_type].
  destruct (scraper_test_types_shape description name)
    as (Hne & Hnodup & Hshape).
  split; [reflexivity |]. split; [reflexivity |].
  split.
  { destruct (str_contains "adaptive" _); [now left | right; now left]. }
  split.
  { destruct (String.eqb description EmptyString); [now right | left].
    apply substring_length_le. }
  split.
  { destruct (String.eqb_spec description EmptyString) as [Heq | Hne'];
      [easy |].
    intros Hsub. now apply substring_empty in Hsub. }
  auto.
Qed.

Lemma scrape_assessment_page_cases
  (fetch_page : string -> result page)
  (_extract_duration : page -> result Z) (str_title : string -> string)
  (url : string) :
  (Scraper._scrape_assessment_page fetch_page _extract_duration str_title url
   = Ok None
   /\ exists e,
        Scraper.scrape_page_body fetch_page _extract_duration str_title url
        = Raise e)
  \/ exists a,
       Scraper._scrape_assessment_page fetch_page _extract_duration str_title
         url = Ok (Some a)
       /\ Scraper.scrape_page_body fetch_page _extract_duration str_title url
          = Ok a.
Proof.
  unfold Scraper._scrape_assessment_page.
  destruct (Scraper.scrape_page_body _ _ _ url) as [a | e].
  - right. now exists a.
  - left. split; [reflexivity | now exists e].
Qed.

(** X18: [_scrape_assessment_page] never raises: a page that cannot be fetched,
    a url without a last-but-one part when the page has no heading, and a
    failing duration search all give [None].  A page that is returned
    carries the url it was asked for, remote support [Yes], adaptive
    support [Yes] or [No], a description of at most 500 characters or the
    name itself, empty only when the name is, and a non-empty list of
    categories without repeats: [General Assessment] alone, or known
    categories in their fixed order. *)
Theorem scraped_page_is_well_formed
  (fetch_page : string -> result page)
  (_extract_duration : page -> result Z) (str_title : string -> string)
  (url : string) :
  exists r,
    Scraper._scrape_assessment_page fetch_page _extract_duration str_title url
    = Ok r
    /\ ((exists e, fetch_page url = Raise e) -> r = None)
    /\ forall a, r = Some a ->
         c_url a = url
         /\ c_remote_support a = "Yes"
         /\ In (c_adaptive_support a) ["Yes"; "No"]
         /\ (String.length (c_description a) <= 500
             \/ c_description a = c_name a)
         /\ (c_description a = EmptyString -> c_name a = EmptyString)
         /\ c_test_type a <> []
         /\ NoDup (c_test_type a)
         /\ (c_test_type a = ["General Assessment"]
             \/ c_test_type a `sublist_of` known_categories).
Proof.
  destruct (scrape_assessment_page_cases fetch_page _extract_duration
              str_title url) as [[Hnone _] | [a [Hsome Hbody]]].
  - exists None. split; [exact Hnone |]. split; [reflexivity | discriminate].
  - exists (Some a). split; [exact Hsome |]. split.
    + intros [e He]. unfold Scraper.scrape_page_body in Hbody.
      rewrite He in Hbody. discriminate Hbody.
    + intros a' [= <-].
      exact (scrape_page_body_fields _ _ _ _ _ Hbody).
Qed.





(** ** server.py *)

Lemma save_assessments_returns {world : Type}
  (delete_many : action world unit)
  (insert_many : list catalog_assessment -> action world unit)
  (assessments : list catalog_assessment) (w : world) :
  exists w',
    Server.save_assessments_to_db delete_many insert_many assessments w
    = (Return tt, w').
Proof.
  unfold Server.save_assessments_to_db, Server.try_except_all, Server.bind,
    Server.ret.
  destruct (delete_many w) as [[[] | e] w1]; [| now exists w1].
  destruct assessments as [| a rest]; [now exists w1 |].
  destruct (insert_many (a :: rest) w1) as [[[] | e] w2]; now exists w2.
Qed.

Lemma scrape_and_index_returns {world : Type}
  (scrape_catalog : action world (list catalog_assessment))
  (delete_many : action world unit)
  (insert_many : list catalog_assessment -> action world unit)
  (get_embeddings_batch : list string -> action world (list (list float)))
  (vector_clear : action world unit)
  (add_assessments :
     list catalog_assessment -> list (list float) -> action world unit)
  (w : world) :
  exists w',
    Server.scrape_and_index scrape_catalog delete_many insert_many
      get_embeddings_batch vector_clear add_assessments w
    = (Return tt, w').
Proof.
  unfold Server.scrape_and_index, Server.try_except_all, Server.bind,
    Server.ret.
  destruct (scrape_catalog w) as [[assessments | e] w1]; [| now exists w1].
  destruct assessments as [| a rest]; [now exists w1 |].
  destruct (save_assessments_returns delete_many insert_many (a :: rest) w1)
    as [w2 Hsave].
  rewrite Hsave.
  destruct (get_embeddings_batch _ w2) as [[embeddings_list | e] w3];
    [| now exists w3].
  destruct (vector_clear w3) as [[[] | e] w4]; [| now exists w4].
  destruct (add_assessments _ _ w4) as [[[] | e] w5]; now exists w5.
Qed.

(** X20: Neither [save_assessments_to_db] nor [scrape_and_index] raises,
    whatever the scraper, the database, the embedding service and the
    vector database do; and when the scraper returns no assessment,
    [scrape_and_index] stops there: nothing is saved, embedded, cleared or
    added. *)
Theorem indexing_never_raises {world : Type}
  (scrape_catalog : action world (list catalog_assessment))
  (delete_many : action world unit)
  (insert_many : list catalog_assessment -> action world unit)
  (get_embeddings_batch : list string -> action world (list (list float)))
  (vector_clear : action world unit)
  (add_assessments :
     list catalog_assessment -> list (list float) -> action world unit)
  (w : world) :
  (forall assessments,
     exists w',
       Server.save_assessments_to_db delete_many insert_many assessments w
       = (Return tt, w'))
  /\ (exists w',
        Server.scrape_and_index scrape_catalog delete_many insert_many
          get_embeddings_batch vector_clear add_assessments w
        = (Return tt, w'))
  /\ (forall w1,
        scrape_catalog w = (Return [], w1) ->
        Server.scrape_and_index scrape_catalog delete_many insert_many
          get_embeddings_batch vector_clear add_assessments w
        = (Return tt, w1)).
Proof.
  split; [intros assessments; apply save_assessments_returns |].
  split; [apply scrape_and_index_returns |].
  intros w1 Hscrape.
  unfold Server.scrape_and_index, Server.try_except_all, Server.bind,
    Server.ret.
  now rewrite Hscrape.
Qed.

Lemma make_assessments_length (py_int : string -> result Z)
  (recommendations : list assessment) :
  forall items,
    Server.make_assessments py_int recommendations = Ok items ->
    length items = length recommendations.
Proof.
  induction recommendations as [| rec rest IH]; intros items;
    cbn [Server.make_assessments].
  - now intros [= <-].
  - destruct (Server.make_assessment py_int rec) as [a | e];
      [| discriminate].
    cbn [mbind result_bind].
    destruct (Server.make_assessments py_int rest) as [items' | e];
      [| discriminate].
    cbn [mbind result_bind]. intros [= <-]. cbn [length].
    now rewrite (IH items').
Qed.

(** X21: The recommendation endpoint answers with a non-empty list of
    assessments or raises an [HTTPException] with status 500, and nothing
    else: the [HTTPException] with status 404 that it raises on an empty
    recommendation is caught by its own handler, and reaches the client as
    status 500 with the text of the 404 as detail. *)
Theorem recommend_endpoint_never_404 {world : Type}
  (vector_count : action world Z)
  (scrape_catalog : action world (list catalog_assessment))
  (delete_many : action world unit)
  (insert_many : list catalog_assessment -> action world unit)
  (get_embeddings_batch : list string -> action world (list (list float)))
  (vector_clear : action world unit)
  (add_assessments :
     list catalog_assessment -> list (list float) -> action world unit)
  (recommend : string -> Z -> action world (list assessment))
  (py_int : string -> result Z) (py_str : server_exn -> string)
  (query : string) (w : world) :
  let out :=
    fst (Server.recommend_assessments vector_count scrape_catalog delete_many
           insert_many get_embeddings_batch vector_clear add_assessments
           recommend py_int py_str query w) in
  ((exists items, out = Return items /\ items <> [])
   \/ exists e, out = Except (HTTPException 500 (py_str e)))
  /\ ((forall w', exists n, fst (vector_count w') = Return n) ->
      (forall w', fst (recommend query 10%Z w') = Return []) ->
      out = Except (HTTPException 500
                      (py_str (HTTPException 404 "No assessments found")))).
Proof.
  cbv zeta.
  unfold Server.recommend_assessments, Server.try_except_all, Server.bind.
  split.
  - destruct (vector_count w) as [[stored | e] w1];
      [| right; now exists e].
    destruct ((if (stored =? 0)%Z
               then Server.scrape_and_index scrape_catalog delete_many
                      insert_many get_embeddings_batch vector_clear
                      add_assessments
               else Server.ret tt) w1) as [[[] | e] w2];
      [| right; now exists e].
    destruct (recommend query 10%Z w2) as [[recs | e] w3];
      [| right; now exists e].
    destruct recs as [| rec rest]; [right; now eexists |].
    unfold Server.lift.
    destruct (Server.make_assessments py_int (rec :: rest))
      as [items | e] eqn:Hitems; [| right; now eexists].
    left. exists items. split; [reflexivity |].
    apply make_assessments_length in Hitems.
    now destruct items.
  - intros Hcount Hnone.
    destruct (Hcount w) as [stored Hstored].
    destruct (vector_count w) as [out1 w1]. cbn [fst] in Hstored.
    subst out1.
    assert (Hstep : exists w2,
               (if (stored =? 0)%Z
                then Server.scrape_and_index scrape_catalog delete_many
                       insert_many get_embeddings_batch vector_clear
                       add_assessments
                else Server.ret tt) w1 = (Return tt, w2)).
    { destruct (stored =? 0)%Z; [apply scrape_and_index_returns |].
      now exists w1. }
    destruct Hstep as [w2 Hstep]. rewrite Hstep.
    specialize (Hnone w2).
    destruct (recommend query 10%Z w2) as [out3 w3]. cbn [fst] in Hnone.
    now subst out3.
Qed.

Lemma recommend_endpoint_never_404_witness :
  fst (Server.recommend_assessments (world := unit)
         (Server.ret 0%Z) (Server.ret []) (Server.ret tt)
         (fun _ => Server.ret tt) (fun _ => Server.ret [])
         (Server.ret tt) (fun _ _ => Server.ret tt)
         (fun _ _ => Server.ret [])
         (fun _ => Raise ValueError)
         (fun e => match e with
                   | HTTPException status_code detail =>
                       pretty status_code +:+ ": " +:+ detail
                   | Other _ => "error"
                   end)
         "java developer" tt)
  = Except (HTTPException 500 "404: No assessments found").
Proof.
  etransitivity.
  - apply (proj2 (recommend_endpoint_never_404 (world := unit)
                    (Server.ret 0%Z) (Server.ret []) (Server.ret tt)
                    (fun _ => Server.ret tt) (fun _ => Server.ret [])
                    (Server.ret tt) (fun _ _ => Server.ret tt)
                    (fun _ _ => Server.ret [])
                    (fun _ => Raise ValueError)
                    (fun e => match e with
                              | HTTPException status_code detail =>
                                  pretty status_code +:+ ": " +:+ detail
                              | Other _ => "error"
                              end)
                    "java developer" tt)).
    + intros w'. now exists 0%Z.
    + intros w'. reflexivity.
  - vm_compute. reflexivity.
Defined.



(** X23: The evaluation endpoint answers with the summary of a non-empty
    evaluation or raises an [HTTPException] with status 500, and nothing
    else.  With the default test file: when the sheet cannot be read or
    has no row, the status 404 raised for missing test data reaches the
    client as status 500; when the sheet has a row, the evaluation itself
    cannot fail the request, which is answered with one query per distinct
    query text unless storing the summary raises. *)
Theorem evaluate_endpoint_never_404 {world : Type}
  (py_str : server_exn -> string)
  (download : string -> action world string)
  (read_excel : world -> string -> result Evaluation.sheet)
  (predict_func : world -> Evaluation.cell -> result (list assessment))
  (py_sum : list float -> float) (round4 : float -> float)
  (now : world -> string)
  (insert_one : Evaluation.summary -> action world unit)
  (test_file_url : option string) (w : world) :
  let out :=
    fst (Server.evaluate_system py_str download read_excel predict_func
           py_sum round4 now insert_one test_file_url w) in
  let file_path := "/app/data/test_data.xlsx" in
  ((exists response,
      out = Return response
      /\ er_message response = "Evaluation completed successfully"
      /\ 0 < er_total_queries response)
   \/ exists e, out = Except (HTTPException 500 (py_str e)))
  /\ (test_file_url = None ->
      ((exists e, read_excel w file_path = Raise e)
       \/ read_excel w file_path = Ok [] ->
       out = Except (HTTPException 500
                       (py_str (HTTPException 404 "Test data not found"))))
      /\ (forall df,
            read_excel w file_path = Ok df -> df <> [] ->
            (forall s w', exists w'', insert_one s w' = (Return tt, w'')) ->
            exists response,
              out = Return response
              /\ er_total_queries response
                 = length (Evaluation.load_train_data (read_excel w)
                             file_path)
              /\ 0 < er_total_queries response)).
Proof.
  cbv zeta.
  unfold Server.evaluate_system, Server.try_except_all.
  split.
  - unfold Server.bind.
    match goal with
    | |- context [match ?load w with _ => _ end] =>
        destruct (load w) as [[test_data | e] w1]
    end; [| right; now exists e].
    destruct test_data as [| item rest]; [right; now eexists |].
    unfold Server.run_evaluation, Server.lift.
    destruct (evaluate_system_returns (predict_func w1) py_sum round4
                (now w1) item rest) as (s & Hs & Htotal & _).
    rewrite Hs. unfold Server.ret.
    destruct (insert_one s w1) as [[[] | e] w2]; [| right; now exists e].
    left. eexists. split; [reflexivity |]. split; [reflexivity |].
    cbn [er_total_queries fst]. rewrite Htotal. cbn [length]. lia.
  - intros ->. unfold Server.bind, Server.load_train_data.
    split.
    + intros Hnone.
      assert (Hload : Evaluation.load_train_data (read_excel w)
                        "/app/data/test_data.xlsx" = []).
      { unfold Evaluation.load_train_data.
        destruct Hnone as [[e He] | Hempty]; [now rewrite He |].
        now rewrite Hempty. }
      now rewrite Hload.
    + intros df Hdf Hne Hinsert.
      destruct (Evaluation.load_train_data (read_excel w)
                  "/app/data/test_data.xlsx") as [| item rest] eqn:Hload.
      { unfold Evaluation.load_train_data in Hload. rewrite Hdf in Hload.
        destruct df as [| row df']; [congruence |]. discriminate Hload. }
      unfold Server.run_evaluation, Server.lift.
      destruct (evaluate_system_returns (predict_func w) py_sum round4
                  (now w) item rest) as (s & Hs & Htotal & _).
      rewrite Hs. unfold Server.ret.
      destruct (Hinsert s w) as [w2 Hw2]. rewrite Hw2.
      eexists. split; [reflexivity |].
      cbn [er_total_queries]. rewrite Htotal. cbn [length].
      split; [reflexivity | lia].
Qed.

Lemma evaluate_endpoint_never_404_witness :
  fst (Server.evaluate_system (world := unit)
         (fun e => match e with
                   | HTTPException status_code detail =>
                       pretty status_code +:+ ": " +:+ detail
                   | Other _ => "error"
                   end)
         (fun url => Server.ret url)
         (fun _ _ => Raise (ServiceError "no such file"))
         (fun _ _ => Ok [])
         (fun _ => 0%float) (fun x => x) (fun _ => "2025-01-01T00:00:00")
         (fun _ => Server.ret tt)
         None tt)
  = Except (HTTPException 500 "404: Test data not found").
Proof.
  etransitivity.
  - apply (proj1 (proj2 (evaluate_endpoint_never_404 (world := unit)
                    (fun e => match e with
                              | HTTPException status_code detail =>
                                  pretty status_code +:+ ": " +:+ detail
                              | Other _ => "error"
                              end)
                    (fun url => Server.ret url)
                    (fun _ _ => Raise (ServiceError "no such file"))
                    (fun _ _ => Ok [])
                    (fun _ => 0%float) (fun x => x)
                    (fun _ => "2025-01-01T00:00:00")
                    (fun _ => Server.ret tt)
                    None tt) eq_refl)).
    left. now exists (ServiceError "no such file").
  - vm_compute. reflexivity.
Defined.
